(** * Caption pipeline backend: a shallow embedding of [main.py]

    The development follows the source file top-down: string and number
    helpers that Python provides as built-ins, the timestamp formatter [ts],
    the caption-track writer [write_srt], the renderer [burn_subs], the plan
    and quota rules, and the two request handlers [full_process] and
    [stripe_webhook].

    Conventions.
    - A Python [str] is a [string]; a character is read as the code point
      with the same number (0..255).
    - A Python [float] is an IEEE double; a finite one is the rational [Q]
      it denotes.  An arithmetic operation on floats computes the exact
      result and rounds it to the nearest double, ties to the even
      significand ([Py.float_round]); [int()], [%] and [//] follow what
      the interpreter computes for them.  Infinities and NaN are left out.
    - Everything outside the process (the transcoder, the file system, the
      speech engine, the clock, the payment library) answers through an
      oracle that sees the history of events so far; the record store is an
      explicit pair of tables. *)

From Stdlib Require Import ZArith QArith Qround Qpower Lia Lqa String Ascii List Bool.
From stdpp Require Import base option list strings gmap.

Local Open Scope string_scope.
Local Open Scope Z_scope.

(** ** Python built-ins on [str] and [int] *)

Module Py.

(** The character of a decimal digit [0 <= d < 10]. *)
Definition digit_char (d : Z) : ascii := ascii_of_N (48 + Z.to_N d).

(** Decimal digits of a non-negative integer, most significant first. *)
Fixpoint digits_aux (fuel : nat) (n : Z) (acc : string) : string :=
  match fuel with
  | O => acc
  | S fuel' =>
      let acc' := String (digit_char (n mod 10)) acc in
      if n <? 10 then acc' else digits_aux fuel' (n / 10) acc'
  end.

Definition digits (n : Z) : string :=
  digits_aux (S (Z.to_nat (Z.log2 n))) n "".

(** [str(n)] for an [int]. *)
Definition str_int (n : Z) : string :=
  if n <? 0 then "-" ++ digits (- n) else digits n.

Fixpoint zeros (k : nat) : string :=
  match k with O => "" | S k' => String "0" (zeros k') end.

(** Left padding with ["0"] up to [width] characters. *)
Definition zfill (width : nat) (s : string) : string :=
  zeros (width - String.length s) ++ s.

(** [format(n, "0w")], the [{n:0w}] of an f-string: the sign, when there is
    one, comes first and counts in the width. *)
Definition format_0w (width : nat) (n : Z) : string :=
  if n <? 0 then "-" ++ zfill (width - 1) (digits (- n))
  else zfill width (digits n).

(** [int(x)] for a finite float: truncation towards zero. *)
Definition int_of_float (x : Q) : Z := Z.quot (Qnum x) (Z.pos (Qden x)).

(** [2^k] for [k] of either sign. *)
Definition pow2 (k : Z) : Q := (2 ^ k)%Q.

(** Rounding to the nearest integer, ties to the even one. *)
Definition round_half_even (x : Q) : Z :=
  let f := Qfloor x in
  match (x - inject_Z f ?= 1 # 2)%Q with
  | Lt => f
  | Gt => f + 1
  | Eq => if Z.even f then f else f + 1
  end.

(** The exponent of the last bit of the double nearest to [x >= 0]: a
    double carries 53 significant bits, and from [2^-1022] down the last
    bit stays at [2^-1074]. *)
Definition ulp_exp (x : Q) : Z := Z.log2 (Qfloor (x * pow2 1022)) - 1074.

(** The double nearest to [x >= 0]: [x] in units of the last bit, rounded
    to an integer. *)
Definition round_pos (x : Q) : Q :=
  (inject_Z (round_half_even (x * pow2 (- ulp_exp x))) * pow2 (ulp_exp x))%Q.

(** The double nearest to [x], ties to the even significand.  A result
    beyond the largest double is an infinity in Python and is not
    represented. *)
Definition float_round (x : Q) : Q :=
  if Qle_bool 0 x then round_pos x else (- round_pos (- x))%Q.

(** Whether a rational below [2^1024] in magnitude is the value of a
    double. *)
Definition is_float (x : Q) : bool := Qeq_bool (float_round x) x.

(** [x + y], [x - y], [x * y], [x / y] on floats ([y] not zero in the
    last). *)
Definition float_add (x y : Q) : Q := float_round (x + y).
Definition float_sub (x y : Q) : Q := float_round (x - y).
Definition float_mul (x y : Q) : Q := float_round (x * y).
Definition float_div (x y : Q) : Q := float_round (x / y).

(** C's [fmod(x, y)], from which the interpreter computes [%] and [//]
    on floats ([float_rem] and [float_floor_div] of CPython): the exact
    remainder of the quotient cut towards zero; it has the sign of [x]. *)
Definition c_fmod (x y : Q) : Q := (x - y * inject_Z (int_of_float (x / y)))%Q.

(** [x < 0] *)
Definition is_neg (x : Q) : bool := negb (Qle_bool 0 x).

(** Whether the remainder [r] has to be moved to the side of [y]: it is
    not zero and its sign is not that of [y]. *)
Definition wraps (r y : Q) : bool :=
  negb (Qeq_bool r 0) && negb (Bool.eqb (is_neg y) (is_neg r)).

(** [x % y] for floats, [y] not zero: the remainder takes the sign of [y]. *)
Definition fmod (x y : Q) : Q :=
  let r := c_fmod x y in
  if wraps r y then float_add r y else r.

(** [x // y] for floats, [y] not zero: the remainder is taken off [x], the
    rest divided by [y], one taken off when the remainder had to be moved,
    and the quotient brought to the nearest whole number. *)
Definition floordiv (x y : Q) : Q :=
  let r := c_fmod x y in
  let d := float_div (float_sub x r) y in
  let d := if wraps r y then float_sub d 1 else d in
  let f := inject_Z (Qfloor d) in
  if is_neg ((1 # 2) - float_sub d f)%Q then float_add f 1 else f.

(** [c.isspace()] on the code points below 256. *)
Definition isspace (c : ascii) : bool :=
  let n := N_of_ascii c in
  ((9 <=? n) && (n <=? 13) || (28 <=? n) && (n <=? 32)
   || (n =? 133) || (n =? 160))%N.

Fixpoint lstrip (s : string) : string :=
  match s with
  | String c s' => if isspace c then lstrip s' else s
  | EmptyString => EmptyString
  end.

(** [rstrip] keeps a character when it is not a space or when something is
    kept after it. *)
Fixpoint rstrip (s : string) : string :=
  match s with
  | EmptyString => EmptyString
  | String c s' =>
      match rstrip s' with
      | EmptyString => if isspace c then EmptyString else String c EmptyString
      | r => String c r
      end
  end.

(** [s.strip()] *)
Definition strip (s : string) : string := rstrip (lstrip s).

(** [s.replace(old, new)] for a one-character [old]. *)
Fixpoint replace (old : ascii) (new : string) (s : string) : string :=
  match s with
  | EmptyString => EmptyString
  | String c s' =>
      (if Ascii.eqb c old then new else String c EmptyString) ++ replace old new s'
  end.

(** [sep in s] for a one-character [sep]. *)
Fixpoint contains (sep : ascii) (s : string) : bool :=
  match s with
  | EmptyString => false
  | String c s' => Ascii.eqb c sep || contains sep s'
  end.

(** [s.rsplit(sep, 1)] as the pair (head, tail) of the last split, or [None]
    when [sep] does not occur. *)
Fixpoint rsplit1 (sep : ascii) (s : string) : option (string * string) :=
  match s with
  | EmptyString => None
  | String c s' =>
      match rsplit1 sep s' with
      | Some (h, t) => Some (String c h, t)
      | None => if Ascii.eqb c sep then Some (EmptyString, s') else None
      end
  end.

(** [s.rsplit(sep, 1)[0]] *)
Definition rsplit1_head (sep : ascii) (s : string) : string :=
  match rsplit1 sep s with Some (h, _) => h | None => s end.

(** [s.split(sep)] for a one-character [sep]. *)
Fixpoint split (sep : ascii) (s : string) : list string :=
  match s with
  | EmptyString => [EmptyString]
  | String c s' =>
      if Ascii.eqb c sep then EmptyString :: split sep s'
      else match split sep s' with
           | p :: ps => String c p :: ps
           | [] => [String c EmptyString]
           end
  end.

(** [sep.join(parts)] *)
Fixpoint join (sep : string) (parts : list string) : string :=
  match parts with
  | [] => EmptyString
  | [p] => p
  | p :: ps => p ++ sep ++ join sep ps
  end.

(** [s.startswith(c)] for one character. *)
Definition startswith (c : ascii) (s : string) : bool :=
  match s with String c' _ => Ascii.eqb c' c | EmptyString => false end.

Fixpoint endswith (c : ascii) (s : string) : bool :=
  match s with
  | EmptyString => false
  | String c' EmptyString => Ascii.eqb c' c
  | String _ s' => endswith c s'
  end.

End Py.

(** ** The timestamp formatter *)

(** [ts(seconds)], lines 62-68. *)
Definition ts (seconds : Q) : string :=
  let ms := Py.int_of_float
              (Py.float_mul
                 (Py.float_sub seconds (inject_Z (Py.int_of_float seconds))) 1000) in
  let h := Py.int_of_float (Py.floordiv seconds 3600) in
  let m := Py.int_of_float (Py.floordiv (Py.fmod seconds 3600) 60) in
  let s := Py.int_of_float (Py.fmod seconds 60) in
  Py.format_0w 2 h ++ ":" ++ Py.format_0w 2 m ++ ":" ++ Py.format_0w 2 s
    ++ "," ++ Py.format_0w 3 ms.


(** ** Data model *)

(** A timed text segment as the speech engine yields it
    ([s.start], [s.end], [s.text]). *)
Record Segment := { seg_start : Q; seg_end : Q; seg_text : string }.

(** A UTC instant: calendar year, month, and the microseconds elapsed since
    the first instant of that month. *)
Record Datetime := { year : Z; month : Z; in_month : Z }.

Definition datetime_geb (a b : Datetime) : bool :=
  (year b <? year a)
  || ((year a =? year b)
      && ((month b <? month a)
          || ((month a =? month b) && (in_month b <=? in_month a)))).

(** Rows of the two tables of the record store. *)
Record Usuario := { u_email : string; u_plano : string }.
Record Uso :=
  { uso_email : string; uso_video_nome : string; uso_plano : string;
    uso_data : Datetime }.
Record Store := { usuarios : list Usuario; usos : list Uso }.

(** The decoded payment event, as far as the handler reads it:
    [event["type"]] and [event["data"]["object"]["customer_details"]["email"]]
    ([None] when one of the keys is missing).  The e-mail of an event is a
    string; an event whose e-mail is present but null is not represented. *)
Record StripeEvent := { ev_type : string; ev_customer_email : option string }.

(** How [subprocess.run] ends: the child exits with a status, or it cannot
    be launched at all. *)
Inductive ProcResult := Exited (returncode : Z) | LaunchFailed.

Inductive FsOp :=
| Makedirs (path : string)
| OpenWrite (path : string)
| OpenRead (path : string).

(** What the process does to the outside, in order. *)
Inductive Event :=
| EvFs (op : FsOp) (ok : bool)
| EvExists (path : string) (ans : bool)
| EvRun (argv : list string) (res : ProcResult)
| EvTranscribe (audio_path : string) (ok : bool)
| EvUuid (v : string)
| EvNow (t : Datetime)
| EvPrint (items : list string).

Inductive Exn :=
| HTTPException (status_code : Z) (detail : string)
| CalledProcessError (returncode : Z) (cmd : list string)
| OSError (op : FsOp)
| FileNotFoundError (cmd : list string)
| RuntimeError (msg : string)
| ValueError (msg : string)
| KeyError (key : string)
| EngineError.

Inductive Result (A : Type) := Ok (a : A) | Raise (e : Exn).
Arguments Ok {A} a.
Arguments Raise {A} e.

(** The state a handler runs in: the store client ([None] when
    [SUPABASE_URL] or [SUPABASE_KEY] is unset, line 35), for each path this
    process has written what it last wrote there, and the history of
    events.  What a child process writes is not part of [files]. *)
Record World :=
  { supabase : option Store; files : gmap string string; log : list Event }.

(** The environment: configuration and the answers of the outside world,
    each a function of the history so far. *)
Record Env :=
  { STRIPE_WEBHOOK_SECRET : option string;
    uuid4 : list Event -> string;
    fs_ok : list Event -> FsOp -> bool;
    path_exists : list Event -> string -> bool;
    run_child : list Event -> list string -> ProcResult;
    model_transcribe : list Event -> string -> option (list Segment);
    utcnow : list Event -> Datetime;
    usos_data_default : list Event -> Datetime;
    construct_event : string -> option string -> string -> option StripeEvent }.

(** ** A state-and-exception monad for handlers *)

Definition M (A : Type) : Type := World -> Result A * World.

Definition ret {A} (a : A) : M A := fun w => (Ok a, w).
Definition raise {A} (e : Exn) : M A := fun w => (Raise e, w).
Definition bind {A B} (c : M A) (k : A -> M B) : M B :=
  fun w => match c w with
           | (Ok a, w') => k a w'
           | (Raise e, w') => (Raise e, w')
           end.

Notation "x <- c ;; k" := (bind c (fun x => k))
  (at level 100, c at next level, right associativity).
Notation "c ;;; k" := (bind c (fun _ => k))
  (at level 100, k at level 200, right associativity).

(** [try: c except CalledProcessError: handler] *)
Definition try_except_CalledProcessError {A} (c handler : M A) : M A :=
  fun w => match c w with
           | (Raise (CalledProcessError _ _), w') => handler w'
           | r => r
           end.

Definition emit (e : Event) : M unit :=
  fun w => (Ok tt, {| supabase := supabase w; files := files w; log := log w ++ [e] |}).

Definition get_log : M (list Event) := fun w => (Ok (log w), w).
Definition get_supabase : M (option Store) := fun w => (Ok (supabase w), w).
Definition set_store (st : Store) : M unit :=
  fun w => (Ok tt, {| supabase := Some st; files := files w; log := log w |}).
Definition set_files (fs : gmap string string) : M unit :=
  fun w => (Ok tt, {| supabase := supabase w; files := fs; log := log w |}).
Definition get_files : M (gmap string string) := fun w => (Ok (files w), w).

(** ** The [os], [pathlib] and [subprocess] calls the source makes *)

Module Os.

(** [os.path.join(a, b)] for two components. *)
Definition path_join (a b : string) : string :=
  if Py.startswith "/" b then b
  else if (String.length a =? 0)%nat || Py.endswith "/" a then a ++ b
  else a ++ "/" ++ b.

(** [os.path.basename(p)]: what follows the last ["/"]. *)
Definition basename (p : string) : string :=
  match Py.rsplit1 "/" p with Some (_, t) => t | None => p end.

End Os.

Module Path.

(** A pure POSIX path: the root (empty, ["/"] or ["//"]) and the components
    after it, with empty and ["."] components dropped. *)
Record t := { root : string; tail : list string }.

Definition keep_part (x : string) : bool :=
  negb (String.eqb x "") && negb (String.eqb x ".").

Definition parse_root (p : string) : string :=
  match p with
  | String "/" (String "/" (String "/" _)) => "/"
  | String "/" (String "/" _) => "//"
  | String "/" _ => "/"
  | _ => ""
  end.

(** [Path(p)] *)
Definition of_string (p : string) : t :=
  {| root := parse_root p; tail := List.filter keep_part (Py.split "/" p) |}.

(** [str(path)], which is also [path.as_posix()] here. *)
Definition str (p : t) : string :=
  match root p, tail p with
  | "", [] => "."
  | r, parts => r ++ Py.join "/" parts
  end.

(** [path.name] *)
Definition name (p : t) : string := List.last (tail p) "".

(** [path.stem]: the name without its last suffix; a leading or a trailing
    dot starts no suffix. *)
Definition stem_of_name (n : string) : string :=
  match Py.rsplit1 "." n with
  | Some (h, e) =>
      if (0 <? String.length h)%nat && (0 <? String.length e)%nat then h else n
  | None => n
  end.

(** [path.suffix] *)
Definition suffix_of_name (n : string) : string :=
  match Py.rsplit1 "." n with
  | Some (h, e) =>
      if (0 <? String.length h)%nat && (0 <? String.length e)%nat
      then "." ++ e else ""
  | None => ""
  end.

Definition stem (p : t) : string := stem_of_name (name p).
Definition suffix (p : t) : string := suffix_of_name (name p).

(** [path.with_name(n)]: refuses a path without a name and a name that is
    empty, is ["."] or holds a separator. *)
Definition with_name (p : t) (n : string) : Result t :=
  if String.eqb (name p) "" then Raise (ValueError "empty name")
  else if String.eqb n "" || String.eqb n "." || Py.contains "/" n
       then Raise (ValueError "invalid name")
       else Ok {| root := root p; tail := List.removelast (tail p) ++ [n] |}.

(** [path.parent] *)
Definition parent (p : t) : t :=
  {| root := root p; tail := List.removelast (tail p) |}.

End Path.

(** Characters that a string literal of this file cannot hold directly. *)
Definition nl : string := String "010"%char "".
Definition dquote : string := String "034"%char "".
Definition a_acute : string := String "225"%char "".
Definition a_tilde : string := String "227"%char "".
Definition c_cedilla : string := String "231"%char "".
Definition e_circ : string := String "234"%char "".

(** ** Plan rules *)

(** The literal dictionary of line 111. *)
Definition plan_limits : gmap string Z :=
  <["gratuito" := 3]> (<["criador" := 30]> (<["pro" := 9999]> ∅)).

(** [limit_for(plan)], lines 110-111. *)
Definition limit_for (plan : string) : Z := default 0 (plan_limits !! plan).

(** The responses the handlers build. *)
Inductive Response :=
| JsonOkTrue
| JsonStatus (status : string)
| StreamingResponse (path media_type : string) (headers : list (string * string)).

(** What the HTTP layer answers for the outcome of a handler. *)
Definition http_status {A} (r : Result A) : Z :=
  match r with
  | Ok _ => 200
  | Raise (HTTPException c _) => c
  | Raise _ => 500
  end.

(** The multipart body of [POST /full_process]. *)
Record Upload := { upload_bytes : string; form_email : string }.

(** The body and signature header of [POST /stripe/webhook]. *)
Record WebhookRequest := { payload : string; stripe_signature : option string }.

Section Handlers.

Variable E : Env.

(** A file-system call that may fail. *)
Definition fs_do (op : FsOp) : M unit :=
  l <- get_log ;;
  let ok := fs_ok E l op in
  emit (EvFs op ok) ;;;
  if ok then ret tt else raise (OSError op).

(** [open(path, "w")]: the file exists and is empty afterwards. *)
Definition open_w (path : string) : M unit :=
  fs_do (OpenWrite path) ;;;
  fs <- get_files ;;
  set_files (<[path := ""]> fs).

(** [f.write(data)] on a file opened at [path]. *)
Definition file_write (path data : string) : M unit :=
  fs <- get_files ;;
  set_files (<[path := default "" (fs !! path) ++ data]> fs).

(** [os.path.exists(path)] *)
Definition os_path_exists (path : string) : M bool :=
  l <- get_log ;;
  let ans := path_exists E l path in
  emit (EvExists path ans) ;;;
  ret ans.

(** [subprocess.run(argv, check=True)]: the child is started and waited
    for.  Only its end is observed; the files it reads or writes are its
    own business and do not show in [files]. *)
Definition subprocess_run (argv : list string) : M unit :=
  l <- get_log ;;
  let r := run_child E l argv in
  emit (EvRun argv r) ;;;
  match r with
  | Exited 0 => ret tt
  | Exited n => raise (CalledProcessError n argv)
  | LaunchFailed => raise (FileNotFoundError argv)
  end.

(** [ensure_temp()], lines 42-43. *)
Definition ensure_temp : M unit := fs_do (Makedirs "temp").

(** [save_temp_file(upload, ext)], lines 45-51. *)
Definition save_temp_file (upload : Upload) (ext : string) : M string :=
  ensure_temp ;;;
  l <- get_log ;;
  let u := uuid4 E l in
  emit (EvUuid u) ;;;
  let name := u ++ ext in
  let path := Os.path_join "temp" name in
  open_w path ;;;
  file_write path (upload_bytes upload) ;;;
  ret path.

(** [extract_audio(video_path)], lines 53-56. *)
Definition extract_audio (video_path : string) : M string :=
  let audio_path := Py.rsplit1_head "." video_path ++ ".mp3" in
  subprocess_run
    ["ffmpeg"; "-y"; "-i"; video_path; "-q:a"; "0"; "-map"; "a"; audio_path] ;;;
  ret audio_path.

(** [transcribe_segments(audio_path)], lines 58-60. *)
Definition transcribe_segments (audio_path : string) : M (list Segment) :=
  l <- get_log ;;
  match model_transcribe E l audio_path with
  | Some segments => emit (EvTranscribe audio_path true) ;;; ret segments
  | None => emit (EvTranscribe audio_path false) ;;; raise EngineError
  end.

(** One caption block, the f-string of line 77. *)
Definition srt_block (i : Z) (s : Segment) : string :=
  let start := ts (seg_start s) in
  let end_ := ts (seg_end s) in
  let text := Py.replace "010"%char " " (Py.strip (seg_text s)) in
  Py.str_int i ++ nl ++ start ++ " --> " ++ end_ ++ nl ++ text ++ nl ++ nl.

(** The loop of lines 73-77 over [enumerate(segments, start=i)]. *)
Fixpoint write_srt_loop (srt_path : string) (i : Z) (segments : list Segment)
  : M unit :=
  match segments with
  | [] => ret tt
  | s :: rest =>
      file_write srt_path (srt_block i s) ;;;
      write_srt_loop srt_path (i + 1) rest
  end.

(** [write_srt(segments, srt_path)], lines 70-77. *)
Definition write_srt (segments : list Segment) (srt_path : string) : M unit :=
  fs_do (Makedirs (Path.str (Path.parent (Path.of_string srt_path)))) ;;;
  open_w srt_path ;;;
  write_srt_loop srt_path 1 segments.

Definition force_style : string :=
  ":force_style='FontName=Arial,FontSize=40,PrimaryColour=&H00FFFFFF,OutlineColour=&H00000000,BorderStyle=1,Outline=3'".

(** The two command lines of lines 96-105. *)
Definition ffmpeg_burn (video_posix vf out_posix : string) : list string :=
  ["ffmpeg"; "-y"; "-i"; video_posix; "-vf"; vf; "-c:a"; "copy"; out_posix].

(** The output path of lines 81-82. *)
Definition burn_out_path (video_path : string) : Result string :=
  let base := Path.of_string video_path in
  match Path.with_name base (Path.stem base ++ "_final.mp4") with
  | Ok p => Ok (Path.str p)
  | Raise e => Raise e
  end.

(** [burn_subs(video_path, srt_path)], lines 79-107. *)
Definition burn_subs (video_path srt_path : string) : M string :=
  match burn_out_path video_path with
  | Raise e => raise e
  | Ok out_path =>
      let video_posix := Path.str (Path.of_string video_path) in
      let srt_posix := Path.str (Path.of_string srt_path) in
      let out_posix := Path.str (Path.of_string out_path) in
      found <- os_path_exists srt_path ;;
      if negb found
      then raise (RuntimeError ("SRT n" ++ a_tilde ++ "o encontrado: " ++ srt_path))
      else
        let vf := "subtitles=" ++ srt_posix ++ force_style in
        try_except_CalledProcessError
          (subprocess_run (ffmpeg_burn video_posix vf out_posix))
          (subprocess_run
             (ffmpeg_burn video_posix ("subtitles=" ++ srt_posix) out_posix)) ;;;
        ret out_path
  end.

(** [get_or_create_user(email)], lines 113-120. *)
Definition get_or_create_user (email : string) : M string :=
  sb <- get_supabase ;;
  match sb with
  | None => ret "gratuito"
  | Some st =>
      match List.filter (fun u => String.eqb (u_email u) email) (usuarios st) with
      | [] =>
          set_store {| usuarios := usuarios st
                                     ++ [{| u_email := email; u_plano := "gratuito" |}];
                       usos := usos st |} ;;;
          ret "gratuito"
      | r :: _ => ret (u_plano r)
      end
  end.

(** The rows selected at lines 127-130. *)
Definition uses_since (email : string) (start : Datetime) (st : Store) : list Uso :=
  List.filter
    (fun r => String.eqb (uso_email r) email && datetime_geb (uso_data r) start)
    (usos st).

(** [count_uses_this_month(email)], lines 122-131. *)
Definition count_uses_this_month (email : string) : M Z :=
  sb <- get_supabase ;;
  match sb with
  | None => ret 0
  | Some st =>
      l <- get_log ;;
      let today := utcnow E l in
      emit (EvNow today) ;;;
      let start := {| year := year today; month := month today; in_month := 0 |} in
      ret (Z.of_nat (length (uses_since email start st)))
  end.

(** [add_use(email, video_name, plan)], lines 133-135; the store fills the
    [data] column. *)
Definition add_use (email video_name plan : string) : M unit :=
  sb <- get_supabase ;;
  match sb with
  | Some st =>
      l <- get_log ;;
      set_store {| usuarios := usuarios st;
                   usos := usos st
                             ++ [{| uso_email := email; uso_video_nome := video_name;
                                    uso_plano := plan;
                                    uso_data := usos_data_default E l |}] |}
  | None => ret tt
  end.

(** [health()], lines 137-139. *)
Definition health : M Response := ret JsonOkTrue.

Definition quota_message (plan : string) (limit : Z) : string :=
  "Limite do plano '" ++ plan ++ "' atingido (" ++ Py.str_int limit ++ "/m"
    ++ e_circ ++ "s). Fa" ++ c_cedilla ++ "a upgrade.".

(** [full_process(file, email)], lines 141-166. *)
Definition full_process (file : Upload) : M Response :=
  let email := form_email file in
  if (String.length email =? 0)%nat || negb (Py.contains "@" email)
  then raise (HTTPException 400 ("Informe um e-mail v" ++ a_acute ++ "lido."))
  else
    plan <- get_or_create_user email ;;
    used <- count_uses_this_month email ;;
    let limit := limit_for plan in
    if limit <=? used
    then raise (HTTPException 403 (quota_message plan limit))
    else
      video_path <- save_temp_file file ".mp4" ;;
      audio_path <- extract_audio video_path ;;
      segs <- transcribe_segments audio_path ;;
      emit (EvPrint (List.map seg_text segs)) ;;;
      let srt_path := Py.rsplit1_head "." video_path ++ ".srt" in
      write_srt segs srt_path ;;;
      final_path <- burn_subs video_path srt_path ;;
      add_use email (Os.basename video_path) plan ;;;
      let headers :=
        [("Content-Disposition",
          "attachment; filename=" ++ dquote ++ "video_legenda.mp4" ++ dquote)] in
      fs_do (OpenRead final_path) ;;;
      ret (StreamingResponse final_path "video/mp4" headers).

(** The update of line 182. *)
Definition set_plano (email plano : string) (st : Store) : Store :=
  {| usuarios :=
       List.map (fun u => if String.eqb (u_email u) email
                          then {| u_email := u_email u; u_plano := plano |}
                          else u) (usuarios st);
     usos := usos st |}.

(** [stripe_webhook(request)], lines 168-183. *)
Definition stripe_webhook (request : WebhookRequest) : M Response :=
  sb <- get_supabase ;;
  match STRIPE_WEBHOOK_SECRET E, sb with
  | Some secret, Some st =>
      if (String.length secret =? 0)%nat then ret (JsonStatus "ignored")
      else
        match construct_event E (payload request) (stripe_signature request) secret with
        | None => raise (HTTPException 400 ("Webhook inv" ++ a_acute ++ "lido"))
        | Some event =>
            (if String.eqb (ev_type event) "checkout.session.completed"
             then match ev_customer_email event with
                  | Some email => set_store (set_plano email "criador" st)
                  | None => raise (KeyError "email")
                  end
             else ret tt) ;;;
            ret (JsonStatus "ok")
        end
  | _, _ => ret (JsonStatus "ignored")
  end.

End Handlers.

(** ** The timestamp format as the specification words it *)

Module Spec.

(** Rounding to the nearest integer, ties to the even one. *)
Definition round (x : Q) : Z :=
  let f := Qfloor x in
  let r := (x - inject_Z f)%Q in
  match (r ?= 1 # 2)%Q with
  | Lt => f
  | Gt => f + 1
  | Eq => if Z.even f then f else f + 1
  end.

Definition qmod (x y : Q) : Q := (x - y * inject_Z (Qfloor (x / y)))%Q.

(** Zero padding of a natural number to a width. *)
Definition pad (width : nat) (n : Z) : string := Py.zfill width (Py.digits n).

Definition hours (seconds : Q) : Z := Qfloor (seconds / 3600).
Definition minutes (seconds : Q) : Z := Qfloor (qmod seconds 3600 / 60).
Definition secs (seconds : Q) : Z := Qfloor (qmod seconds 60).

(** The milliseconds as section 4.4 gives them, with [round]. *)
Definition millis_round (seconds : Q) : Z :=
  round ((seconds - inject_Z (Qfloor seconds)) * 1000).

(** The milliseconds with the fraction cut, not rounded. *)
Definition millis_floor (seconds : Q) : Z :=
  Qfloor ((seconds - inject_Z (Qfloor seconds)) * 1000).

(** The milliseconds of a product taken in double precision: the fraction
    times 1000 is first rounded to the nearest double, then cut. *)
Definition millis_double (seconds : Q) : Z :=
  Qfloor (Py.float_round ((seconds - inject_Z (Qfloor seconds)) * 1000)).

Definition format (millis : Q -> Z) (seconds : Q) : string :=
  pad 2 (hours seconds) ++ ":" ++ pad 2 (minutes seconds) ++ ":"
    ++ pad 2 (secs seconds) ++ "," ++ pad 3 (millis seconds).

(** Concatenation of the pieces of a document, in order. *)
Definition cat (parts : list string) : string :=
  fold_right String.append "" parts.

(** The caption track: one block per segment, the block of the segment at
    position [k] (from 0) carrying the ordinal [k + 1]. *)
Definition blocks (segments : list Segment) : list string :=
  imap (fun k s => srt_block (Z.of_nat k + 1) s) segments.

Definition track (segments : list Segment) : string := cat (blocks segments).

Fixpoint all_space (s : string) : bool :=
  match s with
  | EmptyString => true
  | String c s' => Py.isspace c && all_space s'
  end.

Definition starts_with_space (s : string) : bool :=
  match s with String c _ => Py.isspace c | EmptyString => false end.

Fixpoint ends_with_space (s : string) : bool :=
  match s with
  | EmptyString => false
  | String c EmptyString => Py.isspace c
  | String _ s' => ends_with_space s'
  end.

(** Every newline becomes one space; nothing else changes. *)
Fixpoint newlines_to_spaces (s : string) : string :=
  match s with
  | EmptyString => EmptyString
  | String c s' =>
      String (if Ascii.eqb c "010"%char then " "%char else c)
             (newlines_to_spaces s')
  end.

(** [line] is [text] with its leading and trailing whitespace trimmed and
    its inner newlines turned into spaces. *)
Definition caption_text_of (text line : string) : Prop :=
  exists pre core suf : string,
    text = pre ++ core ++ suf
    /\ all_space pre = true /\ all_space suf = true
    /\ starts_with_space core = false /\ ends_with_space core = false
    /\ line = newlines_to_spaces core.

Fixpoint count_char (c : ascii) (s : string) : nat :=
  match s with
  | EmptyString => O
  | String c' s' => ((if Ascii.eqb c' c then 1 else 0) + count_char c s')%nat
  end.

End Spec.

(** The directory [write_srt] creates for [srt_path]. *)
Definition srt_dir (srt_path : string) : string :=
  Path.str (Path.parent (Path.of_string srt_path)).

(** Whether the two file-system calls of [write_srt] go through in [w]. *)
Definition srt_opens (E : Env) (w : World) (srt_path : string) : bool :=
  fs_ok E (log w) (Makedirs (srt_dir srt_path))
  && fs_ok E (log w ++ [EvFs (Makedirs (srt_dir srt_path)) true])
           (OpenWrite srt_path).

(** ** Observing a run *)

(** The events a handler added when it took [w] to [w']. *)
Definition new_events (w w' : World) : list Event :=
  drop (length (log w)) (log w').

(** The child processes among some events, with how each ended. *)
Definition runs (evs : list Event) : list (list string * ProcResult) :=
  omap (fun e => match e with EvRun argv r => Some (argv, r) | _ => None end) evs.

(** What [subprocess.run(argv, check=True)] makes of the way the child
    ended. *)
Definition run_outcome (argv : list string) (r : ProcResult) : Result unit :=
  match r with
  | Exited 0 => Ok tt
  | Exited n => Raise (CalledProcessError n argv)
  | LaunchFailed => Raise (FileNotFoundError argv)
  end.

(** [w] with further events logged. *)
Definition logged (w : World) (evs : list Event) : World :=
  {| supabase := supabase w; files := files w; log := log w ++ evs |}.

(** The usage records of a world; none without a store. *)
Definition usage_records (w : World) : list Uso :=
  match supabase w with Some st => usos st | None => [] end.

(** The first and the second command line of [burn_subs]. *)
Definition styled_cmd (video_path srt_path out_path : string) : list string :=
  ffmpeg_burn (Path.str (Path.of_string video_path))
    ("subtitles=" ++ Path.str (Path.of_string srt_path) ++ force_style)
    (Path.str (Path.of_string out_path)).

Definition plain_cmd (video_path srt_path out_path : string) : list string :=
  ffmpeg_burn (Path.str (Path.of_string video_path))
    ("subtitles=" ++ Path.str (Path.of_string srt_path))
    (Path.str (Path.of_string out_path)).

(** The output path under the convention [<stem>_final<ext>] of the
    specification. *)
Definition claimed_out_path (video_path : string) : Result string :=
  let base := Path.of_string video_path in
  match Path.with_name base (Path.stem base ++ "_final" ++ Path.suffix base) with
  | Ok p => Ok (Path.str p)
  | Raise e => Raise e
  end.

(** The body of [full_process] once the quota gate is passed,
    lines 152-166. *)
Definition pipeline (E : Env) (file : Upload) (email plan : string) : M Response :=
  video_path <- save_temp_file E file ".mp4" ;;
  audio_path <- extract_audio E video_path ;;
  segs <- transcribe_segments E audio_path ;;
  emit (EvPrint (List.map seg_text segs)) ;;;
  let srt_path := Py.rsplit1_head "." video_path ++ ".srt" in
  write_srt E segs srt_path ;;;
  final_path <- burn_subs E video_path srt_path ;;
  add_use E email (Os.basename video_path) plan ;;;
  let headers :=
    [("Content-Disposition",
      "attachment; filename=" ++ dquote ++ "video_legenda.mp4" ++ dquote)] in
  fs_do E (OpenRead final_path) ;;;
  ret (StreamingResponse final_path "video/mp4" headers).

(** The record [add_use] appends. *)
Definition use_record (E : Env) (w : World) (email video_name plan : string) : Uso :=
  {| uso_email := email; uso_video_nome := video_name; uso_plano := plan;
     uso_data := usos_data_default E (log w) |}.

Definition with_use (u : Uso) (st : Store) : Store :=
  {| usuarios := usuarios st; usos := usos st ++ [u] |}.

(** The store once [get_or_create_user] has seen [email]. *)
Definition with_user (email : string) (st : Store) : Store :=
  match List.filter (fun u => String.eqb (u_email u) email) (usuarios st) with
  | [] => {| usuarios := usuarios st
                           ++ [{| u_email := email; u_plano := "gratuito" |}];
             usos := usos st |}
  | _ :: _ => st
  end.

(** The world in which the gate decides: the user is known and, with a
    store, the clock has been read. *)
Definition gate_world (E : Env) (email : string) (w : World) : World :=
  match supabase w with
  | Some st =>
      {| supabase := Some (with_user email st); files := files w;
         log := log w ++ [EvNow (utcnow E (log w))] |}
  | None => w
  end.

(** The guard of line 170: the billing integration or the store is not
    configured. *)
Definition unconfigured (E : Env) (w : World) : Prop :=
  STRIPE_WEBHOOK_SECRET E = None \/ STRIPE_WEBHOOK_SECRET E = Some ""
  \/ supabase w = None.

(** The condition of line 143, negated. *)
Definition email_ok (email : string) : bool :=
  negb ((String.length email =? 0)%nat || negb (Py.contains "@" email)).

(** The plan [get_or_create_user] resolves in [w]. *)
Definition plan_of (w : World) (email : string) : string :=
  match supabase w with
  | None => "gratuito"
  | Some st =>
      match List.filter (fun u => String.eqb (u_email u) email) (usuarios st) with
      | [] => "gratuito"
      | r :: _ => u_plano r
      end
  end.

(** The uses [count_uses_this_month] counts in [w]. *)
Definition used_of (E : Env) (w : World) (email : string) : Z :=
  match supabase w with
  | None => 0
  | Some st =>
      let today := utcnow E (log w) in
      Z.of_nat (length (uses_since email
                          {| year := year today; month := month today; in_month := 0 |}
                          st))
  end.

(** An outside call that went wrong. *)
Definition failure (e : Event) : bool :=
  match e with
  | EvFs _ ok => negb ok
  | EvExists _ ans => negb ans
  | EvRun _ (Exited 0) => false
  | EvRun _ _ => true
  | EvTranscribe _ ok => negb ok
  | _ => false
  end.

(** Nothing follows a failure, except that a styled render that exits with
    an error is followed by the plain render. *)
Fixpoint stops_at_failure (evs : list Event) : Prop :=
  match evs with
  | [] => True
  | ev :: rest =>
      (failure ev = true ->
       rest = []
       \/ exists (vi vf vo : string) (n : Z) (r2 : ProcResult) (rest' : list Event),
            ev = EvRun (ffmpeg_burn vi (vf ++ force_style) vo) (Exited n)
            /\ rest = EvRun (ffmpeg_burn vi vf vo) r2 :: rest')
      /\ stops_at_failure rest
  end.

(** Work that the quota gate is there to spare. *)
Definition expensive (e : Event) : bool :=
  match e with EvNow _ => false | _ => true end.

(** ** A sample environment

    Every outside call succeeds; the engine hears two segments. *)
Module Sample.

Definition hello_world : list Segment :=
  [ {| seg_start := 0; seg_end := 2; seg_text := " hello " |};
    {| seg_start := 2; seg_end := 9 # 2; seg_text := "world" |} ].

Definition may_2024 (us : Z) : Datetime :=
  {| year := 2024; month := 5; in_month := us |}.

Definition env : Env :=
  {| STRIPE_WEBHOOK_SECRET := Some "whsec_test";
     uuid4 := fun _ => "0b5e";
     fs_ok := fun _ _ => true;
     path_exists := fun _ _ => true;
     run_child := fun _ _ => Exited 0;
     model_transcribe := fun _ _ => Some hello_world;
     utcnow := fun _ => may_2024 77;
     usos_data_default := fun _ => may_2024 78;
     construct_event := fun _ _ _ =>
       Some {| ev_type := "invoice.paid"; ev_customer_email := None |} |}.

Definition is_run (e : Event) : bool :=
  match e with EvRun _ _ => true | _ => false end.

(** The same, but the first child process of a history exits with 1. *)
Definition env_retry : Env :=
  {| STRIPE_WEBHOOK_SECRET := STRIPE_WEBHOOK_SECRET env;
     uuid4 := uuid4 env;
     fs_ok := fs_ok env;
     path_exists := path_exists env;
     run_child := fun l _ => if existsb is_run l then Exited 0 else Exited 1;
     model_transcribe := model_transcribe env;
     utcnow := utcnow env;
     usos_data_default := usos_data_default env;
     construct_event := construct_event env |}.

(** The same as [env], but no file can be opened for reading. *)
Definition env_unreadable : Env :=
  {| STRIPE_WEBHOOK_SECRET := STRIPE_WEBHOOK_SECRET env;
     uuid4 := uuid4 env;
     fs_ok := fun _ op => match op with OpenRead _ => false | _ => true end;
     path_exists := path_exists env;
     run_child := run_child env;
     model_transcribe := model_transcribe env;
     utcnow := utcnow env;
     usos_data_default := usos_data_default env;
     construct_event := construct_event env |}.

Definition empty_store : Store := {| usuarios := []; usos := [] |}.

Definition use_of (email : string) (us : Z) : Uso :=
  {| uso_email := email; uso_video_nome := "v.mp4"; uso_plano := "gratuito";
     uso_data := may_2024 us |}.

(** A free user who has used the service three times this month. *)
Definition spent_store : Store :=
  {| usuarios := [{| u_email := "a@b.com"; u_plano := "gratuito" |}];
     usos := [use_of "a@b.com" 10; use_of "a@b.com" 20; use_of "a@b.com" 30] |}.

Definition upload : Upload := {| upload_bytes := "video"; form_email := "a@b.com" |}.

(** A signed notification of a paid invoice. *)
Definition invoice_paid : WebhookRequest :=
  {| payload := "{}"; stripe_signature := Some "t=1,v1=5257a8" |}.

Definition world (sb : option Store) : World :=
  {| supabase := sb; files := ∅; log := [] |}.

(** A segment that ends before it starts. *)
Definition backwards : Segment :=
  {| seg_start := 2; seg_end := 1; seg_text := "x" |}.

End Sample.

(** ** Further observers *)

(** The first instant of the month of [t], line 126. *)
Definition month_start (t : Datetime) : Datetime :=
  {| year := year t; month := month t; in_month := 0 |}.

(** [r] is dated in a month before the month of [t]. *)
Definition earlier_month (r t : Datetime) : bool :=
  (year r <? year t) || ((year r =? year t) && (month r <? month t)).

(** Every reading of the clock, and every date the store stamps on a new
    usage record, falls in the month [m] of the year [y]. *)
Definition within_month (E : Env) (y m : Z) : Prop :=
  forall l : list Event,
    year (utcnow E l) = y /\ month (utcnow E l) = m
    /\ datetime_geb (usos_data_default E l)
         {| year := y; month := m; in_month := 0 |} = true.

(** The rows of the user table for an e-mail. *)
Definition rows_of (email : string) (st : Store) : list Usuario :=
  List.filter (fun u => String.eqb (u_email u) email) (usuarios st).

(** The video saved for the job [u], line 47-48, and the names derived
    from it: the audio of line 54 and the caption file of line 159. *)
Definition job_video (u : string) : string := Os.path_join "temp" (u ++ ".mp4").
Definition job_audio (u : string) : string :=
  Py.rsplit1_head "." (job_video u) ++ ".mp3".
Definition job_srt (u : string) : string :=
  Py.rsplit1_head "." (job_video u) ++ ".srt".

(** The command line of [extract_audio], line 55. *)
Definition extract_cmd (video_path : string) : list string :=
  ["ffmpeg"; "-y"; "-i"; video_path; "-q:a"; "0"; "-map"; "a";
   Py.rsplit1_head "." video_path ++ ".mp3"].

(** Further sample data. *)
Module Sample2.

(** A free user whose three uses all date from April 2024. *)
Definition april_store : Store :=
  {| usuarios := [{| u_email := "a@b.com"; u_plano := "gratuito" |}];
     usos :=
       List.map (fun us => {| uso_email := "a@b.com"; uso_video_nome := "v.mp4";
                              uso_plano := "gratuito";
                              uso_data := {| year := 2024; month := 4;
                                             in_month := us |} |})
                [10; 20; 30] |}.

(** A free user with two uses in May 2024, and a pro user. *)
Definition two_uses_store : Store :=
  {| usuarios := [{| u_email := "a@b.com"; u_plano := "gratuito" |};
                  {| u_email := "p@b.com"; u_plano := "pro" |}];
     usos := [Sample.use_of "a@b.com" 10; Sample.use_of "a@b.com" 20] |}.

(** A verified notification that [p@b.com] completed a checkout. *)
Definition env_checkout : Env :=
  {| STRIPE_WEBHOOK_SECRET := STRIPE_WEBHOOK_SECRET Sample.env;
     uuid4 := uuid4 Sample.env;
     fs_ok := fs_ok Sample.env;
     path_exists := path_exists Sample.env;
     run_child := run_child Sample.env;
     model_transcribe := model_transcribe Sample.env;
     utcnow := utcnow Sample.env;
     usos_data_default := usos_data_default Sample.env;
     construct_event := fun _ _ _ =>
       Some {| ev_type := "checkout.session.completed";
               ev_customer_email := Some "p@b.com" |} |}.

(** The payment library refuses every signature. *)
Definition env_bad_signature : Env :=
  {| STRIPE_WEBHOOK_SECRET := STRIPE_WEBHOOK_SECRET Sample.env;
     uuid4 := uuid4 Sample.env;
     fs_ok := fs_ok Sample.env;
     path_exists := path_exists Sample.env;
     run_child := run_child Sample.env;
     model_transcribe := model_transcribe Sample.env;
     utcnow := utcnow Sample.env;
     usos_data_default := usos_data_default Sample.env;
     construct_event := fun _ _ _ => None |}.

(** The caption file is never there. *)
Definition env_no_srt : Env :=
  {| STRIPE_WEBHOOK_SECRET := STRIPE_WEBHOOK_SECRET Sample.env;
     uuid4 := uuid4 Sample.env;
     fs_ok := fs_ok Sample.env;
     path_exists := fun _ _ => false;
     run_child := run_child Sample.env;
     model_transcribe := model_transcribe Sample.env;
     utcnow := utcnow Sample.env;
     usos_data_default := usos_data_default Sample.env;
     construct_event := construct_event Sample.env |}.

(** A user whose plan is none of the three names. *)
Definition legacy_store : Store :=
  {| usuarios := [{| u_email := "a@b.com"; u_plano := "premium" |}]; usos := [] |}.

(** An upload whose e-mail has no ["@"]. *)
Definition no_at : Upload := {| upload_bytes := "video"; form_email := "nobody" |}.

End Sample2.

(** * Properties *)

(** ** Decimal digits and padding *)

Lemma string_length_app (a b : string) :
  String.length (a ++ b) = (String.length a + String.length b)%nat.
Proof. induction a as [|c a IH]; simpl; [reflexivity | now rewrite IH]. Qed.

Lemma zeros_length (k : nat) : String.length (Py.zeros k) = k.
Proof. induction k as [|k IH]; simpl; [reflexivity | now rewrite IH]. Qed.

Lemma zfill_length (w : nat) (s : string) :
  String.length (Py.zfill w s) = Nat.max w (String.length s).
Proof. unfold Py.zfill. rewrite string_length_app, zeros_length. lia. Qed.

Lemma digits_aux_length_le (fuel : nat) :
  forall (k : nat) (n : Z) (acc : string),
    (1 <= k)%nat -> n < 10 ^ Z.of_nat k ->
    (String.length (Py.digits_aux fuel n acc) <= k + String.length acc)%nat.
Proof.
  induction fuel as [|fuel IH]; intros k n acc Hk Hn; simpl; [lia|].
  destruct (Z.ltb_spec n 10) as [Hlt|Hge]; simpl; [lia|].
  destruct k as [|[|k]]; [lia | simpl in Hn; lia |].
  specialize (IH (S k) (n / 10) (String (Py.digit_char (n mod 10)) acc)).
  simpl String.length in IH.
  assert (n / 10 < 10 ^ Z.of_nat (S k)).
  { apply Z.div_lt_upper_bound; [lia|].
    replace (Z.of_nat (S (S k))) with (Z.succ (Z.of_nat (S k))) in Hn by lia.
    rewrite Z.pow_succ_r in Hn by lia. exact Hn. }
  lia.
Qed.

Lemma digits_length_le (k : nat) (n : Z) :
  (1 <= k)%nat -> n < 10 ^ Z.of_nat k -> (String.length (Py.digits n) <= k)%nat.
Proof.
  intros Hk Hn. unfold Py.digits.
  pose proof (digits_aux_length_le (S (Z.to_nat (Z.log2 n))) k n "" Hk Hn) as H.
  change (String.length "") with 0%nat in H. lia.
Qed.

Lemma pad_length (w : nat) (n : Z) :
  (1 <= w)%nat -> n < 10 ^ Z.of_nat w -> String.length (Spec.pad w n) = w.
Proof.
  intros Hw Hn. unfold Spec.pad. rewrite zfill_length.
  pose proof (digits_length_le w n Hw Hn). lia.
Qed.

Lemma format_0w_nonneg (w : nat) (n : Z) : 0 <= n -> Py.format_0w w n = Spec.pad w n.
Proof.
  intros Hn. unfold Py.format_0w, Spec.pad.
  destruct (Z.ltb_spec n 0); [lia | reflexivity].
Qed.

(** ** Truncation and floor on the rationals *)

Lemma int_of_float_nonneg (x : Q) : (0 <= x)%Q -> Py.int_of_float x = Qfloor x.
Proof.
  intros H. unfold Py.int_of_float, Qfloor. destruct x as [n d]. simpl.
  apply Z.quot_div_nonneg; [|lia].
  unfold Qle in H. simpl in H. lia.
Qed.

Lemma int_of_float_inject (z : Z) : Py.int_of_float (inject_Z z) = z.
Proof. unfold Py.int_of_float. simpl. apply Z.quot_1_r. Qed.

Lemma qmod_bounds (x y : Q) :
  (0 < y)%Q -> (0 <= Spec.qmod x y)%Q /\ (Spec.qmod x y < y)%Q.
Proof.
  intros Hy. unfold Spec.qmod.
  pose proof (Qfloor_le (x / y)) as H1.
  pose proof (Qlt_floor (x / y)) as H2.
  rewrite inject_Z_plus in H2. change (inject_Z 1) with 1%Q in H2.
  set (k := inject_Z (Qfloor (x / y))) in *.
  assert (Hx : (x == (x / y) * y)%Q) by (field; lra).
  set (q := (x / y)%Q) in *.
  assert (0 <= (q - k) * y)%Q by (apply Qmult_le_0_compat; lra).
  assert (0 < (k + 1 - q) * y)%Q by (apply Qmult_lt_0_compat; lra).
  split; lra.
Qed.

Lemma Qfloor_ge (x : Q) (a : Z) : (inject_Z a <= x)%Q -> a <= Qfloor x.
Proof. intros Ha. rewrite <- (Qfloor_Z a). now apply Qfloor_resp_le. Qed.

Lemma Qfloor_lt (x : Q) (b : Z) : (x < inject_Z b)%Q -> Qfloor x < b.
Proof.
  intros Hb. rewrite Zlt_Qlt. eapply Qle_lt_trans; [apply Qfloor_le | exact Hb].
Qed.

Lemma frac_bounds (x : Q) :
  (0 <= x - inject_Z (Qfloor x))%Q /\ (x - inject_Z (Qfloor x) < 1)%Q.
Proof.
  pose proof (Qfloor_le x) as H1. pose proof (Qlt_floor x) as H2.
  rewrite inject_Z_plus in H2. change (inject_Z 1) with 1%Q in H2.
  split; lra.
Qed.

(** ** The plan table *)

(** C3. [limit_for] is total: the free plan (["gratuito"]) maps to 3, the
    creator plan (["criador"]) to 30, the pro plan (["pro"]) to 9999, and
    every other string to 0. *)
Theorem limit_for_table :
  limit_for "gratuito" = 3 /\ limit_for "criador" = 30 /\ limit_for "pro" = 9999
  /\ (forall plan : string,
        plan <> "gratuito" -> plan <> "criador" -> plan <> "pro" ->
        limit_for plan = 0).
Proof.
  repeat split; try reflexivity.
  intros plan H1 H2 H3. unfold limit_for, plan_limits.
  rewrite !lookup_insert_ne by congruence.
  now rewrite lookup_empty.
Qed.

Lemma limit_for_table_witness : limit_for "free" = 0.
Proof.
  apply (proj2 (proj2 (proj2 limit_for_table)) "free"); discriminate.
Defined.

(** ** Floats: rounding to the nearest double *)

Section Rounding.

Local Open Scope Q_scope.

(** *** Powers of two *)

Lemma pow2_pos (k : Z) : 0 < Py.pow2 k.
Proof. apply Qpower_0_lt. reflexivity. Qed.

Lemma pow2_add (a b : Z) : Py.pow2 (a + b) == Py.pow2 a * Py.pow2 b.
Proof. apply Qpower_plus. discriminate. Qed.

Lemma pow2_inv (k : Z) : Py.pow2 k * Py.pow2 (- k) == 1.
Proof. rewrite <- pow2_add. now rewrite Z.add_opp_diag_r. Qed.

Lemma pow2_Z (k : Z) : (0 <= k)%Z -> Py.pow2 k == inject_Z (2 ^ k).
Proof. intros H. unfold Py.pow2. now rewrite Zpower_Qpower. Qed.

Lemma pow2_le (a b : Z) : (a <= b)%Z -> Py.pow2 a <= Py.pow2 b.
Proof. intros H. apply Qpower_le_compat_l; [exact H | discriminate]. Qed.

Lemma pow2_lt_inv (a b : Z) : Py.pow2 a < Py.pow2 b -> (a < b)%Z.
Proof. intros H. eapply Qpower_lt_compat_l_inv; [exact H | reflexivity]. Qed.

(** Scaling by a power of two keeps the order. *)
Lemma scale_le (x y : Q) (k : Z) : x <= y -> x * Py.pow2 k <= y * Py.pow2 k.
Proof. intros H. apply Qmult_le_compat_r; [exact H|]. apply Qlt_le_weak, pow2_pos. Qed.

Lemma scale_lt (x y : Q) (k : Z) : x < y -> x * Py.pow2 k < y * Py.pow2 k.
Proof. intros H. apply Qmult_lt_compat_r; [apply pow2_pos | exact H]. Qed.

(** *** Rounding to the nearest integer *)

Lemma round_half_even_comp (x y : Q) :
  x == y -> Py.round_half_even x = Py.round_half_even y.
Proof.
  intros H. unfold Py.round_half_even.
  rewrite (Qfloor_comp _ _ H).
  assert (Hc : (x - inject_Z (Qfloor y) ?= 1 # 2) = (y - inject_Z (Qfloor y) ?= 1 # 2)).
  { apply Qcompare_comp; [|reflexivity]. now rewrite H. }
  now rewrite Hc.
Qed.

Lemma round_half_even_Z (n : Z) : Py.round_half_even (inject_Z n) = n.
Proof.
  unfold Py.round_half_even. rewrite Qfloor_Z.
  assert (H : (inject_Z n - inject_Z n ?= 1 # 2) = Lt).
  { apply Qlt_alt. unfold Qminus. rewrite Qplus_opp_r. reflexivity. }
  now rewrite H.
Qed.

Lemma round_half_even_floor (x : Q) :
  (Qfloor x <= Py.round_half_even x <= Qfloor x + 1)%Z.
Proof.
  unfold Py.round_half_even.
  destruct (x - inject_Z (Qfloor x) ?= 1 # 2); [destruct (Z.even (Qfloor x))| |]; lia.
Qed.

Lemma round_half_even_mono (x y : Q) :
  x <= y -> (Py.round_half_even x <= Py.round_half_even y)%Z.
Proof.
  intros H.
  pose proof (Qfloor_resp_le _ _ H) as Hf.
  destruct (Z.eq_dec (Qfloor x) (Qfloor y)) as [He|Hne].
  - unfold Py.round_half_even. rewrite He.
    destruct (Qcompare_spec (x - inject_Z (Qfloor y)) (1 # 2)) as [Hx|Hx|Hx];
      destruct (Qcompare_spec (y - inject_Z (Qfloor y)) (1 # 2)) as [Hy|Hy|Hy];
      try destruct (Z.even (Qfloor y)); try lia; exfalso; lra.
  - pose proof (round_half_even_floor x). pose proof (round_half_even_floor y). lia.
Qed.

Lemma round_half_even_nonneg (x : Q) : 0 <= x -> (0 <= Py.round_half_even x)%Z.
Proof.
  intros H. rewrite <- (round_half_even_Z 0). now apply round_half_even_mono.
Qed.

(** *** The exponent of the last bit *)

Lemma ulp_exp_comp (x y : Q) : x == y -> Py.ulp_exp x = Py.ulp_exp y.
Proof.
  intros H. unfold Py.ulp_exp.
  assert (Hs : x * Py.pow2 1022 == y * Py.pow2 1022) by now rewrite H.
  now rewrite (Qfloor_comp _ _ Hs).
Qed.

Lemma ulp_exp_min (x : Q) : (-1074 <= Py.ulp_exp x)%Z.
Proof. unfold Py.ulp_exp. pose proof (Z.log2_nonneg (Qfloor (x * Py.pow2 1022))). lia. Qed.

Lemma ulp_exp_mono (x y : Q) : x <= y -> (Py.ulp_exp x <= Py.ulp_exp y)%Z.
Proof.
  intros H. unfold Py.ulp_exp.
  pose proof (Z.log2_le_mono _ _ (Qfloor_resp_le _ _ (scale_le x y 1022 H))). lia.
Qed.

Lemma unscale_1022 (x : Q) :
  x * Py.pow2 1022 * Py.pow2 (-1022) == x.
Proof.
  rewrite <- Qmult_assoc, pow2_inv. ring.
Qed.

Lemma ulp_exp_upper (x : Q) : 0 <= x -> x < Py.pow2 (Py.ulp_exp x + 53).
Proof.
  intros Hx. unfold Py.ulp_exp.
  set (z := Qfloor (x * Py.pow2 1022)).
  assert (Hz : (0 <= z)%Z).
  { apply Qfloor_ge. change (inject_Z 0) with 0.
    apply Qmult_le_0_compat; [exact Hx | apply Qlt_le_weak, pow2_pos]. }
  assert (Hup : (z + 1 <= 2 ^ (Z.log2 z + 1))%Z).
  { destruct (Z.eq_dec z 0%Z) as [->|Hnz]; [simpl; lia|].
    pose proof (Z.log2_spec z ltac:(lia)). lia. }
  pose proof (Qlt_floor (x * Py.pow2 1022)) as Hlt. fold z in Hlt.
  assert (H1 : x * Py.pow2 1022 < Py.pow2 (Z.log2 z + 1)).
  { rewrite (pow2_Z (Z.log2 z + 1)) by (pose proof (Z.log2_nonneg z); lia).
    eapply Qlt_le_trans; [exact Hlt|]. now rewrite <- Zle_Qle. }
  apply (scale_lt _ _ (-1022)) in H1.
  rewrite unscale_1022 in H1.
  rewrite <- pow2_add in H1.
  replace (Z.log2 z - 1074 + 53)%Z with (Z.log2 z + 1 + -1022)%Z by lia.
  exact H1.
Qed.

Lemma ulp_exp_lower (x : Q) :
  (-1074 < Py.ulp_exp x)%Z -> Py.pow2 (Py.ulp_exp x + 52) <= x.
Proof.
  unfold Py.ulp_exp.
  set (z := Qfloor (x * Py.pow2 1022)). intros HL.
  assert (Hz : (0 < z)%Z).
  { destruct (Z.lt_trichotomy z 0%Z) as [Hn|[Hn|Hn]]; [| |exact Hn].
    - rewrite Z.log2_nonpos in HL by lia. lia.
    - rewrite Hn in HL. simpl in HL. lia. }
  pose proof (Z.log2_spec z Hz) as [Hlo _].
  pose proof (Qfloor_le (x * Py.pow2 1022)) as Hle. fold z in Hle.
  assert (H1 : Py.pow2 (Z.log2 z) <= x * Py.pow2 1022).
  { rewrite (pow2_Z (Z.log2 z)) by apply Z.log2_nonneg.
    eapply Qle_trans; [|exact Hle]. now rewrite <- Zle_Qle. }
  apply (scale_le _ _ (-1022)) in H1.
  rewrite unscale_1022 in H1.
  rewrite <- pow2_add in H1.
  replace (Z.log2 z - 1074 + 52)%Z with (Z.log2 z + -1022)%Z by lia.
  exact H1.
Qed.

(** *** Rounding to the nearest double *)

Lemma round_pos_comp (x y : Q) : x == y -> Py.round_pos x == Py.round_pos y.
Proof.
  intros H. unfold Py.round_pos. rewrite (ulp_exp_comp _ _ H).
  assert (Hs : x * Py.pow2 (- Py.ulp_exp y) == y * Py.pow2 (- Py.ulp_exp y))
    by now rewrite H.
  now rewrite (round_half_even_comp _ _ Hs).
Qed.

Lemma round_pos_nonneg (x : Q) : 0 <= x -> 0 <= Py.round_pos x.
Proof.
  intros H. unfold Py.round_pos.
  apply Qmult_le_0_compat; [|apply Qlt_le_weak, pow2_pos].
  change 0 with (inject_Z 0). rewrite <- Zle_Qle.
  apply round_half_even_nonneg.
  apply Qmult_le_0_compat; [exact H | apply Qlt_le_weak, pow2_pos].
Qed.

(** A number with at most 53 significant bits above [2^-1074] is a double:
    rounding leaves it as it is. *)
Lemma round_pos_exact (a e : Z) :
  (0 <= a < 2 ^ 53)%Z -> (-1074 <= e)%Z ->
  Py.round_pos (inject_Z a * Py.pow2 e) == inject_Z a * Py.pow2 e.
Proof.
  intros Ha He.
  set (x := inject_Z a * Py.pow2 e).
  assert (Hx : 0 <= x).
  { apply Qmult_le_0_compat; [|apply Qlt_le_weak, pow2_pos].
    change 0 with (inject_Z 0). rewrite <- Zle_Qle. lia. }
  assert (Hu : (Py.ulp_exp x <= e)%Z).
  { destruct (Z.le_gt_cases (Py.ulp_exp x) (-1074)) as [Hc|Hc]; [lia|].
    pose proof (ulp_exp_lower x ltac:(lia)) as Hlo.
    assert (Hlt : x < Py.pow2 (53 + e)).
    { rewrite pow2_add. unfold x. apply scale_lt.
      change (Py.pow2 53) with (inject_Z (2 ^ 53)). rewrite <- Zlt_Qlt. lia. }
    pose proof (pow2_lt_inv _ _ (Qle_lt_trans _ _ _ Hlo Hlt)). lia. }
  unfold Py.round_pos. fold x.
  set (u := Py.ulp_exp x) in *.
  assert (Hs : x * Py.pow2 (- u) == inject_Z (a * 2 ^ (e - u))).
  { unfold x. rewrite inject_Z_mult, <- pow2_Z by lia.
    replace (e - u)%Z with (e + - u)%Z by lia. rewrite pow2_add. ring. }
  rewrite (round_half_even_comp _ _ Hs), round_half_even_Z.
  unfold x. rewrite inject_Z_mult, <- pow2_Z by lia.
  rewrite <- Qmult_assoc, <- pow2_add.
  replace (e - u + u)%Z with e by lia. reflexivity.
Qed.

Lemma round_pos_Z (n : Z) :
  (0 <= n < 2 ^ 53)%Z -> Py.round_pos (inject_Z n) == inject_Z n.
Proof.
  intros Hn. pose proof (round_pos_exact n 0 Hn ltac:(lia)) as H.
  assert (Hq : inject_Z n * Py.pow2 0 == inject_Z n) by (change (Py.pow2 0) with 1; ring).
  rewrite <- Hq at 2. rewrite <- H. apply round_pos_comp. now rewrite Hq.
Qed.

Lemma round_pos_mono (x y : Q) :
  0 <= x -> x <= y -> Py.round_pos x <= Py.round_pos y.
Proof.
  intros Hx Hxy.
  pose proof (ulp_exp_mono _ _ Hxy) as He.
  destruct (Z.eq_dec (Py.ulp_exp x) (Py.ulp_exp y)) as [Heq|Hne].
  - unfold Py.round_pos. rewrite Heq.
    apply scale_le. rewrite <- Zle_Qle.
    apply round_half_even_mono. now apply scale_le.
  - assert (Hlt : (Py.ulp_exp x < Py.ulp_exp y)%Z) by lia.
    pose proof (ulp_exp_min x) as Hmin.
    pose proof (ulp_exp_upper x Hx) as Hup.
    pose proof (ulp_exp_lower y ltac:(lia)) as Hlo.
    unfold Py.round_pos.
    set (ex := Py.ulp_exp x) in *. set (ey := Py.ulp_exp y) in *.
    apply Qle_trans with (Py.pow2 (52 + ey)).
    + apply Qle_trans with (Py.pow2 (53 + ex)); [|apply pow2_le; lia].
      rewrite (pow2_add 53 ex). apply scale_le.
      change (Py.pow2 53) with (inject_Z (2 ^ 53)). rewrite <- Zle_Qle.
      rewrite <- (round_half_even_Z (2 ^ 53)).
      apply round_half_even_mono.
      change (inject_Z (2 ^ 53)) with (Py.pow2 53).
      apply Qlt_le_weak.
      apply (scale_lt _ _ (- ex)) in Hup.
      rewrite <- pow2_add in Hup.
      replace (ex + 53 + - ex)%Z with 53%Z in Hup by lia. exact Hup.
    + rewrite (pow2_add 52 ey). apply scale_le.
      change (Py.pow2 52) with (inject_Z (2 ^ 52)). rewrite <- Zle_Qle.
      rewrite <- (round_half_even_Z (2 ^ 52)).
      apply round_half_even_mono.
      change (inject_Z (2 ^ 52)) with (Py.pow2 52).
      apply (scale_le _ _ (- ey)) in Hlo.
      rewrite <- pow2_add in Hlo.
      replace (ey + 52 + - ey)%Z with 52%Z in Hlo by lia. exact Hlo.
Qed.

Lemma float_round_nonneg (x : Q) : 0 <= x -> Py.float_round x = Py.round_pos x.
Proof.
  intros H. unfold Py.float_round.
  now rewrite (proj2 (Qle_bool_iff 0 x) H).
Qed.

Lemma float_round_comp (x y : Q) : x == y -> Py.float_round x == Py.float_round y.
Proof.
  intros H. unfold Py.float_round.
  assert (Hb : Qle_bool 0 x = Qle_bool 0 y).
  { apply eq_true_iff_eq. rewrite !Qle_bool_iff. now rewrite H. }
  rewrite Hb. destruct (Qle_bool 0 y).
  - now apply round_pos_comp.
  - apply Qopp_comp, round_pos_comp. now rewrite H.
Qed.

(** *** Doubles *)

Lemma Z_lt_scaled (a b : Z) (e : Z) :
  inject_Z a * Py.pow2 e < inject_Z b * Py.pow2 e -> (a < b)%Z.
Proof.
  intros H. apply (scale_lt _ _ (- e)) in H.
  rewrite <- !Qmult_assoc, !pow2_inv, !Qmult_1_r in H.
  now rewrite Zlt_Qlt.
Qed.

(** A non-negative double is an integer below [2^53] times a power of two
    not below [2^-1074]. *)
Lemma is_float_repr (x : Q) :
  0 <= x -> Py.is_float x = true ->
  exists a e : Z, (0 <= a < 2 ^ 53)%Z /\ (-1074 <= e)%Z /\ x == inject_Z a * Py.pow2 e.
Proof.
  intros Hx Hf. unfold Py.is_float in Hf. apply Qeq_bool_iff in Hf.
  rewrite (float_round_nonneg x Hx) in Hf. unfold Py.round_pos in Hf.
  set (e := Py.ulp_exp x) in *.
  set (a := Py.round_half_even (x * Py.pow2 (- e))) in *.
  exists a, e. split; [split|split].
  - apply round_half_even_nonneg.
    apply Qmult_le_0_compat; [exact Hx | apply Qlt_le_weak, pow2_pos].
  - apply (Z_lt_scaled a (2 ^ 53) e). rewrite Hf.
    change (inject_Z (2 ^ 53)) with (Py.pow2 53). rewrite <- pow2_add.
    rewrite Z.add_comm. apply ulp_exp_upper, Hx.
  - apply ulp_exp_min.
  - symmetry. exact Hf.
Qed.

(** The fraction of a double is a double. *)
Lemma frac_repr (x : Q) :
  0 <= x -> Py.is_float x = true ->
  exists b e : Z, (0 <= b < 2 ^ 53)%Z /\ (-1074 <= e)%Z
    /\ x - inject_Z (Qfloor x) == inject_Z b * Py.pow2 e.
Proof.
  intros Hx Hf.
  destruct (is_float_repr x Hx Hf) as (a & e & Ha & He & Hxa).
  destruct (Z.le_gt_cases 0 e) as [Hpos|Hneg].
  - exists 0%Z, 0%Z. split; [lia|]. split; [lia|].
    assert (Hz : x == inject_Z (a * 2 ^ e)).
    { rewrite Hxa, inject_Z_mult, <- pow2_Z by exact Hpos. reflexivity. }
    rewrite (Qfloor_comp _ _ Hz), Qfloor_Z, Hz. ring.
  - set (f := Qfloor x).
    set (k := (- e)%Z).
    assert (Hk : (0 < k)%Z) by (unfold k; lia).
    assert (Hs : x * Py.pow2 k == inject_Z a).
    { rewrite Hxa. unfold k. rewrite <- Qmult_assoc, pow2_inv. ring. }
    pose proof (Qfloor_le x) as Hlo. pose proof (Qlt_floor x) as Hhi. fold f in Hlo, Hhi.
    assert (Hf0 : (0 <= f)%Z) by (apply Qfloor_ge; exact Hx).
    assert (Hlo' : (f * 2 ^ k <= a)%Z).
    { rewrite Zle_Qle, inject_Z_mult, <- pow2_Z, <- Hs by lia. now apply scale_le. }
    assert (Hhi' : (a < (f + 1) * 2 ^ k)%Z).
    { rewrite Zlt_Qlt, inject_Z_mult, <- pow2_Z, <- Hs by lia. now apply scale_lt. }
    exists (a - f * 2 ^ k)%Z, e. split; [|split; [exact He|]].
    + assert (0 <= f * 2 ^ k)%Z by (apply Z.mul_nonneg_nonneg; lia). lia.
    + unfold Zminus. rewrite inject_Z_plus, inject_Z_opp, inject_Z_mult.
      rewrite <- pow2_Z by lia. rewrite Hxa. fold f.
      assert (Hke : Py.pow2 k * Py.pow2 e == 1).
      { replace e with (- k)%Z by (unfold k; lia). apply pow2_inv. }
      assert (Hd : (inject_Z a + - (inject_Z f * Py.pow2 k)) * Py.pow2 e
                   == inject_Z a * Py.pow2 e - inject_Z f * (Py.pow2 k * Py.pow2 e)) by ring.
      rewrite Hd, Hke. ring.
Qed.

Lemma float_round_exact (b e : Z) (x : Q) :
  (0 <= b < 2 ^ 53)%Z -> (-1074 <= e)%Z -> x == inject_Z b * Py.pow2 e ->
  Py.float_round x == x.
Proof.
  intros Hb He Hx.
  assert (H0 : 0 <= inject_Z b * Py.pow2 e).
  { apply Qmult_le_0_compat; [|apply Qlt_le_weak, pow2_pos].
    change 0 with (inject_Z 0). rewrite <- Zle_Qle. lia. }
  rewrite (float_round_comp _ _ Hx), (float_round_nonneg _ H0), Hx.
  now apply round_pos_exact.
Qed.

Lemma float_round_Z (n : Z) (x : Q) :
  (0 <= n < 2 ^ 53)%Z -> x == inject_Z n -> Py.float_round x == inject_Z n.
Proof.
  intros Hn Hx. apply Qeq_trans with x; [|exact Hx].
  apply (float_round_exact n 0); [exact Hn | lia |].
  rewrite Hx. change (Py.pow2 0) with 1. ring.
Qed.

Lemma float_round_mono (x y : Q) :
  0 <= x -> x <= y -> Py.float_round x <= Py.float_round y.
Proof.
  intros Hx Hxy. rewrite !float_round_nonneg by lra. now apply round_pos_mono.
Qed.

Lemma float_round_0_le (x : Q) : 0 <= x -> 0 <= Py.float_round x.
Proof. intros Hx. rewrite float_round_nonneg by exact Hx. now apply round_pos_nonneg. Qed.

(** The subtraction of line 64 is exact. *)
Lemma float_frac_exact (x : Q) :
  0 <= x -> Py.is_float x = true ->
  Py.float_sub x (inject_Z (Qfloor x)) == x - inject_Z (Qfloor x).
Proof.
  intros Hx Hf. destruct (frac_repr x Hx Hf) as (b & e & Hb & He & Hr).
  unfold Py.float_sub. now apply (float_round_exact b e).
Qed.

(** The largest double below 1 is [1 - 2^-53]. *)
Lemma float_frac_max (x : Q) :
  0 <= x -> Py.is_float x = true ->
  x - inject_Z (Qfloor x) <= 1 - Py.pow2 (-53).
Proof.
  intros Hx Hf. destruct (frac_repr x Hx Hf) as (b & e & Hb & He & Hr).
  destruct (frac_bounds x) as [_ Hlt1]. rewrite Hr in *.
  destruct (Z.le_gt_cases (-53) e) as [Hbig|Hsmall].
  - assert (Hi : inject_Z b * Py.pow2 e == inject_Z (b * 2 ^ (e + 53)) * Py.pow2 (-53)).
    { rewrite inject_Z_mult, <- pow2_Z by lia.
      rewrite <- Qmult_assoc, <- pow2_add.
      replace (e + 53 + -53)%Z with e by lia. reflexivity. }
    rewrite Hi in *.
    assert (Hz : (b * 2 ^ (e + 53) < 2 ^ 53)%Z).
    { apply (Z_lt_scaled _ _ (-53)). eapply Qlt_le_trans; [exact Hlt1|].
      change (inject_Z (2 ^ 53)) with (Py.pow2 53). rewrite pow2_inv. lra. }
    assert (Hm : 1 - Py.pow2 (-53) == inject_Z (2 ^ 53 - 1) * Py.pow2 (-53)); [|rewrite Hm].
    + unfold Zminus. rewrite inject_Z_plus, inject_Z_opp.
      change (inject_Z (2 ^ 53)) with (Py.pow2 53).
      rewrite Qmult_plus_distr_l, pow2_inv. change (inject_Z 1) with 1. ring.
    + apply scale_le. rewrite <- Zle_Qle. lia.
  - apply Qle_trans with (Py.pow2 53 * Py.pow2 e).
    + apply scale_le. change (Py.pow2 53) with (inject_Z (2 ^ 53)).
      rewrite <- Zle_Qle. lia.
    + rewrite <- pow2_add.
      apply Qle_trans with (Py.pow2 (-1)); [apply pow2_le; lia|].
      unfold Qle. vm_compute. discriminate.
Qed.

End Rounding.

(** ** Remainder and floor division on non-negative floats *)

Lemma c_fmod_nonneg (x y : Q) :
  (0 <= x)%Q -> (0 < y)%Q -> Py.c_fmod x y = Spec.qmod x y.
Proof.
  intros Hx Hy. unfold Py.c_fmod, Spec.qmod.
  rewrite int_of_float_nonneg; [reflexivity|]. apply Qle_shift_div_l; lra.
Qed.

Lemma wraps_nonneg (r y : Q) : (0 <= r)%Q -> (0 < y)%Q -> Py.wraps r y = false.
Proof.
  intros Hr Hy. unfold Py.wraps, Py.is_neg.
  rewrite (proj2 (Qle_bool_iff 0 r) Hr).
  rewrite (proj2 (Qle_bool_iff 0 y) (Qlt_le_weak _ _ Hy)).
  apply andb_false_r.
Qed.

(** On non-negative operands [%] is the exact remainder. *)
Lemma fmod_nonneg (x y : Q) :
  (0 <= x)%Q -> (0 < y)%Q -> Py.fmod x y = Spec.qmod x y.
Proof.
  intros Hx Hy. unfold Py.fmod. rewrite (c_fmod_nonneg x y Hx Hy).
  rewrite wraps_nonneg; [reflexivity | apply qmod_bounds, Hy | exact Hy].
Qed.

(** Below [2^53], [//] by a whole number is the exact floor of the
    quotient: the remainder is taken off without rounding, and what is left
    is a multiple of the divisor. *)
Lemma floordiv_nonneg (x : Q) (n : Z) :
  (0 <= x)%Q -> (x < inject_Z (2 ^ 53))%Q -> 0 < n ->
  Py.floordiv x (inject_Z n) = inject_Z (Qfloor (x / inject_Z n)).
Proof.
  intros Hx Hlt Hn.
  set (y := inject_Z n).
  assert (Hy : (0 < y)%Q) by (unfold y; change 0%Q with (inject_Z 0); now rewrite <- Zlt_Qlt).
  destruct (qmod_bounds x y Hy) as [Hr0 Hr1].
  set (k := Qfloor (x / y)).
  assert (Hk0 : 0 <= k).
  { apply Qfloor_ge. change (inject_Z 0) with 0%Q. apply Qle_shift_div_l; lra. }
  assert (Hxr : (x - Spec.qmod x y == inject_Z (n * k))%Q).
  { unfold Spec.qmod. fold k. rewrite inject_Z_mult. fold y. ring. }
  assert (Hnk : 0 <= n * k < 2 ^ 53).
  { split; [apply Z.mul_nonneg_nonneg; lia|].
    rewrite Zlt_Qlt, <- Hxr. lra. }
  assert (Hk : 0 <= k < 2 ^ 53) by nia.
  assert (Hsub : (Py.float_sub x (Spec.qmod x y) == inject_Z (n * k))%Q).
  { unfold Py.float_sub. now apply float_round_Z. }
  assert (Hdiv : (Py.float_div (Py.float_sub x (Spec.qmod x y)) y == inject_Z k)%Q).
  { unfold Py.float_div. apply float_round_Z; [exact Hk|].
    rewrite Hsub, inject_Z_mult. fold y. field. lra. }
  unfold Py.floordiv. rewrite (c_fmod_nonneg x y Hx Hy).
  rewrite (wraps_nonneg _ _ Hr0 Hy).
  cbv zeta.
  set (d := Py.float_div (Py.float_sub x (Spec.qmod x y)) y) in *.
  assert (Hfl : Qfloor d = k) by (rewrite (Qfloor_comp _ _ Hdiv); apply Qfloor_Z).
  rewrite Hfl.
  assert (Hz : (Py.float_sub d (inject_Z k) == inject_Z 0)%Q).
  { unfold Py.float_sub. apply float_round_Z; [lia|]. rewrite Hdiv.
    change (inject_Z 0) with 0%Q. ring. }
  assert (Hn2 : Py.is_neg ((1 # 2) - Py.float_sub d (inject_Z k))%Q = false).
  { unfold Py.is_neg. apply negb_false_iff, Qle_bool_iff. rewrite Hz.
    unfold Qle. simpl. lia. }
  now rewrite Hn2.
Qed.

(** ** The timestamp formatter *)

Section Timestamp.

Variable seconds : Q.
Hypothesis seconds_float : Py.is_float seconds = true.
Hypothesis seconds_nonneg : (0 <= seconds)%Q.
Hypothesis seconds_small : (seconds < inject_Z (2 ^ 53))%Q.

Lemma hours_nonneg : 0 <= Spec.hours seconds.
Proof.
  apply Qfloor_ge. change (inject_Z 0) with 0%Q.
  apply Qle_shift_div_l; lra.
Qed.

Lemma minutes_bounds : 0 <= Spec.minutes seconds < 60.
Proof.
  destruct (qmod_bounds seconds 3600) as [H1 H2]; [lra|].
  split; [apply Qfloor_ge | apply Qfloor_lt].
  - change (inject_Z 0) with 0%Q. apply Qle_shift_div_l; lra.
  - change (inject_Z 60) with 60%Q. apply Qlt_shift_div_r; lra.
Qed.

Lemma secs_bounds : 0 <= Spec.secs seconds < 60.
Proof.
  destruct (qmod_bounds seconds 60) as [H1 H2]; [lra|].
  split; [apply Qfloor_ge | apply Qfloor_lt]; assumption.
Qed.

Lemma millis_floor_bounds : 0 <= Spec.millis_floor seconds < 1000.
Proof.
  destruct (frac_bounds seconds) as [H1 H2].
  split; [apply Qfloor_ge | apply Qfloor_lt].
  - change (inject_Z 0) with 0%Q. lra.
  - change (inject_Z 1000) with 1000%Q. lra.
Qed.

(** The product of line 64, rounded to a double, stays below 1000: the
    largest fraction of a double is [1 - 2^-53], and 1000 times that rounds
    to the double just under 1000. *)
Lemma millis_double_bounds : 0 <= Spec.millis_double seconds < 1000.
Proof.
  destruct (frac_bounds seconds) as [H1 _].
  pose proof (float_frac_max seconds seconds_nonneg seconds_float) as H2.
  set (r := (seconds - inject_Z (Qfloor seconds))%Q) in *.
  assert (Hp : (0 <= r * 1000)%Q) by lra.
  unfold Spec.millis_double. fold r.
  split; [apply Qfloor_ge | apply Qfloor_lt].
  - change (inject_Z 0) with 0%Q. now apply float_round_0_le.
  - change (inject_Z 1000) with 1000%Q.
    apply Qle_lt_trans with (Py.float_round ((1 - Py.pow2 (-53)) * 1000)).
    + apply float_round_mono; [exact Hp | lra].
    + vm_compute. reflexivity.
Qed.

(** Rounding the product moves the cut by at most one, and only upwards. *)
Lemma millis_double_near :
  Spec.millis_floor seconds <= Spec.millis_double seconds
  <= Spec.millis_floor seconds + 1.
Proof.
  pose proof millis_floor_bounds as Hb.
  destruct (frac_bounds seconds) as [H1 _].
  unfold Spec.millis_double, Spec.millis_floor in *.
  set (p := ((seconds - inject_Z (Qfloor seconds)) * 1000)%Q) in *.
  assert (Hp : (0 <= p)%Q) by (unfold p; lra).
  pose proof (Qfloor_le p) as Hlo. pose proof (Qlt_floor p) as Hhi.
  set (n := Qfloor p) in *.
  assert (Hn : (0 <= inject_Z n)%Q).
  { change 0%Q with (inject_Z 0). rewrite <- Zle_Qle. lia. }
  split.
  - apply Qfloor_ge.
    rewrite <- (float_round_Z n (inject_Z n)) by (reflexivity || lia).
    now apply float_round_mono.
  - rewrite <- (Qfloor_Z (n + 1)). apply Qfloor_resp_le.
    rewrite <- (float_round_Z (n + 1) (inject_Z (n + 1))) by (reflexivity || lia).
    apply float_round_mono; [exact Hp | now apply Qlt_le_weak].
Qed.

Lemma ts_components :
  ts seconds = Spec.format Spec.millis_double seconds.
Proof.
  destruct (qmod_bounds seconds 3600) as [Hm0 Hm1]; [lra|].
  destruct (qmod_bounds seconds 60) as [Hs _]; [lra|].
  destruct (frac_bounds seconds) as [Hf _].
  unfold ts, Spec.format.
  rewrite (int_of_float_nonneg seconds seconds_nonneg).
  rewrite !fmod_nonneg by lra.
  change (Py.floordiv seconds 3600) with (Py.floordiv seconds (inject_Z 3600)).
  change (Py.floordiv (Spec.qmod seconds 3600) 60)
    with (Py.floordiv (Spec.qmod seconds 3600) (inject_Z 60)).
  rewrite (floordiv_nonneg seconds 3600 seconds_nonneg seconds_small) by lia.
  rewrite (floordiv_nonneg (Spec.qmod seconds 3600) 60 Hm0) by
    (lia || (eapply Qlt_trans; [exact Hm1|]; reflexivity)).
  rewrite !int_of_float_inject.
  rewrite (int_of_float_nonneg (Spec.qmod seconds 60) Hs).
  assert (Hms : Py.int_of_float
                  (Py.float_mul (Py.float_sub seconds (inject_Z (Qfloor seconds))) 1000)
                = Spec.millis_double seconds).
  { unfold Py.float_mul, Spec.millis_double.
    assert (He : (Py.float_sub seconds (inject_Z (Qfloor seconds)) * 1000
                  == (seconds - inject_Z (Qfloor seconds)) * 1000)%Q).
    { now rewrite (float_frac_exact seconds seconds_nonneg seconds_float). }
    rewrite int_of_float_nonneg.
    - apply Qfloor_comp, float_round_comp, He.
    - rewrite (float_round_comp _ _ He). apply float_round_0_le. lra. }
  rewrite Hms.
  change (Qfloor (seconds / inject_Z 3600)) with (Spec.hours seconds).
  change (Qfloor (Spec.qmod seconds 3600 / inject_Z 60)) with (Spec.minutes seconds).
  fold (Spec.secs seconds).
  rewrite !format_0w_nonneg; try reflexivity.
  - apply millis_double_bounds.
  - apply secs_bounds.
  - apply minutes_bounds.
  - apply hours_nonneg.
Qed.

Lemma ts_length :
  (seconds < 360000)%Q -> String.length (ts seconds) = 12%nat.
Proof.
  intros Hlt. rewrite ts_components. unfold Spec.format.
  assert (Hh : Spec.hours seconds < 100).
  { apply Qfloor_lt. change (inject_Z 100) with 100%Q.
    apply Qlt_shift_div_r; lra. }
  rewrite !string_length_app.
  rewrite !pad_length; simpl; try lia.
  - pose proof millis_double_bounds. lia.
  - pose proof secs_bounds. lia.
  - pose proof minutes_bounds. lia.
Qed.

End Timestamp.

(** C4, as the code has it. For every double [seconds] with
    [0 <= seconds < 2^53], [ts] is ["HH:MM:SS,mmm"] with
    [h = floor(seconds/3600)], [m = floor((seconds mod 3600)/60)],
    [s = floor(seconds mod 60)], and [ms] the whole part of the product
    [(seconds - floor(seconds)) * 1000] as line 64 computes it in double
    precision: the exact product rounded to the nearest double, then cut,
    not rounded.  That is [floor((seconds - floor(seconds)) * 1000)] or one
    more, and always below 1000.  [h], [m], [s] are zero-padded to width 2
    and [ms] to width 3; [m] and [s] stay below 60, so the string has 12
    characters as long as the hours fit two digits.  In particular
    [ts(0) = "00:00:00,000"] and [ts(3661.5) = "01:01:01,500"]; at the
    double nearest to 0.3 the exact product lies just under 300, the double
    product is 300, and [ts] prints [,300]. *)
Theorem ts_format_double :
  (forall seconds : Q,
     Py.is_float seconds = true ->
     (0 <= seconds)%Q -> (seconds < inject_Z (2 ^ 53))%Q ->
     ts seconds = Spec.format Spec.millis_double seconds
     /\ 0 <= Spec.hours seconds
     /\ 0 <= Spec.minutes seconds < 60
     /\ 0 <= Spec.secs seconds < 60
     /\ 0 <= Spec.millis_double seconds < 1000
     /\ Spec.millis_floor seconds <= Spec.millis_double seconds
        <= Spec.millis_floor seconds + 1
     /\ ((seconds < 360000)%Q -> String.length (ts seconds) = 12%nat))
  /\ ts 0 = "00:00:00,000"
  /\ ts (7323 # 2) = "01:01:01,500"
  /\ ts (5404319552844595 # 18014398509481984) = "00:00:00,300"
  /\ Spec.millis_floor (5404319552844595 # 18014398509481984) = 299.
Proof.
  split; [|repeat split; vm_compute; reflexivity].
  intros seconds Hf H0 H53.
  split; [now apply ts_components|].
  split; [now apply hours_nonneg|].
  split; [apply minutes_bounds|].
  split; [apply secs_bounds|].
  split; [now apply millis_double_bounds|].
  split; [now apply millis_double_near|].
  now apply ts_length.
Qed.

Lemma ts_format_double_witness :
  ts (7323 # 2) = Spec.format Spec.millis_double (7323 # 2)
  /\ String.length (ts (7323 # 2)) = 12%nat.
Proof.
  assert (Hf : Py.is_float (7323 # 2) = true) by (vm_compute; reflexivity).
  assert (H0 : (0 <= 7323 # 2)%Q) by (unfold Qle; simpl; lia).
  assert (H53 : (7323 # 2 < inject_Z (2 ^ 53))%Q) by (unfold Qlt; simpl; lia).
  destruct (proj1 ts_format_double (7323 # 2) Hf H0 H53)
    as (Hfmt & _ & _ & _ & _ & _ & Hlen).
  split; [exact Hfmt|].
  apply Hlen. unfold Qlt; simpl; lia.
Defined.

(** The hours are not clamped: from 100 hours on the string is longer. *)
Example ts_hundred_hours : ts 360000 = "100:00:00,000"%string.
Proof. vm_compute. reflexivity. Qed.

(** A negative offset is formatted with signs, not refused. *)
Example ts_negative : ts (- (1 # 2)) = "-1:59:59,-500"%string.
Proof. vm_compute. reflexivity. Qed.

(** The bound on the offset matters: far beyond [2^53] seconds the
    quotient of [//] no longer fits a double, and the hours printed are not
    the floor of [seconds/3600]. *)
Example ts_beyond_double_precision :
  ts (inject_Z 10271496594406922240) = "2853193498446366:17:20,000"%string
  /\ Spec.hours (inject_Z 10271496594406922240) = 2853193498446367.
Proof. vm_compute. split; reflexivity. Qed.

(** C4, as the specification words it, fails: at [seconds = 1/1024]
    (0.0009765625, a double) the fraction times 1000 is 0.9765625, a double
    as well, which [round] sends to 1 while the code cuts it to 0. *)
Lemma ts_round_counterexample :
  ts (1 # 1024) = "00:00:00,000"
  /\ Spec.format Spec.millis_round (1 # 1024) = "00:00:00,001"
  /\ ts (1 # 1024) <> Spec.format Spec.millis_round (1 # 1024).
Proof. repeat split; try (vm_compute; reflexivity). vm_compute. discriminate. Qed.

(** ** Strings: trimming and newline replacement *)

#[local] Arguments String.append !s1 s2 : simpl nomatch.

Lemma string_app_assoc (a b c : string) : ((a ++ b) ++ c = a ++ (b ++ c))%string.
Proof. induction a as [|x a IH]; simpl; [reflexivity | now f_equal]. Qed.

Lemma string_app_nil_r (a : string) : (a ++ "")%string = a.
Proof. induction a as [|x a IH]; simpl; [reflexivity | now f_equal]. Qed.

Lemma lstrip_spec (s : string) :
  exists pre, s = (pre ++ Py.lstrip s)%string
              /\ Spec.all_space pre = true
              /\ Spec.starts_with_space (Py.lstrip s) = false.
Proof.
  induction s as [|c s (pre & Heq & Hpre & Hhd)]; simpl.
  - exists ""%string. auto.
  - destruct (Py.isspace c) eqn:Hc.
    + exists (String c pre). simpl. rewrite Hc, Hpre. split; [congruence | auto].
    + exists ""%string. simpl. auto.
Qed.

Lemma rstrip_spec (s : string) :
  exists suf, s = (Py.rstrip s ++ suf)%string
              /\ Spec.all_space suf = true
              /\ Spec.ends_with_space (Py.rstrip s) = false.
Proof.
  induction s as [|c s (suf & Heq & Hsuf & Hlast)]; simpl.
  - exists ""%string. auto.
  - destruct (Py.rstrip s) as [|a r] eqn:Hr.
    + simpl in Heq. subst s. destruct (Py.isspace c) eqn:Hc.
      * exists (String c suf). simpl. rewrite Hc, Hsuf. auto.
      * exists suf. simpl. auto.
    + exists suf. split; [simpl in *; congruence | split; [assumption|]].
      exact Hlast.
Qed.

Lemma rstrip_head (s : string) :
  Spec.starts_with_space s = false -> Spec.starts_with_space (Py.rstrip s) = false.
Proof.
  destruct s as [|c s]; simpl; [reflexivity|].
  intros Hc. destruct (Py.rstrip s); [rewrite Hc|]; simpl; auto.
Qed.

Lemma replace_newlines (s : string) :
  Py.replace "010"%char " " s = Spec.newlines_to_spaces s.
Proof.
  induction s as [|c s IH]; simpl; [reflexivity|].
  rewrite IH. now destruct (Ascii.eqb c "010"%char).
Qed.

Lemma caption_text_strip_replace (text : string) :
  Spec.caption_text_of text (Py.replace "010"%char " " (Py.strip text)).
Proof.
  destruct (lstrip_spec text) as (pre & Hpre & Hsp & Hhd).
  destruct (rstrip_spec (Py.lstrip text)) as (suf & Hsuf & Hss & Hlast).
  exists pre, (Py.strip text), suf. unfold Py.strip.
  repeat split; auto using rstrip_head, replace_newlines.
  now rewrite <- Hsuf.
Qed.

(** ** Newlines in a caption block *)

Lemma count_char_app (c : ascii) (a b : string) :
  Spec.count_char c (a ++ b)
  = (Spec.count_char c a + Spec.count_char c b)%nat.
Proof. induction a as [|x a IH]; simpl; [reflexivity | rewrite IH; lia]. Qed.

Lemma digit_char_not_nl (d : Z) :
  0 <= d < 10 -> Ascii.eqb (Py.digit_char d) "010"%char = false.
Proof.
  intros H.
  assert (Hd : d = 0 \/ d = 1 \/ d = 2 \/ d = 3 \/ d = 4 \/ d = 5 \/ d = 6
               \/ d = 7 \/ d = 8 \/ d = 9) by lia.
  repeat (destruct Hd as [-> | Hd]; [reflexivity|]). now subst d.
Qed.

Lemma digits_aux_no_nl (fuel : nat) :
  forall (n : Z) (acc : string),
    Spec.count_char "010"%char (Py.digits_aux fuel n acc)
    = Spec.count_char "010"%char acc.
Proof.
  induction fuel as [|fuel IH]; intros n acc; simpl; [reflexivity|].
  assert (Hd : Spec.count_char "010"%char
                 (String (Py.digit_char (n mod 10)) acc)
               = Spec.count_char "010"%char acc).
  { simpl. rewrite digit_char_not_nl; [reflexivity|].
    apply Z.mod_pos_bound. lia. }
  destruct (n <? 10); [exact Hd | now rewrite IH].
Qed.

Lemma digits_no_nl (n : Z) : Spec.count_char "010"%char (Py.digits n) = O.
Proof. unfold Py.digits. now rewrite digits_aux_no_nl. Qed.

Lemma str_int_no_nl (n : Z) : Spec.count_char "010"%char (Py.str_int n) = O.
Proof.
  unfold Py.str_int. destruct (n <? 0); [|apply digits_no_nl].
  rewrite count_char_app, digits_no_nl. reflexivity.
Qed.

Lemma zeros_no_nl (k : nat) : Spec.count_char "010"%char (Py.zeros k) = O.
Proof. induction k as [|k IH]; simpl; [reflexivity | exact IH]. Qed.

Lemma format_0w_no_nl (w : nat) (n : Z) :
  Spec.count_char "010"%char (Py.format_0w w n) = O.
Proof.
  unfold Py.format_0w, Py.zfill.
  destruct (n <? 0); rewrite ?count_char_app, zeros_no_nl, digits_no_nl;
    reflexivity.
Qed.

Lemma ts_no_nl (seconds : Q) : Spec.count_char "010"%char (ts seconds) = O.
Proof.
  unfold ts. rewrite !count_char_app, !format_0w_no_nl. reflexivity.
Qed.

Lemma newlines_to_spaces_no_nl (s : string) :
  Spec.count_char "010"%char (Spec.newlines_to_spaces s) = O.
Proof.
  induction s as [|c s IH]; simpl; [reflexivity|]. rewrite IH.
  destruct (Ascii.eqb c "010"%char) eqn:Hc; [reflexivity | now rewrite Hc].
Qed.

Lemma srt_block_four_lines (i : Z) (s : Segment) :
  Spec.count_char "010"%char (srt_block i s) = 4%nat.
Proof.
  unfold srt_block. rewrite replace_newlines.
  rewrite !count_char_app, str_int_no_nl, !ts_no_nl, newlines_to_spaces_no_nl.
  reflexivity.
Qed.

(** ** The caption-track writer *)

Lemma world_eta (w : World) :
  {| supabase := supabase w; files := files w; log := log w |} = w.
Proof. now destruct w. Qed.

Lemma write_srt_loop_run (srt_path : string) (segments : list Segment) :
  forall (i : Z) (w : World) (c : string),
    files w !! srt_path = Some c ->
    write_srt_loop srt_path i segments w
    = (Ok tt,
       {| supabase := supabase w;
          files := <[srt_path :=
                      (c ++ Spec.cat (imap (fun k s => srt_block (i + Z.of_nat k) s)
                                           segments))%string]> (files w);
          log := log w |}).
Proof.
  induction segments as [|s rest IH]; intros i w c Hc.
  - simpl. unfold ret. rewrite string_app_nil_r, insert_id by exact Hc.
    now rewrite world_eta.
  - simpl write_srt_loop. unfold bind at 1.
    unfold file_write, bind, get_files, set_files. rewrite Hc. simpl default.
    erewrite IH by (simpl; apply lookup_insert_eq).
    simpl. rewrite insert_insert_eq, string_app_assoc, Z.add_0_r.
    do 6 f_equal. apply imap_ext. intros k x _. simpl. f_equal. lia.
Qed.

(** What [write_srt] does, whatever the segments are. *)
Lemma write_srt_eval (E : Env) (segments : list Segment) (srt_path : string)
    (w : World) :
  write_srt E segments srt_path w
  = let mk := Makedirs (srt_dir srt_path) in
    if fs_ok E (log w) mk then
      if fs_ok E (log w ++ [EvFs mk true]) (OpenWrite srt_path) then
        (Ok tt,
         {| supabase := supabase w;
            files := <[srt_path := Spec.track segments]> (files w);
            log := log w ++ [EvFs mk true; EvFs (OpenWrite srt_path) true] |})
      else
        (Raise (OSError (OpenWrite srt_path)),
         {| supabase := supabase w; files := files w;
            log := log w ++ [EvFs mk true; EvFs (OpenWrite srt_path) false] |})
    else
      (Raise (OSError mk),
       {| supabase := supabase w; files := files w;
          log := log w ++ [EvFs mk false] |}).
Proof.
  unfold write_srt. fold (srt_dir srt_path). cbv zeta.
  unfold bind at 1. unfold fs_do at 1, bind, get_log, emit, ret, raise.
  destruct (fs_ok E (log w) (Makedirs (srt_dir srt_path))); [|reflexivity].
  unfold open_w, fs_do, bind, get_log, emit, ret, raise, get_files, set_files.
  simpl.
  destruct (fs_ok E _ (OpenWrite srt_path)); simpl;
    rewrite <- ?app_assoc; [|reflexivity].
  erewrite write_srt_loop_run by (simpl; apply lookup_insert_eq).
  simpl. rewrite insert_insert_eq. do 4 f_equal.
  unfold Spec.track, Spec.blocks. f_equal.
  apply imap_ext. intros k x _. simpl. f_equal. lia.
Qed.

Lemma block_shape (i : Z) (s : Segment) :
  exists line : string,
    Spec.caption_text_of (seg_text s) line
    /\ srt_block i s
       = (Py.str_int i ++ nl ++ ts (seg_start s) ++ " --> " ++ ts (seg_end s)
            ++ nl ++ line ++ nl ++ nl)%string.
Proof.
  eexists. split; [apply caption_text_strip_replace | reflexivity].
Qed.

(** C5. When the caption file can be created, [write_srt] succeeds and the
    file holds the blocks of the segments in order, nothing else.  The
    block of the segment at position [k] (from 0) is the ordinal [k + 1],
    the line ["<start> --> <end>"] built with [ts], the text with leading
    and trailing whitespace trimmed and every inner newline replaced by one
    space, and an empty line: four lines in all.  With no segments the file
    is empty and no error is raised. *)
Theorem write_srt_blocks (E : Env) (w : World) (srt_path : string)
    (segments : list Segment) :
  srt_opens E w srt_path = true ->
  fst (write_srt E segments srt_path w) = Ok tt
  /\ files (snd (write_srt E segments srt_path w))
     = <[srt_path := Spec.cat (Spec.blocks segments)]> (files w)
  /\ length (Spec.blocks segments) = length segments
  /\ (forall (k : nat) (s : Segment),
        segments !! k = Some s ->
        exists line : string,
          Spec.caption_text_of (seg_text s) line
          /\ Spec.blocks segments !! k
             = Some (Py.str_int (Z.of_nat k + 1) ++ nl
                       ++ ts (seg_start s) ++ " --> " ++ ts (seg_end s) ++ nl
                       ++ line ++ nl
                       ++ nl)%string
          /\ Spec.count_char "010" (srt_block (Z.of_nat k + 1) s) = 4%nat)
  /\ (segments = [] ->
      files (snd (write_srt E segments srt_path w)) !! srt_path = Some ""%string).
Proof.
  intros Hopen. unfold srt_opens in Hopen.
  apply andb_true_iff in Hopen as [Hmk Hop].
  rewrite write_srt_eval. cbv zeta. rewrite Hmk, Hop. simpl.
  split; [reflexivity|]. split; [reflexivity|].
  split; [apply length_imap|]. split.
  - intros k s Hk. destruct (block_shape (Z.of_nat k + 1) s) as (line & Hl & Hb).
    exists line. split; [exact Hl|]. split; [|apply srt_block_four_lines].
    unfold Spec.blocks. rewrite list_lookup_imap, Hk. simpl. now rewrite Hb.
  - intros ->. apply lookup_insert_eq.
Qed.

Lemma write_srt_blocks_witness :
  files (snd (write_srt Sample.env Sample.hello_world "temp/0b5e.srt"
                (Sample.world None)))
  = <["temp/0b5e.srt" := Spec.cat (Spec.blocks Sample.hello_world)]> ∅.
Proof.
  refine (proj1 (proj2 (write_srt_blocks Sample.env (Sample.world None)
                          "temp/0b5e.srt" Sample.hello_world _))).
  reflexivity.
Defined.

(** C6, as the code has it. [write_srt] never looks at the times of a
    segment: for a list holding a segment with [end < start] it raises
    exactly when it would for the empty list, that is only when the
    directory or the file cannot be created, and otherwise it writes the
    block of every segment, the backwards one included. *)
Theorem write_srt_no_segment_check (E : Env) (w : World) (srt_path : string)
    (segments : list Segment) :
  Exists (fun s => (seg_end s < seg_start s)%Q) segments ->
  fst (write_srt E segments srt_path w) = fst (write_srt E [] srt_path w)
  /\ (forall e : Exn,
        fst (write_srt E segments srt_path w) = Raise e ->
        exists op : FsOp, e = OSError op)
  /\ (srt_opens E w srt_path = true ->
      fst (write_srt E segments srt_path w) = Ok tt
      /\ files (snd (write_srt E segments srt_path w)) !! srt_path
         = Some (Spec.track segments)).
Proof.
  intros _. rewrite !write_srt_eval. cbv zeta. unfold srt_opens.
  destruct (fs_ok E (log w) _); [destruct (fs_ok E _ (OpenWrite srt_path))|];
    simpl; (split; [reflexivity|]); split; try discriminate.
  - split; [reflexivity | apply lookup_insert_eq].
  - intros e [= <-]. eauto.
  - intros e [= <-]. eauto.
Qed.

Lemma write_srt_no_segment_check_witness :
  fst (write_srt Sample.env [Sample.backwards] "temp/a.srt" (Sample.world None))
  = fst (write_srt Sample.env [] "temp/a.srt" (Sample.world None)).
Proof.
  refine (proj1 (write_srt_no_segment_check Sample.env (Sample.world None)
                   "temp/a.srt" [Sample.backwards] _)).
  apply Exists_cons_hd. reflexivity.
Defined.

(** C6, as the specification words it, fails: a single segment running from
    2 s back to 1 s is written out as a caption and nothing is raised. *)
Lemma write_srt_backwards_counterexample :
  (seg_end Sample.backwards < seg_start Sample.backwards)%Q
  /\ fst (write_srt Sample.env [Sample.backwards] "temp/a.srt" (Sample.world None))
     = Ok tt
  /\ files (snd (write_srt Sample.env [Sample.backwards] "temp/a.srt"
                   (Sample.world None))) !! "temp/a.srt"
     = Some ("1" ++ nl ++ "00:00:02,000 --> 00:00:01,000" ++ nl ++ "x" ++ nl ++ nl)%string.
Proof.
  split; [reflexivity|]. split; [reflexivity|].
  vm_compute. reflexivity.
Qed.

(** ** The renderer *)

Lemma new_events_logged (w : World) (evs : list Event) :
  new_events w (logged w evs) = evs.
Proof. unfold new_events, logged. simpl. apply drop_app_length. Qed.

Lemma new_events_same (w : World) : new_events w w = [].
Proof. unfold new_events. apply drop_all. Qed.

Lemma logged_logged (w : World) (e1 e2 : list Event) :
  logged (logged w e1) e2 = logged w (e1 ++ e2).
Proof. unfold logged. simpl. now rewrite app_assoc. Qed.

Lemma logged_nil (w : World) : logged w [] = w.
Proof. unfold logged. rewrite app_nil_r. apply world_eta. Qed.

Lemma subprocess_run_eval (E : Env) (argv : list string) (w : World) :
  subprocess_run E argv w
  = (run_outcome argv (run_child E (log w) argv),
     logged w [EvRun argv (run_child E (log w) argv)]).
Proof.
  unfold subprocess_run, bind, get_log, emit, ret, raise, run_outcome.
  now destruct (run_child E (log w) argv) as [[| |]|].
Qed.

Lemma os_path_exists_eval (E : Env) (path : string) (w : World) :
  os_path_exists E path w
  = (Ok (path_exists E (log w) path),
     logged w [EvExists path (path_exists E (log w) path)]).
Proof. reflexivity. Qed.

(** The renderer, path by path. *)
Lemma burn_subs_eval (E : Env) (video_path srt_path : string) (w : World) :
  burn_subs E video_path srt_path w
  = match burn_out_path video_path with
    | Raise e => (Raise e, w)
    | Ok out =>
        let styled := styled_cmd video_path srt_path out in
        let plain := plain_cmd video_path srt_path out in
        if path_exists E (log w) srt_path then
          let evs1 := [EvExists srt_path true] in
          let r1 := run_child E (log w ++ evs1) styled in
          let evs2 := (evs1 ++ [EvRun styled r1])%list in
          match r1 with
          | Exited 0 => (Ok out, logged w evs2)
          | Exited _ =>
              let r2 := run_child E (log w ++ evs2) plain in
              (match run_outcome plain r2 with
               | Ok _ => Ok out
               | Raise e => Raise e
               end, logged w (evs2 ++ [EvRun plain r2]))
          | LaunchFailed => (Raise (FileNotFoundError styled), logged w evs2)
          end
        else
          (Raise (RuntimeError ("SRT n" ++ a_tilde ++ "o encontrado: " ++ srt_path)),
           logged w [EvExists srt_path false])
    end.
Proof.
  unfold burn_subs. destruct (burn_out_path video_path) as [out|e]; [|reflexivity].
  unfold bind at 1. rewrite os_path_exists_eval.
  destruct (path_exists E (log w) srt_path); [|reflexivity].
  unfold bind, try_except_CalledProcessError.
  fold (styled_cmd video_path srt_path out) (plain_cmd video_path srt_path out).
  change (negb true) with false. cbv beta iota zeta.
  rewrite subprocess_run_eval. rewrite logged_logged.
  change (log (logged w [EvExists srt_path true]))
    with (log w ++ [EvExists srt_path true])%list.
  destruct (run_child E _ (styled_cmd video_path srt_path out)) as [[|p|p]|];
    simpl run_outcome; cbv iota; try reflexivity.
  all: rewrite subprocess_run_eval, logged_logged;
    change (log (logged w ?x)) with (log w ++ x)%list;
    destruct (run_outcome _ _) as [[]|e]; reflexivity.
Qed.

Lemma styled_is_plain_with_style (video_path srt_path out : string) :
  exists vi vf vo : string,
    plain_cmd video_path srt_path out = ffmpeg_burn vi vf vo
    /\ styled_cmd video_path srt_path out
       = ffmpeg_burn vi (vf ++ force_style)%string vo.
Proof.
  eexists _, _, _. split; [reflexivity|].
  unfold styled_cmd. now rewrite <- string_app_assoc.
Qed.

(** C7. One call of [burn_subs] runs the transcoder at most twice.  The
    first run, if any, is the styled command line.  When it exits with 0
    nothing else is run and the call returns the output path.  When it
    exits with another status the plain command line (the same overlay
    without the style) is run exactly once; the call returns if that run
    exits with 0 and raises otherwise, and nothing is run after it. *)
Theorem burn_subs_attempts (E : Env) (w : World) (video_path srt_path : string) :
  let res := burn_subs E video_path srt_path w in
  let rs := runs (new_events w (snd res)) in
  (length rs <= 2)%nat
  /\ (rs = [] -> exists e : Exn, fst res = Raise e)
  /\ (forall (argv : list string) (r : ProcResult),
        rs !! 0%nat = Some (argv, r) ->
        exists out : string,
          burn_out_path video_path = Ok out
          /\ argv = styled_cmd video_path srt_path out
          /\ (exists vi vf vo : string,
                plain_cmd video_path srt_path out = ffmpeg_burn vi vf vo
                /\ argv = ffmpeg_burn vi (vf ++ force_style)%string vo)
          /\ match r with
             | Exited 0 => rs = [(argv, r)] /\ fst res = Ok out
             | Exited _ =>
                 exists r2 : ProcResult,
                   rs = [(argv, r); (plain_cmd video_path srt_path out, r2)]
                   /\ fst res
                      = match r2 with
                        | Exited 0 => Ok out
                        | Exited m =>
                            Raise (CalledProcessError m
                                     (plain_cmd video_path srt_path out))
                        | LaunchFailed =>
                            Raise (FileNotFoundError
                                     (plain_cmd video_path srt_path out))
                        end
             | LaunchFailed => rs = [(argv, r)] /\ fst res = Raise (FileNotFoundError argv)
             end).
Proof.
  cbv zeta. rewrite burn_subs_eval.
  destruct (burn_out_path video_path) as [out|e].
  2:{ simpl. rewrite new_events_same. simpl.
      split; [lia|]. split; [eauto | intros ? ? [=]]. }
  cbv zeta.
  destruct (path_exists E (log w) srt_path).
  2:{ simpl. rewrite new_events_logged. simpl.
      split; [lia|]. split; [eauto | intros ? ? [=]]. }
  destruct (run_child E _ (styled_cmd video_path srt_path out)) as [[|p|p]|] eqn:Hr1;
    simpl fst; simpl snd; rewrite new_events_logged; simpl.
  - split; [simpl; lia|]. split; [discriminate|].
    intros argv r [= <- <-]. exists out. repeat split; auto.
    destruct (styled_is_plain_with_style video_path srt_path out)
      as (vi & vf & vo & H1 & H2); eauto.
  - split; [simpl; lia|]. split; [discriminate|].
    intros argv r [= <- <-]. exists out. repeat split; auto.
    { destruct (styled_is_plain_with_style video_path srt_path out)
        as (vi & vf & vo & H1 & H2); eauto. }
    eexists. split; [reflexivity|].
    now destruct (run_child E _ (plain_cmd video_path srt_path out)) as [[| |]|].
  - split; [simpl; lia|]. split; [discriminate|].
    intros argv r [= <- <-]. exists out. repeat split; auto.
    { destruct (styled_is_plain_with_style video_path srt_path out)
        as (vi & vf & vo & H1 & H2); eauto. }
    eexists. split; [reflexivity|].
    now destruct (run_child E _ (plain_cmd video_path srt_path out)) as [[| |]|].
  - split; [simpl; lia|]. split; [discriminate|].
    intros argv r [= <- <-]. exists out. repeat split; auto.
    destruct (styled_is_plain_with_style video_path srt_path out)
      as (vi & vf & vo & H1 & H2); eauto.
Qed.

(** ** The output path of the renderer *)

Lemma contains_app (c : ascii) (a b : string) :
  Py.contains c (a ++ b) = Py.contains c a || Py.contains c b.
Proof.
  induction a as [|x a IH]; simpl; [reflexivity|].
  rewrite IH. now rewrite orb_assoc.
Qed.

Lemma rsplit1_spec (sep : ascii) (s : string) :
  forall h t : string,
    Py.rsplit1 sep s = Some (h, t) ->
    s = (h ++ String sep t)%string /\ Py.contains sep t = false.
Proof.
  induction s as [|c s IH]; intros h t; simpl; [discriminate|].
  destruct (Py.rsplit1 sep s) as [[h' t']|] eqn:Hr.
  - intros [= <- <-]. destruct (IH h' t' eq_refl) as [-> Ht]. now split.
  - destruct (Ascii.eqb_spec c sep) as [->|Hne]; [|discriminate].
    intros [= <- <-]. split; [reflexivity|].
    clear IH. induction s as [|d s IHs]; [reflexivity|]. simpl in *.
    destruct (Py.rsplit1 sep s) as [[? ?]|]; [discriminate|].
    destruct (Ascii.eqb d sep); [discriminate|]. now apply IHs.
Qed.

Lemma rsplit1_none (sep : ascii) (s : string) :
  Py.contains sep s = false -> Py.rsplit1 sep s = None.
Proof.
  induction s as [|c s IH]; simpl; [reflexivity|].
  intros H. apply orb_false_iff in H as [Hc Hs]. now rewrite IH, Hc.
Qed.

Lemma rsplit1_last (sep : ascii) (a t : string) :
  Py.contains sep t = false ->
  Py.rsplit1 sep (a ++ String sep t) = Some (a, t).
Proof.
  intros Ht. induction a as [|c a IH]; simpl.
  - now rewrite (rsplit1_none sep t Ht), Ascii.eqb_refl.
  - now rewrite IH.
Qed.

Lemma split_no_sep (sep : ascii) (s : string) :
  Forall (fun x => Py.contains sep x = false) (Py.split sep s).
Proof.
  induction s as [|c s IH]; simpl; [repeat constructor|].
  destruct (Ascii.eqb c sep) eqn:Hc; [constructor; [reflexivity | exact IH]|].
  destruct (Py.split sep s) as [|p ps]; [repeat constructor; simpl; now rewrite Hc|].
  inversion IH; subst. constructor; [simpl; now rewrite Hc | assumption].
Qed.

Lemma split_single (sep : ascii) (s : string) :
  Py.contains sep s = false -> Py.split sep s = [s].
Proof.
  induction s as [|c s IH]; simpl; [reflexivity|].
  intros H. apply orb_false_iff in H as [Hc Hs]. now rewrite Hc, IH.
Qed.

Lemma last_Forall {A} (P : A -> Prop) (l : list A) (d : A) :
  Forall P l -> P d -> P (List.last l d).
Proof.
  induction 1 as [|x l Hx Hl IH]; intros Hd; simpl; [assumption|].
  destruct l; [assumption | now apply IH].
Qed.

Lemma name_no_sep (p : string) :
  Py.contains "/" (Path.name (Path.of_string p)) = false.
Proof.
  unfold Path.name, Path.of_string. simpl Path.tail.
  apply (last_Forall (fun x => Py.contains "/" x = false)); [|reflexivity].
  apply List.Forall_forall. intros x Hx. apply List.filter_In in Hx as [Hx _].
  pose proof (split_no_sep "/" p) as H. rewrite List.Forall_forall in H.
  now apply H.
Qed.

Lemma stem_no_sep (n : string) :
  Py.contains "/" n = false -> Py.contains "/" (Path.stem_of_name n) = false.
Proof.
  intros Hn. unfold Path.stem_of_name.
  destruct (Py.rsplit1 "." n) as [[h e]|] eqn:Hr; [|assumption].
  destruct (_ && _); [|assumption].
  apply rsplit1_spec in Hr as [-> _]. rewrite contains_app in Hn.
  now apply orb_false_iff in Hn as [Hh _].
Qed.

Lemma eqb_app_longer (a b t : string) :
  (String.length t < String.length b)%nat -> String.eqb (a ++ b) t = false.
Proof.
  intros Hlen. destruct (String.eqb_spec (a ++ b)%string t) as [Heq|]; [|reflexivity].
  apply (f_equal String.length) in Heq. rewrite string_length_app in Heq. lia.
Qed.

(** [with_name] accepts every new name built from the stem. *)
Lemma with_name_final (p : Path.t) (ext : string) :
  Path.name p <> ""%string ->
  Py.contains "/" (Path.name p) = false ->
  Py.contains "/" ext = false -> (1 < String.length ext)%nat ->
  Path.with_name p (Path.stem p ++ ext)
  = Ok {| Path.root := Path.root p;
          Path.tail := List.removelast (Path.tail p) ++ [(Path.stem p ++ ext)%string] |}.
Proof.
  intros Hname Hsep Hext Hlen. unfold Path.with_name.
  destruct (String.eqb_spec (Path.name p) ""); [contradiction|].
  rewrite !eqb_app_longer by (simpl; lia).
  rewrite contains_app, Hext. unfold Path.stem. now rewrite stem_no_sep.
Qed.

Lemma split_app_sep (sep : ascii) (a b : string) :
  Py.contains sep a = false ->
  Py.split sep (a ++ String sep b) = a :: Py.split sep b.
Proof.
  induction a as [|c a IH]; simpl; intros H.
  - now rewrite Ascii.eqb_refl.
  - apply orb_false_iff in H as [Hc Ha]. now rewrite Hc, IH.
Qed.

(** The path the orchestrator passes: [temp/<uuid>.mp4]. *)
Lemma temp_mp4_out_path (u : string) :
  u <> ""%string -> Py.contains "/" u = false ->
  Os.path_join "temp" (u ++ ".mp4") = ("temp/" ++ u ++ ".mp4")%string
  /\ Path.stem (Path.of_string ("temp/" ++ u ++ ".mp4")) = u
  /\ Path.suffix (Path.of_string ("temp/" ++ u ++ ".mp4")) = ".mp4"%string
  /\ burn_out_path ("temp/" ++ u ++ ".mp4") = Ok ("temp/" ++ u ++ "_final.mp4")%string.
Proof.
  intros Hu Hsep.
  assert (Hx : Py.contains "/" (u ++ ".mp4") = false)
    by now rewrite contains_app, Hsep.
  assert (Htail : Path.tail (Path.of_string ("temp/" ++ u ++ ".mp4"))
                  = ["temp"%string; (u ++ ".mp4")%string]).
  { unfold Path.of_string. cbn [Path.tail].
    pose proof (split_app_sep "/" "temp" (u ++ ".mp4") eq_refl) as Hs.
    rewrite (split_single "/" (u ++ ".mp4") Hx) in Hs.
    change ("temp" ++ String "/" (u ++ ".mp4"))%string
      with ("temp/" ++ u ++ ".mp4")%string in Hs.
    rewrite Hs. simpl. unfold Path.keep_part.
    now rewrite !eqb_app_longer by (simpl; lia). }
  assert (Hname : Path.name (Path.of_string ("temp/" ++ u ++ ".mp4"))
                  = (u ++ ".mp4")%string).
  { unfold Path.name. now rewrite Htail. }
  assert (Hlen : (0 <? String.length u)%nat = true).
  { destruct u; [contradiction | reflexivity]. }
  assert (Hsplit : Py.rsplit1 "." (u ++ ".mp4") = Some (u, "mp4"%string)).
  { change (u ++ ".mp4")%string with (u ++ String "." "mp4")%string.
    now apply rsplit1_last. }
  assert (Hstem : Path.stem (Path.of_string ("temp/" ++ u ++ ".mp4")) = u).
  { unfold Path.stem, Path.stem_of_name. now rewrite Hname, Hsplit, Hlen. }
  split.
  { unfold Os.path_join. destruct u as [|c u]; [contradiction|].
    simpl in Hsep. apply orb_false_iff in Hsep as [Hc _]. simpl. now rewrite Hc. }
  split; [exact Hstem|]. split.
  { unfold Path.suffix, Path.suffix_of_name. now rewrite Hname, Hsplit, Hlen. }
  unfold burn_out_path. rewrite with_name_final.
  - rewrite Htail, Hstem. reflexivity.
  - rewrite Hname. intros H. apply (f_equal String.length) in H.
    rewrite string_length_app in H. simpl in H. lia.
  - now rewrite Hname.
  - reflexivity.
  - simpl. lia.
Qed.

(** C8, as the code has it. The output path of [burn_subs] is the input
    path with its last component replaced by [<stem>_final.mp4]: the
    extension is always [.mp4], whatever the input's is.  This is
    [<stem>_final<ext>] whenever the input's extension is [.mp4], as for
    every path [temp/<uuid>.mp4] that [full_process] passes.  A path
    without a last component is refused. *)
Theorem burn_out_path_final_mp4 (video_path : string) :
  let base := Path.of_string video_path in
  (Path.name base <> ""%string ->
   burn_out_path video_path
   = Ok (Path.str {| Path.root := Path.root base;
                     Path.tail := List.removelast (Path.tail base)
                                    ++ [(Path.stem base ++ "_final.mp4")%string] |}))
  /\ (Path.name base = ""%string ->
      exists e : Exn, burn_out_path video_path = Raise e)
  /\ (Path.suffix base = ".mp4"%string ->
      burn_out_path video_path = claimed_out_path video_path)
  /\ (forall (E : Env) (w : World) (srt_path out : string),
        fst (burn_subs E video_path srt_path w) = Ok out ->
        burn_out_path video_path = Ok out)
  /\ (forall u : string,
        u <> ""%string -> Py.contains "/" u = false ->
        video_path = Os.path_join "temp" (u ++ ".mp4") ->
        burn_out_path video_path = Ok ("temp/" ++ u ++ "_final.mp4")%string
        /\ claimed_out_path video_path = Ok ("temp/" ++ u ++ "_final.mp4")%string).
Proof.
  cbv zeta. split; [|split; [|split; [|split]]].
  - intros Hname. unfold burn_out_path.
    rewrite with_name_final; auto using name_no_sep. simpl. lia.
  - intros Hname. unfold burn_out_path, Path.with_name. rewrite Hname. simpl. eauto.
  - intros Hsuf. unfold burn_out_path, claimed_out_path. now rewrite Hsuf.
  - intros E w srt_path out. rewrite burn_subs_eval.
    destruct (burn_out_path video_path) as [o|e]; [|discriminate]. cbv zeta.
    destruct (path_exists E (log w) srt_path); [|discriminate].
    destruct (run_child E _ (styled_cmd video_path srt_path o)) as [[| |]|];
      simpl; try congruence;
      destruct (run_outcome _ _); simpl; congruence.
  - intros u Hu Hsep ->.
    destruct (temp_mp4_out_path u Hu Hsep) as (-> & Hstem & Hsuf & Hout).
    split; [exact Hout|].
    unfold claimed_out_path. rewrite Hsuf.
    unfold burn_out_path in Hout. exact Hout.
Qed.

Lemma burn_out_path_final_mp4_witness :
  burn_out_path (Os.path_join "temp" ("0b5e" ++ ".mp4")) = Ok "temp/0b5e_final.mp4"%string
  /\ claimed_out_path (Os.path_join "temp" ("0b5e" ++ ".mp4"))
     = Ok "temp/0b5e_final.mp4"%string.
Proof.
  refine (proj2 (proj2 (proj2 (proj2
            (burn_out_path_final_mp4 (Os.path_join "temp" ("0b5e" ++ ".mp4"))))))
            "0b5e"%string _ _ _); [discriminate | reflexivity | reflexivity].
Defined.

(** C8, as the specification words it, fails: for [temp/clip.mov] the
    convention gives [temp/clip_final.mov], the code [temp/clip_final.mp4]. *)
Lemma burn_out_path_mov_counterexample :
  burn_out_path "temp/clip.mov" = Ok "temp/clip_final.mp4"%string
  /\ claimed_out_path "temp/clip.mov" = Ok "temp/clip_final.mov"%string
  /\ fst (burn_subs Sample.env "temp/clip.mov" "temp/clip.srt" (Sample.world None))
     = Ok "temp/clip_final.mp4"%string
  /\ burn_out_path "temp/clip.mov" <> claimed_out_path "temp/clip.mov".
Proof. repeat split; try reflexivity. discriminate. Qed.

Lemma burn_subs_attempts_witness :
  exists out : string,
    burn_out_path "temp/0b5e.mp4" = Ok out
    /\ runs (new_events (Sample.world None)
               (snd (burn_subs Sample.env_retry "temp/0b5e.mp4" "temp/0b5e.srt"
                       (Sample.world None))))
       = [(styled_cmd "temp/0b5e.mp4" "temp/0b5e.srt" out, Exited 1);
          (plain_cmd "temp/0b5e.mp4" "temp/0b5e.srt" out, Exited 0)]
    /\ fst (burn_subs Sample.env_retry "temp/0b5e.mp4" "temp/0b5e.srt"
              (Sample.world None)) = Ok out.
Proof.
  destruct (proj2 (proj2 (burn_subs_attempts Sample.env_retry (Sample.world None)
                            "temp/0b5e.mp4" "temp/0b5e.srt"))
              (styled_cmd "temp/0b5e.mp4" "temp/0b5e.srt" "temp/0b5e_final.mp4")
              (Exited 1) eq_refl)
    as (out & Hout & _ & _ & r2 & Hrs & Hres).
  exists out. split; [exact Hout|].
  injection Hout as <-. split; [reflexivity|]. reflexivity.
Defined.

(** ** The stages of the pipeline, one call at a time *)

Lemma fs_do_eval (E : Env) (op : FsOp) (w : World) :
  fs_do E op w
  = (if fs_ok E (log w) op then Ok tt else Raise (OSError op),
     logged w [EvFs op (fs_ok E (log w) op)]).
Proof.
  unfold fs_do, bind, get_log, emit, ret, raise.
  now destruct (fs_ok E (log w) op).
Qed.

Lemma save_temp_file_eval (E : Env) (file : Upload) (ext : string) (w : World) :
  save_temp_file E file ext w
  = let mk := EvFs (Makedirs "temp") in
    if fs_ok E (log w) (Makedirs "temp") then
      let u := uuid4 E (log w ++ [mk true]) in
      let path := Os.path_join "temp" (u ++ ext) in
      if fs_ok E (log w ++ [mk true; EvUuid u]) (OpenWrite path) then
        (Ok path,
         {| supabase := supabase w;
            files := <[path := upload_bytes file]> (files w);
            log := log w ++ [mk true; EvUuid u; EvFs (OpenWrite path) true] |})
      else
        (Raise (OSError (OpenWrite path)),
         logged w [mk true; EvUuid u; EvFs (OpenWrite path) false])
    else (Raise (OSError (Makedirs "temp")), logged w [mk false]).
Proof.
  unfold save_temp_file, ensure_temp. unfold bind at 1. rewrite fs_do_eval.
  cbv zeta. destruct (fs_ok E (log w) (Makedirs "temp")); [|reflexivity].
  unfold open_w, bind, get_log, emit, get_files, set_files, file_write, ret.
  rewrite fs_do_eval. unfold logged. simpl. rewrite <- !app_assoc. simpl.
  destruct (fs_ok E _ (OpenWrite _)); [|reflexivity].
  cbn [supabase files log].
  rewrite lookup_insert_eq, insert_insert_eq. reflexivity.
Qed.

Lemma extract_audio_eval (E : Env) (video_path : string) (w : World) :
  extract_audio E video_path w
  = let audio_path := (Py.rsplit1_head "." video_path ++ ".mp3")%string in
    let argv := ["ffmpeg"; "-y"; "-i"; video_path; "-q:a"; "0"; "-map"; "a";
                 audio_path]%string in
    let r := run_child E (log w) argv in
    (match run_outcome argv r with Ok _ => Ok audio_path | Raise e => Raise e end,
     logged w [EvRun argv r]).
Proof.
  unfold extract_audio, bind. rewrite subprocess_run_eval. cbv zeta.
  now destruct (run_outcome _ _) as [[]|].
Qed.

Lemma transcribe_segments_eval (E : Env) (audio_path : string) (w : World) :
  transcribe_segments E audio_path w
  = match model_transcribe E (log w) audio_path with
    | Some segments => (Ok segments, logged w [EvTranscribe audio_path true])
    | None => (Raise EngineError, logged w [EvTranscribe audio_path false])
    end.
Proof.
  unfold transcribe_segments, bind, get_log.
  now destruct (model_transcribe E (log w) audio_path).
Qed.

Lemma add_use_eval (E : Env) (email video_name plan : string) (w : World) :
  add_use E email video_name plan w
  = (Ok tt,
     {| supabase := with_use (use_record E w email video_name plan) <$> supabase w;
        files := files w; log := log w |}).
Proof.
  unfold add_use, bind, get_supabase, get_log, set_store, ret.
  destruct w as [[st|] fs l]; reflexivity.
Qed.

(** The path handed to the renderer always has a last component. *)
Lemma split_app_last (sep : ascii) (a b : string) :
  Py.contains sep b = false ->
  exists (init : list string) (l : string),
    Py.split sep (a ++ b) = (init ++ [(l ++ b)%string])%list.
Proof.
  intros Hb. induction a as [|c a (init & l & IH)].
  - exists [], ""%string. simpl. now apply split_single.
  - simpl. rewrite IH. destruct (Ascii.eqb c sep).
    + now exists (""%string :: init), l.
    + destruct init as [|i init]; simpl.
      * now exists [], (String c l).
      * now exists (String c i :: init), l.
Qed.

Lemma name_mp4 (a : string) :
  Path.name (Path.of_string (a ++ ".mp4")) <> ""%string.
Proof.
  unfold Path.name, Path.of_string. cbn [Path.tail].
  destruct (split_app_last "/" a ".mp4" eq_refl) as (init & l & ->).
  rewrite List.filter_app. simpl List.filter. unfold Path.keep_part at 2.
  rewrite !eqb_app_longer by (simpl; lia). simpl negb. simpl andb. cbv iota.
  rewrite List.last_last. intros H. apply (f_equal String.length) in H.
  rewrite string_length_app in H. simpl in H. lia.
Qed.

Lemma path_join_temp_mp4 (u : string) :
  exists a : string, Os.path_join "temp" (u ++ ".mp4") = (a ++ ".mp4")%string.
Proof.
  unfold Os.path_join. destruct (Py.startswith "/" (u ++ ".mp4")).
  - now exists u.
  - exists ("temp/" ++ u)%string. reflexivity.
Qed.

Lemma pipeline_out_path (u : string) :
  exists out : string, burn_out_path (Os.path_join "temp" (u ++ ".mp4")) = Ok out.
Proof.
  destruct (path_join_temp_mp4 u) as (a & ->).
  unfold burn_out_path. rewrite with_name_final; eauto using name_mp4, name_no_sep.
  simpl. lia.
Qed.

(** ** The pipeline after the gate *)

Lemma new_events_app (w w' : World) (evs : list Event) :
  log w' = (log w ++ evs)%list -> new_events w w' = evs.
Proof. unfold new_events. intros ->. apply drop_app_length. Qed.

Lemma styled_failure_shape (video_path srt_path out : string) (n : Z)
    (r2 : ProcResult) (rest : list Event) :
  exists (vi vf vo : string) (n' : Z) (r2' : ProcResult) (rest' : list Event),
    EvRun (styled_cmd video_path srt_path out) (Exited n)
    = EvRun (ffmpeg_burn vi (vf ++ force_style)%string vo) (Exited n')
    /\ EvRun (plain_cmd video_path srt_path out) r2 :: rest
       = EvRun (ffmpeg_burn vi vf vo) r2' :: rest'.
Proof.
  destruct (styled_is_plain_with_style video_path srt_path out)
    as (vi & vf & vo & -> & ->).
  now exists vi, vf, vo, n, r2, rest.
Qed.

#[local] Arguments Os.path_join : simpl never.
#[local] Arguments Os.basename : simpl never.
#[local] Arguments Py.rsplit1_head : simpl never.
#[local] Arguments Path.str : simpl never.
#[local] Arguments srt_dir : simpl never.
#[local] Arguments styled_cmd : simpl never.
#[local] Arguments plain_cmd : simpl never.
#[local] Arguments Spec.track : simpl never.

Ltac close_failure :=
  repeat match goal with
         | |- _ /\ _ => split
         | |- True => exact I
         | |- _ = true -> _ => let Hf := fresh in intros Hf; try discriminate Hf
         | |- _ = [] \/ _ => first [left; reflexivity | right; apply styled_failure_shape]
         end.

(** The end of a path: the events are the ones logged, in order. *)
Ltac leaf :=
  subst; unfold logged; cbn [fst snd log supabase files];
  rewrite <- ?app_assoc; eexists; (split; [reflexivity|]);
  cbn [app stops_at_failure failure negb];
  (split; [close_failure|]).

Ltac split_last pre := exists pre; eexists; split; reflexivity.

Ltac last_event :=
  first [ split_last (@nil Event)
        | eexists [_]; eexists; split; reflexivity
        | eexists [_; _]; eexists; split; reflexivity
        | eexists [_; _; _]; eexists; split; reflexivity
        | eexists [_; _; _; _]; eexists; split; reflexivity
        | eexists [_; _; _; _; _]; eexists; split; reflexivity
        | eexists [_; _; _; _; _; _]; eexists; split; reflexivity
        | eexists [_; _; _; _; _; _; _]; eexists; split; reflexivity
        | eexists [_; _; _; _; _; _; _; _]; eexists; split; reflexivity
        | eexists [_; _; _; _; _; _; _; _; _]; eexists; split; reflexivity
        | eexists [_; _; _; _; _; _; _; _; _; _]; eexists; split; reflexivity
        | eexists [_; _; _; _; _; _; _; _; _; _; _]; eexists; split; reflexivity
        | eexists [_; _; _; _; _; _; _; _; _; _; _; _]; eexists; split; reflexivity ].

Ltac raised :=
  leaf; (split; [discriminate|]); (split; [last_event|]); try reflexivity.

(** The end of a run once the video is rendered: the use is recorded, then
    the output is opened. *)
Ltac recorded :=
  match goal with
  | Hres : _ = _ |- _ =>
      cbv beta iota in Hres;
      unfold bind at 1 in Hres; rewrite add_use_eval in Hres;
      unfold bind at 1 in Hres; rewrite fs_do_eval in Hres;
      cbn [log logged supabase files] in Hres;
      destruct (fs_ok _ _ (OpenRead _)); unfold ret in Hres;
      [ leaf; eexists _, _; repeat split; reflexivity
      | leaf; (split; [discriminate|]); (split; [last_event|]);
        eexists; repeat split; reflexivity ]
  end.

(** Where a run of the pipeline can end, and what it leaves behind. *)
Lemma pipeline_facts (E : Env) (file : Upload) (email plan : string) (w : World)
    (res : Result Response * World) :
  pipeline E file email plan w = res ->
  exists evs : list Event,
    log (snd res) = (log w ++ evs)%list
    /\ stops_at_failure evs
    /\ match fst res with
       | Ok resp =>
           exists (u : Uso) (out : string),
             resp = StreamingResponse out "video/mp4"
                      [("Content-Disposition"%string,
                        ("attachment; filename=" ++ dquote ++ "video_legenda.mp4"
                           ++ dquote)%string)]
             /\ uso_email u = email /\ uso_plano u = plan
             /\ supabase (snd res) = with_use u <$> supabase w
       | Raise e =>
           (forall c d, e <> HTTPException c d)
           /\ (exists pre ev, evs = (pre ++ [ev])%list /\ failure ev = true)
           /\ match e with
              | OSError (OpenRead _) =>
                  exists u : Uso,
                    uso_email u = email /\ uso_plano u = plan
                    /\ supabase (snd res) = with_use u <$> supabase w
              | _ => supabase (snd res) = supabase w
              end
       end.
Proof.
  intros Hres. unfold pipeline in Hres.
  unfold bind at 1 in Hres. rewrite save_temp_file_eval in Hres. cbv zeta in Hres.
  destruct (fs_ok E (log w) (Makedirs "temp")); [|raised].
  destruct (fs_ok E _ (OpenWrite _)); [|raised].
  set (u := uuid4 E _) in Hres.
  set (video_path := Os.path_join "temp" (u ++ ".mp4")) in Hres.
  unfold bind at 1 in Hres. rewrite extract_audio_eval in Hres.
  cbv zeta in Hres. cbn [log] in Hres.
  destruct (run_child E _ _) as [[|p|p]|]; cbn [run_outcome] in Hres;
    [|raised..].
  cbv beta iota in Hres.
  unfold bind at 1 in Hres. rewrite transcribe_segments_eval in Hres.
  cbn [log logged] in Hres.
  destruct (model_transcribe E _ _) as [segs|]; [|raised].
  unfold bind at 1 in Hres. unfold emit at 1 in Hres. cbv beta iota in Hres.
  unfold bind at 1 in Hres. rewrite write_srt_eval in Hres.
  cbv zeta in Hres. cbn [log logged supabase files] in Hres.
  destruct (fs_ok E _ (Makedirs _)); [|raised].
  destruct (fs_ok E _ (OpenWrite _)); [|raised].
  unfold bind at 1 in Hres. rewrite burn_subs_eval in Hres.
  destruct (pipeline_out_path u) as (out & Hout). fold video_path in Hout.
  rewrite Hout in Hres. cbv zeta in Hres. cbn [log logged supabase files] in Hres.
  destruct (path_exists E _ _); [|raised].
  destruct (run_child E _ (styled_cmd _ _ _)) as [[|p|p]|]; [| | |raised].
  - recorded.
  - destruct (run_child E _ (plain_cmd _ _ _)) as [[|q|q]|];
      cbn [run_outcome] in Hres; [recorded | raised..].
  - destruct (run_child E _ (plain_cmd _ _ _)) as [[|q|q]|];
      cbn [run_outcome] in Hres; [recorded | raised..].
Qed.

(** ** The quota gate *)

Lemma get_or_create_user_eval (email : string) (w : World) :
  get_or_create_user email w
  = (Ok (plan_of w email),
     {| supabase := with_user email <$> supabase w;
        files := files w; log := log w |}).
Proof.
  unfold get_or_create_user, plan_of, with_user, bind, get_supabase, set_store, ret.
  destruct w as [[st|] fs l]; cbn [supabase files log fmap option_fmap option_map];
    [|reflexivity].
  now destruct (List.filter _ (usuarios st)).
Qed.

Lemma count_uses_this_month_eval (E : Env) (email : string) (w : World) :
  count_uses_this_month E email w
  = (Ok (used_of E w email),
     match supabase w with
     | Some _ => logged w [EvNow (utcnow E (log w))]
     | None => w
     end).
Proof.
  unfold count_uses_this_month, used_of, bind, get_supabase, get_log, emit, ret.
  now destruct w as [[st|] fs l].
Qed.

Lemma usos_with_user (email : string) (st : Store) :
  usos (with_user email st) = usos st.
Proof. unfold with_user. now destruct (List.filter _ (usuarios st)). Qed.

Lemma used_of_with_user (E : Env) (email : string) (w : World) :
  used_of E {| supabase := with_user email <$> supabase w;
               files := files w; log := log w |} email
  = used_of E w email.
Proof.
  unfold used_of, uses_since. destruct w as [[st|] fs l]; simpl; [|reflexivity].
  now rewrite usos_with_user.
Qed.

Lemma full_process_gate (E : Env) (file : Upload) (w : World) :
  full_process E file w
  = let email := form_email file in
    let plan := plan_of w email in
    if email_ok email then
      if limit_for plan <=? used_of E w email
      then (Raise (HTTPException 403 (quota_message plan (limit_for plan))),
            gate_world E email w)
      else pipeline E file email plan (gate_world E email w)
    else (Raise (HTTPException 400 ("Informe um e-mail v" ++ a_acute ++ "lido.")), w).
Proof.
  unfold full_process, email_ok. cbv zeta.
  destruct ((String.length (form_email file) =? 0)%nat
            || negb (Py.contains "@" (form_email file))); [reflexivity|].
  cbn [negb]. unfold bind at 1. rewrite get_or_create_user_eval.
  unfold bind at 1. rewrite count_uses_this_month_eval, used_of_with_user.
  fold (pipeline E file (form_email file) (plan_of w (form_email file))).
  unfold gate_world, raise.
  destruct w as [[st|] fs l]; destruct (limit_for _ <=? _); reflexivity.
Qed.

Lemma usage_records_gate (E : Env) (email : string) (w : World) :
  usage_records (gate_world E email w) = usage_records w.
Proof.
  unfold usage_records, gate_world. destruct (supabase w) as [st|] eqn:Hs; simpl;
    [apply usos_with_user | now rewrite Hs].
Qed.

Lemma gate_world_log (E : Env) (email : string) (w : World) :
  log (gate_world E email w)
  = (log w ++ match supabase w with
              | Some _ => [EvNow (utcnow E (log w))]
              | None => []
              end)%list.
Proof.
  unfold gate_world. destruct (supabase w); simpl; [reflexivity|].
  now rewrite app_nil_r.
Qed.

(** C1. A request whose month's uses have reached the allowance of its
    plan is rejected before anything expensive is started: nothing is
    written to disk, no child process is run, the engine is not called and
    no usage record is appended; all the handler has done is resolve the
    user and read the clock.  The plan and the count compared are the ones
    [get_or_create_user] and [count_uses_this_month] return.  The gate is
    line 149, reached once the e-mail has passed line 143: the answer is
    then 403 with a message that names the plan and the limit. *)
Theorem quota_gate_rejects (E : Env) (w : World) (file : Upload) :
  let email := form_email file in
  let plan := plan_of w email in
  let limit := limit_for plan in
  let res := full_process E file w in
  limit <= used_of E w email ->
  fst (get_or_create_user email w) = Ok plan
  /\ fst (count_uses_this_month E email (snd (get_or_create_user email w)))
     = Ok (used_of E w email)
  /\ (exists (c : Z) (d : string),
        fst res = Raise (HTTPException c d) /\ (c = 400 \/ c = 403))
  /\ (email_ok email = true ->
      fst res = Raise (HTTPException 403 (quota_message plan limit))
      /\ http_status (fst res) = 403)
  /\ (exists pre mid post : string,
        quota_message plan limit
        = (pre ++ plan ++ mid ++ Py.str_int limit ++ post)%string)
  /\ files (snd res) = files w
  /\ usage_records (snd res) = usage_records w
  /\ Forall (fun e => expensive e = false) (new_events w (snd res)).
Proof.
  cbv zeta. intros Hquota. apply Z.leb_le in Hquota.
  split; [now rewrite get_or_create_user_eval|].
  split.
  { rewrite get_or_create_user_eval. cbn [snd].
    now rewrite count_uses_this_month_eval, used_of_with_user. }
  rewrite full_process_gate. cbv zeta. rewrite Hquota.
  destruct (email_ok (form_email file)); cbn [fst snd].
  - split; [eauto 6|]. split; [auto|]. split; [unfold quota_message; eauto|].
    split; [unfold gate_world; now destruct (supabase w)|].
    split; [apply usage_records_gate|].
    rewrite (new_events_app w _ _ (gate_world_log E _ w)).
    destruct (supabase w); repeat constructor.
  - split; [eauto 6|]. split; [discriminate|].
    split; [unfold quota_message; eauto|].
    rewrite new_events_same. repeat split; constructor.
Qed.

Lemma quota_gate_rejects_witness :
  fst (full_process Sample.env Sample.upload (Sample.world (Some Sample.spent_store)))
  = Raise (HTTPException 403 (quota_message "gratuito" 3)).
Proof.
  assert (Hq : limit_for (plan_of (Sample.world (Some Sample.spent_store))
                            (form_email Sample.upload))
               <= used_of Sample.env (Sample.world (Some Sample.spent_store))
                    (form_email Sample.upload))
    by (apply Z.leb_le; reflexivity).
  destruct (quota_gate_rejects Sample.env (Sample.world (Some Sample.spent_store))
              Sample.upload Hq) as (_ & _ & _ & H403 & _).
  exact (proj1 (H403 eq_refl)).
Defined.

(** ** Usage records *)

Lemma usage_records_with_use (u : Uso) (w w' : World) :
  supabase w' = with_use u <$> supabase w ->
  usage_records w' = usage_records w
  \/ usage_records w' = (usage_records w ++ [u])%list.
Proof.
  unfold usage_records. intros ->. destruct (supabase w); simpl; auto.
Qed.

(** C2, as the code has it. With a store configured, a run that completes
    appends exactly one usage record, for the e-mail and the plan of the
    request.  A run that raises anywhere before the record is written
    (validation, the quota gate, saving, extraction, transcription, track
    building, rendering) appends none, and no run appends more than one.
    Without a store nothing is ever recorded.  Nothing is attempted after
    an outside call has failed, the plain render after a failed styled
    render apart: a run that raises ends with the call that failed. *)
Theorem full_process_usage_record (E : Env) (file : Upload) (w : World) :
  let res := full_process E file w in
  let evs := new_events w (snd res) in
  (forall (st : Store) (resp : Response),
      supabase w = Some st -> fst res = Ok resp ->
      exists (st' : Store) (u : Uso),
        supabase (snd res) = Some st'
        /\ usos st' = (usos st ++ [u])%list
        /\ uso_email u = form_email file
        /\ uso_plano u = plan_of w (form_email file))
  /\ (forall e : Exn,
        fst res = Raise e -> (forall p, e <> OSError (OpenRead p)) ->
        usage_records (snd res) = usage_records w)
  /\ (usage_records (snd res) = usage_records w
      \/ exists u : Uso, usage_records (snd res) = (usage_records w ++ [u])%list)
  /\ (supabase w = None -> supabase (snd res) = None)
  /\ stops_at_failure evs
  /\ (forall e : Exn,
        fst res = Raise e -> (forall c d, e <> HTTPException c d) ->
        exists pre ev, evs = (pre ++ [ev])%list /\ failure ev = true).
Proof.
  cbv zeta. rewrite full_process_gate. cbv zeta.
  destruct (email_ok (form_email file)).
  2:{ cbn [fst snd]. rewrite new_events_same.
      repeat split; try discriminate; try (now left); try exact I; auto.
      intros e [= <-] H. exfalso. eapply H. reflexivity. }
  destruct (limit_for _ <=? _).
  { cbn [fst snd]. rewrite (new_events_app w _ _ (gate_world_log E _ w)).
    split; [discriminate|]. split; [intros; apply usage_records_gate|].
    split; [left; apply usage_records_gate|].
    split; [intros Hn; unfold gate_world; now rewrite Hn|].
    split; [destruct (supabase w); simpl; repeat split; discriminate|].
    intros e [= <-] H. exfalso. eapply H. reflexivity. }
  destruct (pipeline E file (form_email file) (plan_of w (form_email file))
              (gate_world E (form_email file) w)) as [r w'] eqn:Hp.
  destruct (pipeline_facts _ _ _ _ _ _ Hp) as (evs & Hlog & Hstop & Hres).
  cbn [fst snd] in *.
  assert (Hnew : new_events w w'
                 = (match supabase w with
                    | Some _ => [EvNow (utcnow E (log w))]
                    | None => []
                    end ++ evs)%list).
  { apply new_events_app. now rewrite Hlog, gate_world_log, app_assoc. }
  assert (Hstop' : stops_at_failure (new_events w w')).
  { rewrite Hnew. destruct (supabase w); simpl; [split; [discriminate|]|]; exact Hstop. }
  destruct r as [resp|e].
  - destruct Hres as (u & out & -> & Hemail & Hplan & Hsb).
    split.
    { intros st resp' Hst _. exists (with_use u (with_user (form_email file) st)), u.
      rewrite Hsb. unfold gate_world. rewrite Hst. simpl.
      now rewrite usos_with_user. }
    split; [discriminate|]. split.
    { destruct (usage_records_with_use u _ _ Hsb) as [H|H];
        rewrite usage_records_gate in H; eauto. }
    split; [intros Hn; rewrite Hsb; unfold gate_world; now rewrite !Hn|].
    split; [exact Hstop' | discriminate].
  - destruct Hres as (Hhttp & (pre & ev & -> & Hfail) & Hsb).
    split; [discriminate|]. split.
    { intros e' [= <-] Hopen. destruct e as [| |[]| | | | |];
        try (unfold usage_records at 1; rewrite Hsb;
             fold (usage_records (gate_world E (form_email file) w));
             apply usage_records_gate).
      now contradiction (Hopen path). }
    split.
    { destruct e as [| |[]| | | | |];
        try (left; unfold usage_records at 1; rewrite Hsb;
             fold (usage_records (gate_world E (form_email file) w));
             apply usage_records_gate).
      destruct Hsb as (u & _ & _ & Hsb).
      destruct (usage_records_with_use u _ _ Hsb) as [H|H];
        rewrite usage_records_gate in H; eauto. }
    split.
    { intros Hn. destruct e as [| |[]| | | | |];
        try (rewrite Hsb; unfold gate_world; now rewrite !Hn).
      destruct Hsb as (u & _ & _ & ->). unfold gate_world. now rewrite !Hn. }
    split; [exact Hstop'|].
    intros e' [= <-] _. rewrite Hnew, app_assoc. eauto.
Qed.

Lemma full_process_usage_record_witness :
  exists (st' : Store) (u : Uso),
    supabase (snd (full_process Sample.env Sample.upload
                     (Sample.world (Some Sample.empty_store)))) = Some st'
    /\ usos st' = (usos Sample.empty_store ++ [u])%list
    /\ uso_email u = form_email Sample.upload
    /\ uso_plano u = plan_of (Sample.world (Some Sample.empty_store))
                       (form_email Sample.upload).
Proof.
  refine (proj1 (full_process_usage_record Sample.env Sample.upload
                   (Sample.world (Some Sample.empty_store)))
            Sample.empty_store
            (StreamingResponse "temp/0b5e_final.mp4" "video/mp4"
               [("Content-Disposition"%string,
                 ("attachment; filename=" ++ dquote ++ "video_legenda.mp4"
                    ++ dquote)%string)])
            eq_refl _).
  reflexivity.
Defined.

(** C2, as the specification words it, fails: without a store a run
    completes and returns the captioned video, and no usage record is
    appended. *)
Lemma usage_record_unconfigured_counterexample :
  fst (full_process Sample.env Sample.upload (Sample.world None))
  = Ok (StreamingResponse "temp/0b5e_final.mp4" "video/mp4"
          [("Content-Disposition"%string,
            ("attachment; filename=" ++ dquote ++ "video_legenda.mp4"
               ++ dquote)%string)])
  /\ usage_records (snd (full_process Sample.env Sample.upload (Sample.world None)))
     = usage_records (Sample.world None)
  /\ supabase (snd (full_process Sample.env Sample.upload (Sample.world None)))
     = None.
Proof. repeat split; reflexivity. Qed.

(** The record is written before the rendered file is opened: when that
    last call fails, the run raises and the record stays. *)
Example record_written_before_open :
  fst (full_process Sample.env_unreadable Sample.upload
         (Sample.world (Some Sample.empty_store)))
  = Raise (OSError (OpenRead "temp/0b5e_final.mp4"))
  /\ length (usage_records
               (snd (full_process Sample.env_unreadable Sample.upload
                       (Sample.world (Some Sample.empty_store))))) = 1%nat.
Proof. split; reflexivity. Qed.

(** ** Without a store *)

(** C10. When the store client is absent, for every e-mail
    [get_or_create_user] answers the free plan and creates nothing,
    [count_uses_this_month] answers 0 and [add_use] does nothing.  As 0 is
    below the free allowance of 3, [full_process] never answers 403: a
    request with a valid e-mail goes straight into the pipeline, and the
    store stays absent. *)
Theorem unconfigured_store_never_rejects (E : Env) (w : World) :
  supabase w = None ->
  (forall email : string, get_or_create_user email w = (Ok "gratuito"%string, w))
  /\ (forall email : string, count_uses_this_month E email w = (Ok 0, w))
  /\ (forall email video_name plan : string,
        add_use E email video_name plan w = (Ok tt, w))
  /\ 0 < limit_for "gratuito" /\ limit_for "gratuito" = 3
  /\ (forall file : Upload,
        email_ok (form_email file) = true ->
        full_process E file w = pipeline E file (form_email file) "gratuito" w)
  /\ (forall file : Upload,
        (forall d : string,
            fst (full_process E file w) <> Raise (HTTPException 403 d))
        /\ http_status (fst (full_process E file w)) <> 403
        /\ supabase (snd (full_process E file w)) = None).
Proof.
  intros Hn.
  assert (Hgate : forall file : Upload,
             full_process E file w
             = if email_ok (form_email file)
               then pipeline E file (form_email file) "gratuito" w
               else (Raise (HTTPException 400
                              ("Informe um e-mail v" ++ a_acute ++ "lido.")), w)).
  { intros file. rewrite full_process_gate. cbv zeta.
    unfold plan_of, used_of, gate_world. rewrite Hn.
    now destruct (email_ok (form_email file)). }
  split; [intros; rewrite get_or_create_user_eval; unfold plan_of;
          rewrite Hn; simpl; now rewrite <- Hn, world_eta|].
  split; [intros; rewrite count_uses_this_month_eval; unfold used_of;
          now rewrite Hn|].
  split; [intros; rewrite add_use_eval, Hn; simpl; now rewrite <- Hn, world_eta|].
  split; [reflexivity|]. split; [reflexivity|].
  split; [intros file Hok; now rewrite Hgate, Hok|].
  intros file. rewrite Hgate. destruct (email_ok (form_email file)).
  2:{ cbn [fst snd http_status]. repeat split; [discriminate | lia | exact Hn]. }
  destruct (pipeline E file (form_email file) "gratuito" w) as [r w'] eqn:Hp.
  destruct (pipeline_facts _ _ _ _ _ _ Hp) as (evs & _ & _ & Hres).
  cbn [fst snd] in *. destruct r as [resp|e].
  - destruct Hres as (u & out & _ & _ & _ & ->). rewrite Hn.
    repeat split; [discriminate | simpl; lia].
  - destruct Hres as (Hhttp & _ & Hsb).
    split; [intros d [= ->]; now apply (Hhttp 403 d)|]. split.
    + destruct e; simpl; try lia. now contradiction (Hhttp status_code detail).
    + destruct e as [| |[]| | | | |]; try (now rewrite Hsb).
      destruct Hsb as (u & _ & _ & ->). now rewrite Hn.
Qed.

Lemma unconfigured_store_never_rejects_witness :
  http_status (fst (full_process Sample.env Sample.upload (Sample.world None)))
  <> 403.
Proof.
  destruct (unconfigured_store_never_rejects Sample.env (Sample.world None)
              eq_refl) as (_ & _ & _ & _ & _ & _ & Hfull).
  exact (proj1 (proj2 (Hfull Sample.upload))).
Defined.

(** ** The payment webhook *)

(** C9, as the code has it. A verified event of any kind other than
    ["checkout.session.completed"] changes nothing and is answered with
    200 and [{"status": "ok"}], the answer of every verified event.
    [{"status": "ignored"}] is the answer exactly when the billing secret
    or the store is not configured, before any verification. *)
Theorem webhook_other_event_ok (E : Env) (w : World) (request : WebhookRequest) :
  (forall (secret : string) (event : StripeEvent),
      STRIPE_WEBHOOK_SECRET E = Some secret -> secret <> ""%string ->
      supabase w <> None ->
      construct_event E (payload request) (stripe_signature request) secret
      = Some event ->
      ev_type event <> "checkout.session.completed"%string ->
      stripe_webhook E request w = (Ok (JsonStatus "ok"), w)
      /\ http_status (fst (stripe_webhook E request w)) = 200)
  /\ (fst (stripe_webhook E request w) = Ok (JsonStatus "ignored")
      <-> unconfigured E w).
Proof.
  unfold stripe_webhook, unconfigured, bind, get_supabase, ret, raise, set_store.
  destruct (STRIPE_WEBHOOK_SECRET E) as [secret|];
    destruct w as [[st|] fs l]; cbn [supabase fst snd];
    try (split; [intros ? ? ? ? ?; congruence | split; auto]).
  destruct secret as [|c secret]; cbn [String.length Nat.eqb].
  { split; [intros ? ? [= <-] ?; congruence | split; auto]. }
  split.
  - intros s event [= <-] _ _ Hev Htype. rewrite Hev.
    destruct (String.eqb_spec (ev_type event) "checkout.session.completed");
      [contradiction | now split].
  - split.
    + destruct (construct_event E _ _ _) as [event|]; [|discriminate].
      destruct (String.eqb _ _); [destruct (ev_customer_email event)|];
        discriminate.
    + intros [H|[H|H]]; discriminate.
Qed.

Lemma webhook_other_event_ok_witness :
  stripe_webhook Sample.env Sample.invoice_paid
    (Sample.world (Some Sample.spent_store))
  = (Ok (JsonStatus "ok"), Sample.world (Some Sample.spent_store)).
Proof.
  refine (proj1 (proj1 (webhook_other_event_ok Sample.env
                          (Sample.world (Some Sample.spent_store))
                          Sample.invoice_paid)
                   "whsec_test"%string
                   {| ev_type := "invoice.paid"; ev_customer_email := None |}
                   eq_refl _ _ eq_refl _)); discriminate.
Defined.

(** C9, as the specification words it, fails: a verified ["invoice.paid"]
    event is answered with [{"status": "ok"}], not
    [{"status": "ignored"}]. *)
Lemma webhook_ignored_counterexample :
  construct_event Sample.env (payload Sample.invoice_paid)
    (stripe_signature Sample.invoice_paid) "whsec_test"
  = Some {| ev_type := "invoice.paid"; ev_customer_email := None |}
  /\ stripe_webhook Sample.env Sample.invoice_paid
       (Sample.world (Some Sample.spent_store))
     = (Ok (JsonStatus "ok"), Sample.world (Some Sample.spent_store))
  /\ fst (stripe_webhook Sample.env Sample.invoice_paid
            (Sample.world (Some Sample.spent_store)))
     <> Ok (JsonStatus "ignored").
Proof. repeat split; try reflexivity. discriminate. Qed.

(** * Further properties *)

(** ** The timestamp as a count of milliseconds *)

Lemma Qfloor_div_pos (x : Q) (p : positive) :
  Qfloor (x / inject_Z (Z.pos p)) = Qfloor x / Z.pos p.
Proof.
  destruct x as [a d]. unfold Qdiv, Qinv, Qmult, Qfloor. simpl.
  rewrite Z.mul_1_r, Pos2Z.inj_mul. now rewrite Z.div_div by lia.
Qed.

Lemma Qfloor_sub_Z (x : Q) (k : Z) :
  Qfloor (x - inject_Z k) = Qfloor x - k.
Proof.
  pose proof (Qfloor_le x) as H1. pose proof (Qlt_floor x) as H2.
  rewrite inject_Z_plus in H2. change (inject_Z 1) with 1%Q in H2.
  assert (Hlo : Qfloor x - k <= Qfloor (x - inject_Z k)).
  { apply Qfloor_ge. unfold Z.sub. rewrite inject_Z_plus, inject_Z_opp. lra. }
  assert (Hhi : Qfloor (x - inject_Z k) < Qfloor x - k + 1).
  { apply Qfloor_lt. unfold Z.sub. rewrite !inject_Z_plus, inject_Z_opp.
    change (inject_Z 1) with 1%Q. lra. }
  lia.
Qed.

(** The fields of the exact cut add up to the offset in whole
    milliseconds. *)
Lemma fields_total (seconds : Q) :
  3600000 * Spec.hours seconds + 60000 * Spec.minutes seconds
  + 1000 * Spec.secs seconds + Spec.millis_floor seconds
  = Qfloor (seconds * 1000).
Proof.
  set (F := Qfloor seconds).
  assert (Eh : Spec.hours seconds = F / 3600).
  { unfold Spec.hours. apply (Qfloor_div_pos seconds 3600). }
  assert (Em : Spec.minutes seconds = (F - 3600 * (F / 3600)) / 60).
  { unfold Spec.minutes, Spec.qmod.
    change (Qfloor (seconds / 3600)) with (Spec.hours seconds). rewrite Eh.
    rewrite (Qfloor_comp _ ((seconds - inject_Z (3600 * (F / 3600)))
                              / inject_Z 60))
      by (rewrite inject_Z_mult; reflexivity).
    now rewrite Qfloor_div_pos, Qfloor_sub_Z. }
  assert (Es : Spec.secs seconds = F - 60 * (F / 60)).
  { unfold Spec.secs, Spec.qmod.
    rewrite (Qfloor_div_pos seconds 60 : Qfloor (seconds / 60) = F / 60).
    rewrite (Qfloor_comp _ (seconds - inject_Z (60 * (F / 60))))
      by (rewrite inject_Z_mult; reflexivity).
    now rewrite Qfloor_sub_Z. }
  assert (Ems : Spec.millis_floor seconds = Qfloor (seconds * 1000) - 1000 * F).
  { unfold Spec.millis_floor. fold F.
    rewrite <- Qfloor_sub_Z. apply Qfloor_comp.
    rewrite inject_Z_mult. change (inject_Z 1000) with 1000%Q. ring. }
  rewrite Eh, Em, Es, Ems.
  pose proof (Z.div_mod F 3600) as D1. pose proof (Z.div_mod F 60) as D2.
  pose proof (Z.div_mod (F - 3600 * (F / 3600)) 60) as D3.
  pose proof (Z.mod_pos_bound F 3600) as B1.
  pose proof (Z.mod_pos_bound F 60) as B2.
  pose proof (Z.mod_pos_bound (F - 3600 * (F / 3600)) 60) as B3.
  assert (E3 : (F - 3600 * (F / 3600)) / 60 = F / 60 - 60 * (F / 3600)).
  { replace (F - 3600 * (F / 3600)) with (F + (- (60 * (F / 3600))) * 60) by lia.
    rewrite Z.div_add by lia. lia. }
  lia.
Qed.

(** X1. For a double offset [0 <= seconds < 2^53] the four fields of [ts],
    read back in base 60/60/1000, give the offset cut to whole milliseconds
    or one millisecond more: the fields stay in their ranges, nothing is
    carried wrongly between them, and the printed time is never before the
    cut offset and never more than a millisecond after it.  The one more
    comes from the product of line 64 being rounded to a double before it
    is cut. *)
Theorem ts_total_millis (seconds : Q) :
  Py.is_float seconds = true ->
  (0 <= seconds)%Q -> (seconds < inject_Z (2 ^ 53))%Q ->
  exists h m s ms : Z,
    ts seconds
    = (Py.format_0w 2 h ++ ":" ++ Py.format_0w 2 m ++ ":" ++ Py.format_0w 2 s
         ++ "," ++ Py.format_0w 3 ms)%string
    /\ 0 <= h /\ 0 <= m < 60 /\ 0 <= s < 60 /\ 0 <= ms < 1000
    /\ Qfloor (seconds * 1000)
       <= 3600000 * h + 60000 * m + 1000 * s + ms
       <= Qfloor (seconds * 1000) + 1.
Proof.
  intros Hf Hs H53.
  exists (Spec.hours seconds), (Spec.minutes seconds), (Spec.secs seconds),
    (Spec.millis_double seconds).
  pose proof (hours_nonneg seconds Hs) as Hh.
  pose proof (minutes_bounds seconds) as Hm.
  pose proof (secs_bounds seconds) as Hsec.
  pose proof (millis_double_bounds seconds Hf Hs) as Hms.
  pose proof (millis_double_near seconds) as Hnear.
  pose proof (fields_total seconds) as Htot.
  split.
  { rewrite (ts_components seconds Hf Hs H53). unfold Spec.format.
    now rewrite !format_0w_nonneg by lia. }
  repeat (split; [lia|]).
  lia.
Qed.

Lemma ts_total_millis_witness :
  exists h m s ms : Z,
    ts (5404319552844595 # 18014398509481984)
    = (Py.format_0w 2 h ++ ":" ++ Py.format_0w 2 m ++ ":" ++ Py.format_0w 2 s
         ++ "," ++ Py.format_0w 3 ms)%string
    /\ 0 <= h /\ 0 <= m < 60 /\ 0 <= s < 60 /\ 0 <= ms < 1000
    /\ Qfloor ((5404319552844595 # 18014398509481984) * 1000)
       <= 3600000 * h + 60000 * m + 1000 * s + ms
       <= Qfloor ((5404319552844595 # 18014398509481984) * 1000) + 1.
Proof.
  apply (ts_total_millis (5404319552844595 # 18014398509481984)).
  - vm_compute. reflexivity.
  - unfold Qle. simpl. lia.
  - unfold Qlt. simpl. lia.
Defined.

(** ** A run of the pipeline that succeeds *)

Ltac failed_path Hres := cbv beta iota in Hres; discriminate Hres.

(** The end of a successful run: the use is recorded and the output opens.
    [pick] chooses which of the two ways of rendering was taken. *)
Ltac delivered Hres pick :=
  cbv beta iota in Hres;
  unfold bind at 1 in Hres; rewrite add_use_eval in Hres;
  unfold bind at 1 in Hres; rewrite fs_do_eval in Hres;
  cbn [log logged supabase files] in Hres;
  destruct (fs_ok _ _ (OpenRead _)); unfold ret in Hres; [|failed_path Hres];
  unfold logged in Hres; cbn [log supabase files] in Hres;
  injection Hres as <- <-; cbn [log supabase files];
  eexists _, _, _; (split; [eassumption|]); (split; [reflexivity|]);
  (split; [reflexivity|]); (split; [reflexivity|]);
  (split; [eexists; eassumption|]);
  rewrite <- ?app_assoc; cbn [app]; pick.

Ltac styled_render :=
  eexists [_]; split; [reflexivity | left; reflexivity].

Ltac plain_render :=
  eexists [_; _]; split;
  [reflexivity | right; eexists; split; [|reflexivity]; discriminate].

(** What a successful run leaves behind: the upload saved under
    [temp/<uuid>.mp4], the caption track of the segments the engine
    returned for the extracted audio, one usage record dated by the store,
    and a response that streams the rendered file. *)
Lemma pipeline_ok (E : Env) (file : Upload) (email plan : string) (w w' : World)
    (resp : Response) :
  pipeline E file email plan w = (Ok resp, w') ->
  let u := uuid4 E (log w ++ [EvFs (Makedirs "temp") true]) in
  let video_path := Os.path_join "temp" (u ++ ".mp4") in
  let audio_path := (Py.rsplit1_head "." video_path ++ ".mp3")%string in
  let srt_path := (Py.rsplit1_head "." video_path ++ ".srt")%string in
  exists (segs : list Segment) (out : string) (l_rec : list Event),
    burn_out_path video_path = Ok out
    /\ resp = StreamingResponse out "video/mp4"
                [("Content-Disposition"%string,
                  ("attachment; filename=" ++ dquote ++ "video_legenda.mp4"
                     ++ dquote)%string)]
    /\ files w' = <[srt_path := Spec.track segs]>
                    (<[video_path := upload_bytes file]> (files w))
    /\ supabase w'
       = with_use {| uso_email := email; uso_video_nome := Os.basename video_path;
                     uso_plano := plan; uso_data := usos_data_default E l_rec |}
           <$> supabase w
    /\ (exists l : list Event, model_transcribe E l audio_path = Some segs)
    /\ exists render : list Event,
         log w'
         = (log w
              ++ [EvFs (Makedirs "temp") true; EvUuid u;
                  EvFs (OpenWrite video_path) true;
                  EvRun (extract_cmd video_path) (Exited 0);
                  EvTranscribe audio_path true;
                  EvPrint (List.map seg_text segs);
                  EvFs (Makedirs (srt_dir srt_path)) true;
                  EvFs (OpenWrite srt_path) true;
                  EvExists srt_path true]
              ++ render ++ [EvFs (OpenRead out) true])%list
         /\ (render = [EvRun (styled_cmd video_path srt_path out) (Exited 0)]
             \/ exists n : Z,
                  n <> 0
                  /\ render = [EvRun (styled_cmd video_path srt_path out) (Exited n);
                               EvRun (plain_cmd video_path srt_path out) (Exited 0)]).
Proof.
  intros Hres. cbv zeta. unfold pipeline in Hres.
  unfold bind at 1 in Hres. rewrite save_temp_file_eval in Hres. cbv zeta in Hres.
  destruct (fs_ok E (log w) (Makedirs "temp")); [|failed_path Hres].
  destruct (fs_ok E _ (OpenWrite _)); [|failed_path Hres].
  set (u := uuid4 E _) in *.
  set (video_path := Os.path_join "temp" (u ++ ".mp4")) in *.
  unfold bind at 1 in Hres. rewrite extract_audio_eval in Hres.
  cbv zeta in Hres. cbn [log] in Hres.
  destruct (run_child E _ _) as [[|p|p]|]; cbn [run_outcome] in Hres;
    [|failed_path Hres..].
  cbv beta iota in Hres.
  unfold bind at 1 in Hres. rewrite transcribe_segments_eval in Hres.
  cbn [log logged] in Hres.
  destruct (model_transcribe E _ _) as [segs|] eqn:Hsegs; [|failed_path Hres].
  unfold bind at 1 in Hres. unfold emit at 1 in Hres. cbv beta iota in Hres.
  unfold bind at 1 in Hres. rewrite write_srt_eval in Hres.
  cbv zeta in Hres. cbn [log logged supabase files] in Hres.
  destruct (fs_ok E _ (Makedirs _)); [|failed_path Hres].
  destruct (fs_ok E _ (OpenWrite _)); [|failed_path Hres].
  unfold bind at 1 in Hres. rewrite burn_subs_eval in Hres.
  destruct (pipeline_out_path u) as (out & Hout). fold video_path in Hout.
  rewrite Hout in Hres. cbv zeta in Hres. cbn [log logged supabase files] in Hres.
  destruct (path_exists E _ _); [|failed_path Hres].
  destruct (run_child E _ (styled_cmd _ _ _)) as [[|p|p]|];
    [| | |failed_path Hres].
  - delivered Hres styled_render.
  - destruct (run_child E _ (plain_cmd _ _ _)) as [[|q|q]|];
      cbn [run_outcome] in Hres;
      [delivered Hres plain_render | failed_path Hres..].
  - destruct (run_child E _ (plain_cmd _ _ _)) as [[|q|q]|];
      cbn [run_outcome] in Hres;
      [delivered Hres plain_render | failed_path Hres..].
Qed.

(** ** The user table *)

Lemma rows_of_with_user (email : string) (st : Store) :
  rows_of email (with_user email st)
  = match rows_of email st with
    | [] => [{| u_email := email; u_plano := "gratuito" |}]
    | rows => rows
    end.
Proof.
  unfold with_user. fold (rows_of email st).
  destruct (rows_of email st) as [|r rows] eqn:Hr; [|now rewrite Hr].
  unfold rows_of in *. simpl. rewrite List.filter_app, Hr. simpl.
  now rewrite String.eqb_refl.
Qed.

Lemma rows_of_with_user_other (email other : string) (st : Store) :
  other <> email -> rows_of other (with_user email st) = rows_of other st.
Proof.
  intros Hne. unfold with_user. destruct (List.filter _ (usuarios st)); [|reflexivity].
  unfold rows_of. simpl. rewrite List.filter_app. simpl.
  destruct (String.eqb_spec email other) as [->|_]; [contradiction|].
  apply app_nil_r.
Qed.

Lemma with_user_idempotent (email : string) (st : Store) :
  with_user email (with_user email st) = with_user email st.
Proof.
  unfold with_user at 1. fold (rows_of email (with_user email st)).
  rewrite rows_of_with_user. now destruct (rows_of email st).
Qed.

Lemma plan_of_with_user (email : string) (st : Store) (fs : gmap string string)
    (l l' : list Event) (fs' : gmap string string) :
  plan_of {| supabase := Some (with_user email st); files := fs; log := l |} email
  = plan_of {| supabase := Some st; files := fs'; log := l' |} email.
Proof.
  unfold plan_of. cbn [supabase]. fold (rows_of email (with_user email st)).
  fold (rows_of email st). rewrite rows_of_with_user.
  now destruct (rows_of email st).
Qed.

(** X2. [get_or_create_user] is idempotent: a second call for the same e-mail
    returns the same plan and changes nothing.  The first call adds one
    row, with the free plan, exactly when the e-mail has no row yet;
    it never changes the rows of other e-mails or the usage records, and
    the plan it returns is the one of the first row of the e-mail. *)
Theorem get_or_create_user_idempotent (email : string) (w : World) :
  let r1 := get_or_create_user email w in
  let r2 := get_or_create_user email (snd r1) in
  r2 = r1
  /\ files (snd r1) = files w /\ log (snd r1) = log w
  /\ (forall st : Store,
        supabase w = Some st ->
        exists st' : Store,
          supabase (snd r1) = Some st'
          /\ usos st' = usos st
          /\ (rows_of email st = [] ->
              usuarios st'
              = (usuarios st ++ [{| u_email := email; u_plano := "gratuito" |}])%list
              /\ fst r1 = Ok "gratuito"%string)
          /\ (forall (r : Usuario) (rows : list Usuario),
                rows_of email st = r :: rows ->
                st' = st /\ fst r1 = Ok (u_plano r))
          /\ (forall other : string,
                other <> email -> rows_of other st' = rows_of other st)).
Proof.
  cbv zeta. rewrite !get_or_create_user_eval. cbn [fst snd supabase files log].
  split.
  { destruct w as [[st|] fs l]; cbn [supabase files log fmap option_fmap option_map];
      [|reflexivity].
    now rewrite (plan_of_with_user email st fs l l fs), with_user_idempotent. }
  split; [reflexivity|]. split; [reflexivity|].
  intros st Hst. rewrite Hst. exists (with_user email st).
  split; [reflexivity|]. split; [apply usos_with_user|].
  unfold plan_of. rewrite Hst. fold (rows_of email st).
  split; [|split].
  - intros Hrows. unfold with_user. fold (rows_of email st). now rewrite Hrows.
  - intros r rows Hrows. unfold with_user. fold (rows_of email st).
    now rewrite Hrows.
  - intros other Hne. now apply rows_of_with_user_other.
Qed.

Lemma get_or_create_user_idempotent_witness :
  exists st' : Store,
    supabase (snd (get_or_create_user "new@b.com"
                     (Sample.world (Some Sample.spent_store)))) = Some st'
    /\ usos st' = usos Sample.spent_store
    /\ (rows_of "new@b.com" Sample.spent_store = [] ->
        usuarios st'
        = (usuarios Sample.spent_store
             ++ [{| u_email := "new@b.com"; u_plano := "gratuito" |}])%list
        /\ fst (get_or_create_user "new@b.com"
                  (Sample.world (Some Sample.spent_store)))
           = Ok "gratuito"%string)
    /\ (forall (r : Usuario) (rows : list Usuario),
          rows_of "new@b.com" Sample.spent_store = r :: rows ->
          st' = Sample.spent_store
          /\ fst (get_or_create_user "new@b.com"
                    (Sample.world (Some Sample.spent_store))) = Ok (u_plano r))
    /\ (forall other : string,
          other <> "new@b.com"%string ->
          rows_of other st' = rows_of other Sample.spent_store).
Proof.
  destruct (get_or_create_user_idempotent "new@b.com"
              (Sample.world (Some Sample.spent_store))) as (_ & _ & _ & H).
  exact (H Sample.spent_store eq_refl).
Defined.

(** ** Counting uses *)

Lemma used_of_month (E : Env) (y m : Z) (w : World) (st : Store) (email : string) :
  within_month E y m -> supabase w = Some st ->
  used_of E w email
  = Z.of_nat (length (uses_since email {| year := y; month := m; in_month := 0 |} st)).
Proof.
  intros Hm Hst. unfold used_of. rewrite Hst.
  destruct (Hm (log w)) as (-> & -> & _). reflexivity.
Qed.

Lemma uses_since_with_use (email : string) (start : Datetime) (u : Uso) (st : Store) :
  length (uses_since email start (with_use u st))
  = (length (uses_since email start st)
     + if String.eqb (uso_email u) email && datetime_geb (uso_data u) start
       then 1 else 0)%nat.
Proof.
  unfold uses_since, with_use. cbn [usos]. rewrite List.filter_app, length_app.
  simpl. now destruct (_ && _).
Qed.

(** X3. Recording a use and counting compose: after [add_use] the count of the
    month is one higher for the e-mail recorded, provided the store dates
    the record in the current month, and is the same for every other
    e-mail. *)
Theorem add_use_counted (E : Env) (w : World) (st : Store)
    (email video_name plan other : string) :
  supabase w = Some st ->
  used_of E (snd (add_use E email video_name plan w)) other
  = used_of E w other
    + (if String.eqb email other
          && datetime_geb (usos_data_default E (log w))
               (month_start (utcnow E (log w)))
       then 1 else 0).
Proof.
  intros Hst. rewrite add_use_eval. unfold used_of. cbn [snd supabase log].
  rewrite Hst. cbn [fmap option_fmap option_map]. cbv zeta.
  rewrite uses_since_with_use. unfold use_record, month_start.
  cbn [uso_email uso_data]. destruct (_ && _); lia.
Qed.

Lemma add_use_counted_witness :
  used_of Sample.env
    (snd (add_use Sample.env "a@b.com" "v.mp4" "gratuito"
            (Sample.world (Some Sample.spent_store)))) "a@b.com"
  = used_of Sample.env (Sample.world (Some Sample.spent_store)) "a@b.com"
    + (if String.eqb "a@b.com" "a@b.com"
          && datetime_geb
               (usos_data_default Sample.env
                  (log (Sample.world (Some Sample.spent_store))))
               (month_start
                  (utcnow Sample.env (log (Sample.world (Some Sample.spent_store)))))
       then 1 else 0).
Proof.
  apply (add_use_counted Sample.env (Sample.world (Some Sample.spent_store))
           Sample.spent_store).
  reflexivity.
Defined.

Lemma earlier_month_not_geb (r t : Datetime) :
  earlier_month r t = true -> datetime_geb r (month_start t) = false.
Proof.
  unfold earlier_month, datetime_geb, month_start. cbn [year month in_month].
  intros H. apply orb_true_iff in H as [H|H].
  - apply Z.ltb_lt in H.
    destruct (Z.ltb_spec (year t) (year r)); [lia|].
    destruct (Z.eqb_spec (year r) (year t)); [lia | reflexivity].
  - apply andb_true_iff in H as [H1 H2].
    apply Z.eqb_eq in H1. apply Z.ltb_lt in H2.
    destruct (Z.ltb_spec (year t) (year r)); [lia|].
    destruct (Z.ltb_spec (month t) (month r)); [lia|].
    destruct (Z.eqb_spec (month r) (month t)); [lia|].
    now rewrite andb_false_r.
Qed.

(** X4. A new month resets the count without touching the records: when every
    record of the e-mail is dated in a month before the current one,
    [count_uses_this_month] returns 0 and leaves the store as it is. *)
Theorem earlier_months_not_counted (E : Env) (w : World) (st : Store)
    (email : string) :
  supabase w = Some st ->
  (forall r : Uso,
      In r (usos st) -> uso_email r = email ->
      earlier_month (uso_data r) (utcnow E (log w)) = true) ->
  fst (count_uses_this_month E email w) = Ok 0
  /\ supabase (snd (count_uses_this_month E email w)) = Some st
  /\ files (snd (count_uses_this_month E email w)) = files w.
Proof.
  intros Hst Hold. rewrite count_uses_this_month_eval, Hst. cbn [fst snd].
  split; [|split; [exact Hst | reflexivity]].
  unfold used_of. rewrite Hst. cbv zeta. fold (month_start (utcnow E (log w))).
  unfold uses_since.
  assert (Hnil : List.filter
                   (fun r => String.eqb (uso_email r) email
                             && datetime_geb (uso_data r)
                                  (month_start (utcnow E (log w))))
                   (usos st) = []).
  { induction (usos st) as [|r rs IH]; [reflexivity|]. simpl.
    destruct (String.eqb_spec (uso_email r) email) as [He|_]; simpl.
    - rewrite earlier_month_not_geb by (apply Hold; [now left | exact He]).
      apply IH. intros r' Hin. apply Hold. now right.
    - apply IH. intros r' Hin. apply Hold. now right. }
  now rewrite Hnil.
Qed.

Lemma earlier_months_not_counted_witness :
  fst (count_uses_this_month Sample.env "a@b.com"
         (Sample.world (Some Sample2.april_store))) = Ok 0.
Proof.
  refine (proj1 (earlier_months_not_counted Sample.env
                   (Sample.world (Some Sample2.april_store))
                   Sample2.april_store "a@b.com" eq_refl _)).
  intros r Hin _. simpl in Hin.
  destruct Hin as [<-|[<-|[<-|[]]]]; reflexivity.
Defined.

(** ** The quota over successive requests *)

Lemma full_process_ok_inv (E : Env) (file : Upload) (w : World) (resp : Response) :
  fst (full_process E file w) = Ok resp ->
  email_ok (form_email file) = true
  /\ (limit_for (plan_of w (form_email file)) <=? used_of E w (form_email file))
     = false
  /\ full_process E file w
     = pipeline E file (form_email file) (plan_of w (form_email file))
         (gate_world E (form_email file) w).
Proof.
  rewrite full_process_gate. cbv zeta.
  destruct (email_ok (form_email file)); [|discriminate].
  destruct (limit_for _ <=? _); [discriminate|]. auto.
Qed.

(** X5. Within one calendar month a successful request uses up exactly one
    unit of the requester's allowance and none of anybody else's; the plan
    stays the same.  So once the count reaches the allowance (for the free
    plan: after the third success) the next request of the same user is
    answered with 403. *)
Theorem quota_boundary (E : Env) (y m : Z) (file : Upload) (w : World)
    (st : Store) (resp : Response) :
  within_month E y m ->
  supabase w = Some st ->
  fst (full_process E file w) = Ok resp ->
  let email := form_email file in
  let w' := snd (full_process E file w) in
  used_of E w' email = used_of E w email + 1
  /\ used_of E w email < limit_for (plan_of w email)
  /\ plan_of w' email = plan_of w email
  /\ (forall other : string, other <> email -> used_of E w' other = used_of E w other)
  /\ (limit_for (plan_of w email) = used_of E w email + 1 ->
      fst (full_process E file w')
      = Raise (HTTPException 403
                 (quota_message (plan_of w email) (limit_for (plan_of w email))))).
Proof.
  intros Hm Hst Hok. cbv zeta.
  destruct (full_process_ok_inv E file w resp Hok) as (Hemail & Hgate & Hfull).
  apply Z.leb_gt in Hgate.
  rewrite Hfull in *.
  destruct (pipeline E file (form_email file) (plan_of w (form_email file))
              (gate_world E (form_email file) w)) as [r w'] eqn:Hp.
  cbn [fst snd] in *. subst r.
  destruct (pipeline_ok _ _ _ _ _ _ _ Hp)
    as (segs & out & l_rec & _ & _ & _ & Hsb & _ & _).
  unfold gate_world in Hsb. rewrite Hst in Hsb.
  cbn [supabase fmap option_fmap option_map] in Hsb.
  set (u := {| uso_email := form_email file; uso_video_nome := _;
               uso_plano := _; uso_data := _ |}) in Hsb.
  assert (Hused : forall other : string,
             used_of E w' other
             = used_of E w other
               + if String.eqb (form_email file) other then 1 else 0).
  { intros other.
    rewrite (used_of_month E y m w' _ other Hm Hsb).
    rewrite (used_of_month E y m w st other Hm Hst).
    rewrite uses_since_with_use. unfold uses_since. rewrite usos_with_user.
    subst u. cbn [uso_email uso_data].
    destruct (Hm l_rec) as (_ & _ & ->). rewrite andb_true_r.
    destruct (String.eqb _ _); lia. }
  assert (Hplan : plan_of w' (form_email file) = plan_of w (form_email file)).
  { unfold plan_of. rewrite Hsb, Hst. cbn [with_use usuarios].
    fold (rows_of (form_email file) (with_user (form_email file) st)).
    fold (rows_of (form_email file) st). rewrite rows_of_with_user.
    now destruct (rows_of (form_email file) st). }
  split; [rewrite Hused, String.eqb_refl; lia|].
  split; [exact Hgate|]. split; [exact Hplan|]. split.
  - intros other Hne. rewrite Hused.
    destruct (String.eqb_spec (form_email file) other); [congruence | lia].
  - intros Hlim. rewrite full_process_gate. cbv zeta.
    rewrite Hemail, Hplan, Hused, String.eqb_refl.
    assert (Hle : (limit_for (plan_of w (form_email file))
                   <=? used_of E w (form_email file) + 1) = true)
      by (apply Z.leb_le; lia).
    now rewrite Hle.
Qed.

Lemma sample_within_month : within_month Sample.env 2024 5.
Proof. intros l. repeat split. Qed.

Lemma quota_boundary_witness :
  used_of Sample.env
    (snd (full_process Sample.env Sample.upload
            (Sample.world (Some Sample2.two_uses_store)))) "a@b.com" = 3
  /\ fst (full_process Sample.env Sample.upload
            (snd (full_process Sample.env Sample.upload
                    (Sample.world (Some Sample2.two_uses_store)))))
     = Raise (HTTPException 403 (quota_message "gratuito" 3)).
Proof.
  destruct (quota_boundary Sample.env 2024 5 Sample.upload
              (Sample.world (Some Sample2.two_uses_store)) Sample2.two_uses_store
              (StreamingResponse "temp/0b5e_final.mp4" "video/mp4"
                 [("Content-Disposition"%string,
                   ("attachment; filename=" ++ dquote ++ "video_legenda.mp4"
                      ++ dquote)%string)])
              sample_within_month eq_refl eq_refl)
    as (Hused & _ & _ & _ & Hnext).
  split; [exact Hused | exact (Hnext eq_refl)].
Defined.

(** ** What a request may change in the store *)

(** X6. [full_process] only ever adds to the store: whatever the outcome, the
    rows of both tables that were there are still there, unchanged and in
    the same order.  At most one user row is added, for the requester with
    the free plan and only when the e-mail had no row, and at most one
    usage record. *)
Theorem full_process_append_only (E : Env) (file : Upload) (w : World) (st : Store) :
  supabase w = Some st ->
  exists (st' : Store) (new_users : list Usuario) (new_uses : list Uso),
    supabase (snd (full_process E file w)) = Some st'
    /\ usuarios st' = (usuarios st ++ new_users)%list
    /\ usos st' = (usos st ++ new_uses)%list
    /\ (new_users = []
        \/ (new_users = [{| u_email := form_email file; u_plano := "gratuito" |}]
            /\ rows_of (form_email file) st = []))
    /\ (length new_uses <= 1)%nat.
Proof.
  intros Hst. rewrite full_process_gate. cbv zeta.
  assert (Hwu : exists new_users : list Usuario,
             usuarios (with_user (form_email file) st)
             = (usuarios st ++ new_users)%list
             /\ (new_users = []
                 \/ (new_users = [{| u_email := form_email file;
                                     u_plano := "gratuito" |}]
                     /\ rows_of (form_email file) st = []))).
  { unfold with_user. fold (rows_of (form_email file) st).
    destruct (rows_of (form_email file) st).
    - eexists. split; [reflexivity | right; auto].
    - exists []. split; [now rewrite app_nil_r | now left]. }
  destruct Hwu as (new_users & Husers & Hnew).
  destruct (email_ok (form_email file)).
  2:{ exists st, [], []. cbn [snd]. rewrite !app_nil_r. repeat split; auto. }
  destruct (limit_for _ <=? _).
  { exists (with_user (form_email file) st), new_users, []. cbn [snd].
    unfold gate_world. rewrite Hst. cbn [supabase].
    rewrite app_nil_r, usos_with_user. repeat split; auto. }
  destruct (pipeline E file (form_email file) (plan_of w (form_email file))
              (gate_world E (form_email file) w)) as [r w'] eqn:Hp.
  destruct (pipeline_facts _ _ _ _ _ _ Hp) as (evs & _ & _ & Hres).
  cbn [fst snd] in *.
  assert (Hgate : supabase (gate_world E (form_email file) w)
                  = Some (with_user (form_email file) st))
    by (unfold gate_world; now rewrite Hst).
  assert (Hcases : supabase w' = Some (with_user (form_email file) st)
                   \/ exists u : Uso,
                        supabase w'
                        = Some (with_use u (with_user (form_email file) st))).
  { destruct r as [resp|e].
    - destruct Hres as (u & out & _ & _ & _ & ->). rewrite Hgate. eauto.
    - destruct Hres as (_ & _ & Hsb).
      destruct e as [| |[]| | | | |]; try (left; now rewrite Hsb).
      destruct Hsb as (u & _ & _ & ->). rewrite Hgate. eauto. }
  destruct Hcases as [->|(u & ->)].
  - exists (with_user (form_email file) st), new_users, [].
    rewrite app_nil_r, usos_with_user. repeat split; auto.
  - exists (with_use u (with_user (form_email file) st)), new_users, [u].
    cbn [with_use usuarios usos]. rewrite usos_with_user. repeat split; auto.
Qed.

Lemma full_process_append_only_witness :
  exists (st' : Store) (new_users : list Usuario) (new_uses : list Uso),
    supabase (snd (full_process Sample.env Sample.upload
                     (Sample.world (Some Sample.empty_store)))) = Some st'
    /\ usuarios st' = (usuarios Sample.empty_store ++ new_users)%list
    /\ usos st' = (usos Sample.empty_store ++ new_uses)%list
    /\ (new_users = []
        \/ (new_users = [{| u_email := form_email Sample.upload;
                            u_plano := "gratuito" |}]
            /\ rows_of (form_email Sample.upload) Sample.empty_store = []))
    /\ (length new_uses <= 1)%nat.
Proof.
  exact (full_process_append_only Sample.env Sample.upload
           (Sample.world (Some Sample.empty_store)) Sample.empty_store eq_refl).
Defined.

(** ** The two refusals of [full_process] *)

(** X7. A call of [full_process] raises [HTTPException(400)] exactly when the
    e-mail it is given is empty or has no ["@"], and then nothing at all
    has happened; it raises [HTTPException(403)] exactly when the e-mail is
    valid and the month's uses have reached the allowance; it raises no
    other [HTTPException]: whatever else goes wrong is the exception of a
    stage. *)
Theorem full_process_refusals (E : Env) (file : Upload) (w : World) :
  let email := form_email file in
  let res := full_process E file w in
  ((exists d : string, fst res = Raise (HTTPException 400 d))
   <-> email_ok email = false)
  /\ (email_ok email = false -> snd res = w)
  /\ ((exists d : string, fst res = Raise (HTTPException 403 d))
      <-> email_ok email = true
          /\ limit_for (plan_of w email) <= used_of E w email)
  /\ (forall (c : Z) (d : string),
        fst res = Raise (HTTPException c d) -> c = 400 \/ c = 403).
Proof.
  cbv zeta. rewrite full_process_gate. cbv zeta.
  destruct (email_ok (form_email file)).
  2:{ cbn [fst snd]. split; [|split; [|split]].
      - split; [reflexivity | intros _; eexists; reflexivity].
      - reflexivity.
      - split; [intros [d Hd]; discriminate | intros [Hd _]; discriminate].
      - intros c d Hd. injection Hd as <- _. now left. }
  destruct (Z.leb_spec (limit_for (plan_of w (form_email file)))
              (used_of E w (form_email file))) as [Hle|Hgt].
  { cbn [fst snd]. split; [|split; [|split]].
    - split; [intros [d Hd]; discriminate | discriminate].
    - discriminate.
    - split; [intros _; split; [reflexivity | exact Hle]
             | intros _; eexists; reflexivity].
    - intros c d Hd. injection Hd as <- _. now right. }
  destruct (pipeline E file (form_email file) (plan_of w (form_email file))
              (gate_world E (form_email file) w)) as [r w'] eqn:Hp.
  destruct (pipeline_facts _ _ _ _ _ _ Hp) as (evs & _ & _ & Hres).
  cbn [fst snd] in *.
  assert (Hno : forall (c : Z) (d : string), r <> Raise (HTTPException c d)).
  { intros c d ->. destruct Hres as (Hhttp & _). now apply (Hhttp c d). }
  split; [|split; [|split]].
  - split; [intros [d Hd]; now apply Hno in Hd | discriminate].
  - discriminate.
  - split; [intros [d Hd]; now apply Hno in Hd | intros [_ Hd]; lia].
  - intros c d Hd. now apply Hno in Hd.
Qed.

Lemma full_process_refusals_witness :
  snd (full_process Sample.env Sample2.no_at
         (Sample.world (Some Sample.spent_store)))
  = Sample.world (Some Sample.spent_store)
  /\ exists d : string,
       fst (full_process Sample.env Sample2.no_at
              (Sample.world (Some Sample.spent_store)))
       = Raise (HTTPException 400 d).
Proof.
  destruct (full_process_refusals Sample.env Sample2.no_at
              (Sample.world (Some Sample.spent_store))) as (H400 & Hw & _).
  split; [exact (Hw eq_refl) | exact (proj2 H400 eq_refl)].
Defined.

(** ** The payment webhook and the user table *)

Lemma set_plano_emails (email plano : string) (st : Store) :
  List.map u_email (usuarios (set_plano email plano st))
  = List.map u_email (usuarios st).
Proof.
  unfold set_plano. cbn [usuarios]. rewrite List.map_map.
  apply List.map_ext. intros u. now destruct (String.eqb (u_email u) email).
Qed.

Lemma rows_of_set_plano (email plano other : string) (st : Store) :
  rows_of other (set_plano email plano st)
  = if String.eqb other email
    then List.map (fun u => {| u_email := u_email u; u_plano := plano |})
           (rows_of other st)
    else rows_of other st.
Proof.
  unfold rows_of, set_plano. cbn [usuarios].
  induction (usuarios st) as [|u us IH]; simpl; [now destruct (String.eqb _ _)|].
  destruct (String.eqb_spec (u_email u) email) as [Hu|Hu]; cbn [u_email].
  - destruct (String.eqb_spec (u_email u) other) as [Ho|Ho].
    + assert (Hoe : String.eqb other email = true)
        by (apply String.eqb_eq; congruence).
      rewrite Hoe in *. simpl. now rewrite IH.
    + rewrite IH. now destruct (String.eqb other email).
  - destruct (String.eqb_spec (u_email u) other) as [Ho|Ho].
    + assert (Hoe : String.eqb other email = false)
        by (apply String.eqb_neq; congruence).
      rewrite Hoe in *. now rewrite IH.
    + exact IH.
Qed.

Lemma set_plano_idempotent (email plano : string) (st : Store) :
  set_plano email plano (set_plano email plano st) = set_plano email plano st.
Proof.
  unfold set_plano. cbn [usuarios usos]. f_equal. rewrite List.map_map.
  apply List.map_ext. intros u.
  destruct (String.eqb (u_email u) email) eqn:Hu; cbn [u_email]; now rewrite Hu.
Qed.

Lemma set_plano_absent (email plano : string) (st : Store) :
  rows_of email st = [] -> set_plano email plano st = st.
Proof.
  intros Hrows. unfold set_plano, rows_of in *. destruct st as [us rs].
  cbn [usuarios usos] in *. f_equal.
  induction us as [|u us IH]; [reflexivity|]. simpl in *.
  destruct (String.eqb (u_email u) email); [discriminate|]. now rewrite IH.
Qed.

Lemma stripe_webhook_checkout (E : Env) (w : World) (request : WebhookRequest)
    (secret : string) (st : Store) (event : StripeEvent) (email : string) :
  STRIPE_WEBHOOK_SECRET E = Some secret -> secret <> ""%string ->
  supabase w = Some st ->
  construct_event E (payload request) (stripe_signature request) secret
  = Some event ->
  ev_type event = "checkout.session.completed"%string ->
  ev_customer_email event = Some email ->
  stripe_webhook E request w
  = (Ok (JsonStatus "ok"),
     {| supabase := Some (set_plano email "criador" st);
        files := files w; log := log w |}).
Proof.
  intros Hsec Hne Hst Hev Htype Hmail.
  unfold stripe_webhook, bind, get_supabase, set_store, ret.
  rewrite Hsec, Hst. destruct secret; [contradiction|].
  cbn [String.length Nat.eqb]. now rewrite Hev, Htype, Hmail.
Qed.

(** X8. A verified ["checkout.session.completed"] event puts every row of the
    customer's e-mail on the creator plan, whatever the plan was before (a
    pro user included), so the allowance of a known customer becomes 30.
    No row is created when the customer has none: the event is then
    acknowledged and lost.  Other users, the usage records, the files and
    the log are untouched, and delivering the same event again changes
    nothing more. *)
Theorem webhook_checkout_upgrade (E : Env) (w : World) (request : WebhookRequest)
    (secret : string) (st : Store) (event : StripeEvent) (email : string) :
  STRIPE_WEBHOOK_SECRET E = Some secret -> secret <> ""%string ->
  supabase w = Some st ->
  construct_event E (payload request) (stripe_signature request) secret
  = Some event ->
  ev_type event = "checkout.session.completed"%string ->
  ev_customer_email event = Some email ->
  let res := stripe_webhook E request w in
  fst res = Ok (JsonStatus "ok")
  /\ files (snd res) = files w /\ log (snd res) = log w
  /\ stripe_webhook E request (snd res) = res
  /\ exists st' : Store,
       supabase (snd res) = Some st'
       /\ usos st' = usos st
       /\ List.map u_email (usuarios st') = List.map u_email (usuarios st)
       /\ Forall (fun u => u_plano u = "criador"%string) (rows_of email st')
       /\ length (rows_of email st') = length (rows_of email st)
       /\ (forall other : string,
             other <> email -> rows_of other st' = rows_of other st)
       /\ (rows_of email st <> [] -> limit_for (plan_of (snd res) email) = 30)
       /\ (rows_of email st = [] -> st' = st).
Proof.
  intros Hsec Hne Hst Hev Htype Hmail. cbv zeta.
  rewrite (stripe_webhook_checkout E w request secret st event email)
    by assumption.
  cbn [fst snd files log].
  split; [reflexivity|]. split; [reflexivity|]. split; [reflexivity|]. split.
  { rewrite (stripe_webhook_checkout E _ request secret
               (set_plano email "criador" st) event email)
      by (assumption || reflexivity).
    now rewrite set_plano_idempotent. }
  exists (set_plano email "criador" st). split; [reflexivity|].
  split; [reflexivity|]. split; [apply set_plano_emails|].
  assert (Hrows : rows_of email (set_plano email "criador" st)
                  = List.map (fun u => {| u_email := u_email u;
                                          u_plano := "criador" |})
                      (rows_of email st)).
  { now rewrite rows_of_set_plano, String.eqb_refl. }
  split; [rewrite Hrows; apply List.Forall_forall; intros u Hu;
          apply List.in_map_iff in Hu as (v & <- & _); reflexivity|].
  split; [now rewrite Hrows, length_map|].
  split.
  { intros other Hne'. rewrite rows_of_set_plano.
    now destruct (String.eqb_spec other email). }
  split; [|apply set_plano_absent].
  intros Hsome. unfold plan_of. cbn [supabase].
  fold (rows_of email (set_plano email "criador" st)). rewrite Hrows.
  destruct (rows_of email st); [contradiction | reflexivity].
Qed.

Lemma webhook_checkout_upgrade_witness :
  fst (stripe_webhook Sample2.env_checkout Sample.invoice_paid
         (Sample.world (Some Sample2.two_uses_store))) = Ok (JsonStatus "ok")
  /\ limit_for
       (plan_of (snd (stripe_webhook Sample2.env_checkout Sample.invoice_paid
                        (Sample.world (Some Sample2.two_uses_store))))
          "p@b.com") = 30.
Proof.
  assert (Hne : "whsec_test"%string <> ""%string) by discriminate.
  destruct (webhook_checkout_upgrade Sample2.env_checkout
              (Sample.world (Some Sample2.two_uses_store)) Sample.invoice_paid
              "whsec_test" Sample2.two_uses_store
              {| ev_type := "checkout.session.completed";
                 ev_customer_email := Some "p@b.com"%string |}
              "p@b.com" eq_refl Hne eq_refl eq_refl eq_refl eq_refl)
    as (Hok & _ & _ & _ & st' & _ & _ & _ & _ & _ & _ & Hlimit & _).
  split; [exact Hok|]. apply Hlimit. discriminate.
Defined.

(** X9. Whatever the request, the webhook handler writes no file, logs no
    outside call, adds or removes no row and changes no usage record; the
    only change it can make is to put rows of the user table on the creator
    plan.  When it raises (400 for a refused signature, an error for a
    checkout event without an e-mail) it has changed nothing, and it
    answers 400 exactly when the integration is configured and the
    signature check fails. *)
Theorem stripe_webhook_frame (E : Env) (w : World) (request : WebhookRequest) :
  let res := stripe_webhook E request w in
  files (snd res) = files w /\ log (snd res) = log w
  /\ (supabase w = None -> snd res = w)
  /\ (forall e : Exn, fst res = Raise e -> snd res = w)
  /\ (forall st : Store,
        supabase w = Some st ->
        exists st' : Store,
          supabase (snd res) = Some st'
          /\ usos st' = usos st
          /\ List.map u_email (usuarios st') = List.map u_email (usuarios st)
          /\ Forall2 (fun u u' => u' = u \/ u_plano u' = "criador"%string)
               (usuarios st) (usuarios st'))
  /\ (http_status (fst res) = 400
      <-> exists secret : string,
            STRIPE_WEBHOOK_SECRET E = Some secret /\ secret <> ""%string
            /\ supabase w <> None
            /\ construct_event E (payload request) (stripe_signature request)
                 secret = None).
Proof.
  cbv zeta.
  assert (Hsame : forall st : Store,
             exists st' : Store,
               Some st = Some st' /\ usos st' = usos st
               /\ List.map u_email (usuarios st') = List.map u_email (usuarios st)
               /\ Forall2 (fun u u' => u' = u \/ u_plano u' = "criador"%string)
                    (usuarios st) (usuarios st')).
  { intros st. exists st. repeat split. apply Forall2_same_length_lookup.
    split; [reflexivity|]. intros i x y Hx Hy. left. congruence. }
  unfold stripe_webhook, bind, get_supabase, ret, raise, set_store.
  destruct w as [[st|] fs l]; cbn [supabase files log fst snd];
    destruct (STRIPE_WEBHOOK_SECRET E) as [secret|] eqn:Hsec;
    try (repeat split; auto; try discriminate;
         [ intros st' [= <-]; apply Hsame
         | intros (s & ? & ? & ? & ?); congruence ]);
    try (repeat split; auto; try discriminate;
         intros (s & ? & ? & ? & ?); congruence).
  destruct secret as [|c secret]; cbn [String.length Nat.eqb fst snd].
  { repeat split; auto; try discriminate.
    - intros st' [= <-]. apply Hsame.
    - intros (s & [= <-] & ? & _). contradiction. }
  destruct (construct_event E _ _ _) as [event|] eqn:Hev; cbn [fst snd].
  2:{ repeat split; auto; try discriminate.
      - intros st' [= <-]. apply Hsame.
      - intros _. exists (String c secret). repeat split; auto; discriminate. }
  destruct (String.eqb _ _); [destruct (ev_customer_email event) as [email|]|];
    cbn [fst snd supabase files log http_status];
    repeat split; auto; try discriminate;
    try (intros st' [= <-]; apply Hsame);
    try (intros (s & [= <-] & _ & _ & Hnone); congruence).
  intros st' [= <-]. exists (set_plano email "criador" st).
  split; [reflexivity|]. split; [reflexivity|]. split; [apply set_plano_emails|].
  unfold set_plano. cbn [usuarios].
  induction (usuarios st) as [|u us IH]; simpl; constructor; auto.
  destruct (String.eqb (u_email u) email); auto.
Qed.

Lemma stripe_webhook_frame_witness :
  stripe_webhook Sample2.env_bad_signature Sample.invoice_paid
    (Sample.world (Some Sample.spent_store))
  = (Raise (HTTPException 400 ("Webhook inv" ++ a_acute ++ "lido")),
     Sample.world (Some Sample.spent_store)).
Proof.
  destruct (stripe_webhook_frame Sample2.env_bad_signature
              (Sample.world (Some Sample.spent_store)) Sample.invoice_paid)
    as (_ & _ & _ & Hraise & _).
  pose proof (Hraise _ eq_refl) as Hw.
  apply injective_projections; [reflexivity | exact Hw].
Defined.

(** ** The names of the files of a job *)

Lemma app_eq_same_length (a b s t : string) :
  String.length a = String.length b ->
  (a ++ s)%string = (b ++ t)%string -> a = b /\ s = t.
Proof.
  revert b. induction a as [|c a IH]; intros [|d b] Hlen Heq;
    try discriminate; simpl in *; [auto|].
  injection Heq as -> Heq. destruct (IH b) as [-> ->]; auto.
Qed.

Lemma rsplit1_head_temp (u ext : string) :
  Py.contains "." ext = false ->
  Py.rsplit1_head "." ("temp/" ++ u ++ "." ++ ext) = ("temp/" ++ u)%string.
Proof.
  intros Hext. unfold Py.rsplit1_head.
  change ("temp/" ++ u ++ "." ++ ext)%string
    with ("temp/" ++ (u ++ String "." ext))%string.
  rewrite <- string_app_assoc. now rewrite rsplit1_last.
Qed.

Lemma basename_temp (x : string) :
  Py.contains "/" x = false -> Os.basename ("temp/" ++ x) = x.
Proof.
  intros Hx. unfold Os.basename.
  change ("temp/" ++ x)%string with ("temp" ++ String "/" x)%string.
  now rewrite rsplit1_last.
Qed.

Lemma job_names_closed (u : string) :
  u <> ""%string -> Py.contains "/" u = false ->
  job_video u = ("temp/" ++ u ++ ".mp4")%string
  /\ job_audio u = ("temp/" ++ u ++ ".mp3")%string
  /\ job_srt u = ("temp/" ++ u ++ ".srt")%string
  /\ burn_out_path (job_video u) = Ok ("temp/" ++ u ++ "_final.mp4")%string
  /\ Os.basename (job_video u) = (u ++ ".mp4")%string.
Proof.
  intros Hu Hsep.
  destruct (temp_mp4_out_path u Hu Hsep) as (Hjoin & _ & _ & Hout).
  unfold job_audio, job_srt, job_video. rewrite Hjoin.
  change ("temp/" ++ u ++ ".mp4")%string with ("temp/" ++ u ++ "." ++ "mp4")%string.
  rewrite rsplit1_head_temp by reflexivity.
  change ("temp/" ++ u ++ "." ++ "mp4")%string with ("temp/" ++ u ++ ".mp4")%string.
  split; [reflexivity|]. split; [now rewrite string_app_assoc|].
  split; [now rewrite string_app_assoc|]. split; [exact Hout|].
  apply basename_temp. now rewrite contains_app, Hsep.
Qed.

(** X10. For a job identifier without ["/"] the four files of a job are
    [temp/<u>.mp4], [temp/<u>.mp3], [temp/<u>.srt] and
    [temp/<u>_final.mp4]; they are pairwise distinct, and two jobs whose
    identifiers differ and have the same length (as two UUIDs have) share
    none of them. *)
Theorem job_artifact_names (u : string) :
  u <> ""%string -> Py.contains "/" u = false ->
  let names := ["temp/" ++ u ++ ".mp4"; "temp/" ++ u ++ ".mp3";
                "temp/" ++ u ++ ".srt"; "temp/" ++ u ++ "_final.mp4"]%string in
  job_video u = ("temp/" ++ u ++ ".mp4")%string
  /\ job_audio u = ("temp/" ++ u ++ ".mp3")%string
  /\ job_srt u = ("temp/" ++ u ++ ".srt")%string
  /\ burn_out_path (job_video u) = Ok ("temp/" ++ u ++ "_final.mp4")%string
  /\ Os.basename (job_video u) = (u ++ ".mp4")%string
  /\ List.NoDup names
  /\ (forall u' : string,
        String.length u' = String.length u -> u' <> u ->
        forall x : string,
          In x names ->
          ~ In x ["temp/" ++ u' ++ ".mp4"; "temp/" ++ u' ++ ".mp3";
                  "temp/" ++ u' ++ ".srt"; "temp/" ++ u' ++ "_final.mp4"]%string).
Proof.
  intros Hu Hsep. cbv zeta.
  destruct (job_names_closed u Hu Hsep) as (Hv & Ha & Hs & Ho & Hb).
  do 5 (split; [assumption|]).
  assert (Hdiff : forall (a b s t : string),
             String.length a = String.length b -> (s <> t \/ a <> b) ->
             ("temp/" ++ a ++ s)%string <> ("temp/" ++ b ++ t)%string).
  { intros a b s t Hlen Hor Heq. injection Heq as Heq.
    destruct (app_eq_same_length a b s t Hlen Heq) as [-> ->].
    destruct Hor; contradiction. }
  assert (Hlong : forall (a b s t : string),
             String.length a = String.length b ->
             String.length s <> String.length t ->
             ("temp/" ++ a ++ s)%string <> ("temp/" ++ b ++ t)%string).
  { intros a b s t Hlen Hst Heq. apply (f_equal String.length) in Heq.
    simpl in Heq. rewrite !string_length_app in Heq. lia. }
  split.
  - repeat constructor; simpl; intros H;
      repeat (destruct H as [H|H]; [revert H|]); try contradiction;
      first [ apply Hdiff; [reflexivity | left; discriminate]
            | apply Hlong; [reflexivity | simpl; lia] ].
  - intros u' Hlen Hne x Hx Hx'. simpl in Hx, Hx'.
    repeat (destruct Hx as [<-|Hx]; [|]); try contradiction;
      repeat (destruct Hx' as [Hx'|Hx']; [revert Hx'|]); try contradiction;
      first [ apply Hdiff; [exact Hlen | right; exact Hne]
            | apply Hdiff; [exact Hlen | left; discriminate]
            | apply Hlong; [exact Hlen | simpl; lia] ].
Qed.

Lemma job_artifact_names_witness :
  job_audio "0b5e" = "temp/0b5e.mp3"%string
  /\ job_srt "0b5e" = "temp/0b5e.srt"%string
  /\ burn_out_path (job_video "0b5e") = Ok "temp/0b5e_final.mp4"%string.
Proof.
  assert (Hne : "0b5e"%string <> ""%string) by discriminate.
  destruct (job_artifact_names "0b5e" Hne eq_refl)
    as (_ & Ha & Hs & Ho & _).
  auto.
Defined.

(** ** Extraction *)

(** X11. [extract_audio] starts the transcoder exactly once, on the command
    line of line 55, and makes no call to the store.  It returns the audio
    path exactly when the child exits with 0; any other exit status is
    raised as [CalledProcessError] with that status, and a child that
    cannot be started as [FileNotFoundError]. *)
Theorem extract_audio_outcome (E : Env) (video_path : string) (w : World) :
  let res := extract_audio E video_path w in
  let audio_path := (Py.rsplit1_head "." video_path ++ ".mp3")%string in
  supabase (snd res) = supabase w
  /\ exists r : ProcResult,
       new_events w (snd res) = [EvRun (extract_cmd video_path) r]
       /\ (fst res = Ok audio_path <-> r = Exited 0)
       /\ (forall n : Z,
             r = Exited n -> n <> 0 ->
             fst res = Raise (CalledProcessError n (extract_cmd video_path)))
       /\ (r = LaunchFailed ->
           fst res = Raise (FileNotFoundError (extract_cmd video_path))).
Proof.
  cbv zeta. rewrite extract_audio_eval. cbv zeta. cbn [fst snd].
  fold (extract_cmd video_path).
  split; [reflexivity|].
  exists (run_child E (log w) (extract_cmd video_path)).
  rewrite new_events_logged. split; [reflexivity|].
  destruct (run_child E (log w) (extract_cmd video_path)) as [[|p|p]|];
    cbn [run_outcome]; repeat split; try discriminate; try congruence;
    intros n [= <-] Hn; congruence.
Qed.

Lemma extract_audio_outcome_witness :
  fst (extract_audio Sample.env_retry "temp/0b5e.mp4" (Sample.world None))
  = Raise (CalledProcessError 1 (extract_cmd "temp/0b5e.mp4")).
Proof.
  destruct (extract_audio_outcome Sample.env_retry "temp/0b5e.mp4"
              (Sample.world None)) as (_ & r & Hev & _ & Hexit & _).
  apply (Hexit 1); [|discriminate].
  injection Hev as Hr. symmetry. exact Hr.
Defined.

(** ** The renderer's checks *)

(** X12. [burn_subs] makes no call to the store.  It refuses a video path
    without a last component before it looks at anything, and when the
    caption file does not exist it raises a [RuntimeError] naming that file
    without starting the transcoder: the look at the caption file is all
    that has happened. *)
Theorem burn_subs_precondition (E : Env) (w : World) (video_path srt_path : string) :
  let res := burn_subs E video_path srt_path w in
  supabase (snd res) = supabase w
  /\ (Path.name (Path.of_string video_path) = ""%string ->
      exists msg : string, res = (Raise (ValueError msg), w))
  /\ (Path.name (Path.of_string video_path) <> ""%string ->
      path_exists E (log w) srt_path = false ->
      fst res = Raise (RuntimeError ("SRT n" ++ a_tilde ++ "o encontrado: "
                                       ++ srt_path))
      /\ new_events w (snd res) = [EvExists srt_path false]
      /\ runs (new_events w (snd res)) = []).
Proof.
  cbv zeta. rewrite burn_subs_eval.
  split; [|split].
  - destruct (burn_out_path video_path); [|reflexivity]. cbv zeta.
    destruct (path_exists E (log w) srt_path); [|reflexivity].
    destruct (run_child E _ (styled_cmd _ _ _)) as [[| |]|]; reflexivity.
  - intros Hname. unfold burn_out_path, Path.with_name. rewrite Hname.
    cbn [String.eqb]. eauto.
  - intros Hname Hmissing. unfold burn_out_path.
    rewrite with_name_final; auto using name_no_sep; [|simpl; lia].
    cbv zeta. rewrite Hmissing. cbn [fst snd].
    rewrite new_events_logged. auto.
Qed.

Lemma burn_subs_precondition_witness :
  fst (burn_subs Sample2.env_no_srt "temp/0b5e.mp4" "temp/0b5e.srt"
         (Sample.world None))
  = Raise (RuntimeError ("SRT n" ++ a_tilde ++ "o encontrado: " ++ "temp/0b5e.srt")).
Proof.
  destruct (burn_subs_precondition Sample2.env_no_srt (Sample.world None)
              "temp/0b5e.mp4" "temp/0b5e.srt") as (_ & _ & H).
  apply H; [discriminate | reflexivity].
Defined.

(** ** More on the caption track *)

Lemma lstrip_all_space (s : string) :
  Spec.all_space s = true -> Py.lstrip s = ""%string.
Proof.
  induction s as [|c s IH]; simpl; [reflexivity|].
  intros H. apply andb_true_iff in H as [-> Hs]. now apply IH.
Qed.

Lemma srt_block_blank (i : Z) (s : Segment) :
  Spec.all_space (seg_text s) = true ->
  srt_block i s
  = (Py.str_int i ++ nl ++ ts (seg_start s) ++ " --> " ++ ts (seg_end s) ++ nl
       ++ nl ++ nl)%string.
Proof.
  intros Hblank. unfold srt_block, Py.strip.
  now rewrite (lstrip_all_space _ Hblank).
Qed.

Lemma cat_app (a b : list string) :
  Spec.cat (a ++ b) = (Spec.cat a ++ Spec.cat b)%string.
Proof.
  induction a as [|x a IH]; simpl; [reflexivity|].
  now rewrite IH, string_app_assoc.
Qed.

(** X14. The track of a longer list extends the track of its beginning: the
    captions already written are unchanged and the ordinals go on from
    where they stopped.  So does the file [write_srt] writes. *)
Theorem write_srt_extends (E : Env) (w : World) (srt_path : string)
    (first more : list Segment) :
  srt_opens E w srt_path = true ->
  exists doc : string,
    files (snd (write_srt E first srt_path w)) !! srt_path = Some doc
    /\ files (snd (write_srt E (first ++ more) srt_path w)) !! srt_path
       = Some (doc ++ Spec.cat (imap (fun k s =>
                                        srt_block (Z.of_nat (length first + k) + 1) s)
                                     more))%string.
Proof.
  intros Hopen. unfold srt_opens in Hopen.
  apply andb_true_iff in Hopen as [Hmk Hop].
  rewrite !write_srt_eval. cbv zeta. rewrite Hmk, Hop. cbn [snd files].
  exists (Spec.track first). rewrite !lookup_insert_eq. split; [reflexivity|].
  unfold Spec.track, Spec.blocks. rewrite imap_app, cat_app. reflexivity.
Qed.

Lemma write_srt_extends_witness :
  exists doc : string,
    files (snd (write_srt Sample.env [Sample.backwards] "temp/a.srt"
                  (Sample.world None))) !! "temp/a.srt" = Some doc
    /\ files (snd (write_srt Sample.env ([Sample.backwards] ++ Sample.hello_world)
                     "temp/a.srt" (Sample.world None))) !! "temp/a.srt"
       = Some (doc ++ Spec.cat (imap (fun k s =>
                                        srt_block (Z.of_nat (1 + k) + 1) s)
                                     Sample.hello_world))%string.
Proof.
  apply (write_srt_extends Sample.env (Sample.world None) "temp/a.srt"
           [Sample.backwards] Sample.hello_world).
  reflexivity.
Defined.

(** X13. [write_srt] does not skip a segment whose text is nothing but
    whitespace: when the segment at position [k] (from 0) is blank, the
    file holds the blocks of the [k] segments before it, then a block with
    the ordinal [k + 1], the time line of the blank segment and an empty
    caption line, then the blocks of the later segments, whose ordinals go
    on from [k + 2]. *)
Theorem write_srt_blank_segment (E : Env) (w : World) (srt_path : string)
    (segments : list Segment) (k : nat) (s : Segment) :
  srt_opens E w srt_path = true ->
  segments !! k = Some s ->
  Spec.all_space (seg_text s) = true ->
  files (snd (write_srt E segments srt_path w)) !! srt_path
  = Some (Spec.track (take k segments)
            ++ (Py.str_int (Z.of_nat k + 1) ++ nl
                  ++ ts (seg_start s) ++ " --> " ++ ts (seg_end s) ++ nl
                  ++ nl ++ nl)
            ++ Spec.cat (imap (fun j s' => srt_block (Z.of_nat (S k + j) + 1) s')
                           (drop (S k) segments)))%string.
Proof.
  intros Hopen Hk Hblank. unfold srt_opens in Hopen.
  apply andb_true_iff in Hopen as [Hmk Hop].
  rewrite write_srt_eval. cbv zeta. rewrite Hmk, Hop. cbn [snd files].
  rewrite lookup_insert_eq. f_equal.
  pose proof (lookup_lt_Some _ _ _ Hk) as Hlen.
  rewrite <- (take_drop_middle segments k s Hk) at 1.
  unfold Spec.track, Spec.blocks.
  rewrite imap_app, cat_app. f_equal.
  rewrite length_take, Nat.min_l by lia.
  cbn [imap Spec.cat fold_right]. rewrite Nat.add_0_r.
  rewrite (srt_block_blank _ s Hblank). f_equal.
  f_equal. apply imap_ext. intros j x _. cbn. do 2 f_equal. lia.
Qed.

Lemma write_srt_blank_segment_witness :
  files (snd (write_srt Sample.env
                [Sample.backwards;
                 {| seg_start := 0; seg_end := 1; seg_text := "  " |};
                 Sample.backwards]
                "temp/a.srt" (Sample.world None))) !! "temp/a.srt"
  = Some (Spec.track [Sample.backwards]
            ++ (Py.str_int 2 ++ nl ++ ts 0 ++ " --> " ++ ts 1 ++ nl ++ nl ++ nl)
            ++ Spec.cat [srt_block 3 Sample.backwards])%string.
Proof.
  apply (write_srt_blank_segment Sample.env (Sample.world None) "temp/a.srt"
           [Sample.backwards;
            {| seg_start := 0; seg_end := 1; seg_text := "  " |};
            Sample.backwards]
           1 {| seg_start := 0; seg_end := 1; seg_text := "  " |});
    reflexivity.
Defined.

(** ** What the handler has written when a request is delivered *)

(** X15. When [full_process] returns, with a job identifier [u] free of ["/"]:
    the response streams [temp/<u>_final.mp4] as [video/mp4] under the fixed
    download name; the handler has written the bytes uploaded to
    [temp/<u>.mp4] and, to [temp/<u>.srt], the caption track of exactly the
    segments the engine returned for [temp/<u>.mp3]; the usage record added
    to a store carries the e-mail, the plan and the name [<u>.mp4]. *)
Theorem full_process_delivers (E : Env) (file : Upload) (w : World)
    (resp : Response) :
  let w0 := gate_world E (form_email file) w in
  let u := uuid4 E (log w0 ++ [EvFs (Makedirs "temp") true]) in
  let w' := snd (full_process E file w) in
  fst (full_process E file w) = Ok resp ->
  u <> ""%string -> Py.contains "/" u = false ->
  resp = StreamingResponse ("temp/" ++ u ++ "_final.mp4") "video/mp4"
           [("Content-Disposition"%string,
             ("attachment; filename=" ++ dquote ++ "video_legenda.mp4"
                ++ dquote)%string)]
  /\ files w' !! ("temp/" ++ u ++ ".mp4")%string = Some (upload_bytes file)
  /\ (exists (segs : list Segment) (l : list Event),
        model_transcribe E l ("temp/" ++ u ++ ".mp3") = Some segs
        /\ files w' !! ("temp/" ++ u ++ ".srt")%string = Some (Spec.track segs))
  /\ (forall st : Store,
        supabase w = Some st ->
        exists (st' : Store) (rec : Uso),
          supabase w' = Some st'
          /\ usos st' = (usos st ++ [rec])%list
          /\ uso_email rec = form_email file
          /\ uso_video_nome rec = (u ++ ".mp4")%string
          /\ uso_plano rec = plan_of w (form_email file)).
Proof.
  cbv zeta. intros Hok Hu Hsep.
  destruct (full_process_ok_inv E file w resp Hok) as (_ & _ & Hfull).
  rewrite Hfull in *.
  destruct (pipeline E file (form_email file) (plan_of w (form_email file))
              (gate_world E (form_email file) w)) as [r w'] eqn:Hp.
  cbn [fst snd] in *. subst r.
  destruct (pipeline_ok _ _ _ _ _ _ _ Hp)
    as (segs & out & l_rec & Hout & -> & Hfiles & Hsb & (l & Hsegs) & _).
  set (u := uuid4 E _) in *.
  destruct (job_names_closed u Hu Hsep) as (Hv & Ha & Hs & Ho & Hb).
  unfold job_audio, job_srt, job_video in Hv, Ha, Hs, Ho, Hb.
  rewrite Hv in Ha, Hs, Ho, Hb, Hout, Hfiles, Hsb, Hsegs.
  rewrite Ho in Hout. injection Hout as <-.
  rewrite Hs in Hfiles. rewrite Ha in Hsegs. rewrite Hb in Hsb.
  assert (Hne : ("temp/" ++ u ++ ".srt")%string <> ("temp/" ++ u ++ ".mp4")%string).
  { intros Heq. injection Heq as Heq.
    destruct (app_eq_same_length u u ".srt" ".mp4" eq_refl Heq) as [_ ?].
    discriminate. }
  split; [reflexivity|]. split.
  { rewrite Hfiles, lookup_insert_ne by exact Hne. apply lookup_insert_eq. }
  split.
  { exists segs, l. split; [exact Hsegs|]. rewrite Hfiles. apply lookup_insert_eq. }
  intros st Hst. unfold gate_world in Hsb. rewrite Hst in Hsb.
  cbn [supabase fmap option_fmap option_map] in Hsb.
  eexists _, _. split; [exact Hsb|]. cbn [with_use usos uso_email uso_video_nome uso_plano].
  rewrite usos_with_user. auto.
Qed.

Lemma full_process_delivers_witness :
  files (snd (full_process Sample.env Sample.upload
                (Sample.world (Some Sample.empty_store))))
    !! "temp/0b5e.mp4"%string = Some "video"%string.
Proof.
  assert (Hne : uuid4 Sample.env
                  (log (gate_world Sample.env (form_email Sample.upload)
                          (Sample.world (Some Sample.empty_store)))
                     ++ [EvFs (Makedirs "temp") true]) <> ""%string)
    by discriminate.
  destruct (full_process_delivers Sample.env Sample.upload
              (Sample.world (Some Sample.empty_store))
              (StreamingResponse "temp/0b5e_final.mp4" "video/mp4"
                 [("Content-Disposition"%string,
                   ("attachment; filename=" ++ dquote ++ "video_legenda.mp4"
                      ++ dquote)%string)])
              eq_refl Hne eq_refl) as (_ & Hvideo & _).
  exact Hvideo.
Defined.

(** ** The order of the stages *)

(** X16. A request that is delivered has gone through the stages once each and
    in this order: the upload is saved, the audio is extracted by one run
    of the transcoder, the engine is called once on that audio, its texts
    are printed, the caption file is written, the video is rendered (by
    the styled run, or by the styled run failing and the plain run
    succeeding) and the rendered file is opened.  Nothing else happens
    outside the process, the clock read of the gate apart. *)
Theorem full_process_stage_order (E : Env) (file : Upload) (w : World)
    (resp : Response) :
  let w0 := gate_world E (form_email file) w in
  let u := uuid4 E (log w0 ++ [EvFs (Makedirs "temp") true]) in
  fst (full_process E file w) = Ok resp ->
  exists (segs : list Segment) (out : string) (render : list Event),
    new_events w (snd (full_process E file w))
    = (match supabase w with
       | Some _ => [EvNow (utcnow E (log w))]
       | None => []
       end
       ++ [EvFs (Makedirs "temp") true; EvUuid u;
           EvFs (OpenWrite (job_video u)) true;
           EvRun (extract_cmd (job_video u)) (Exited 0);
           EvTranscribe (job_audio u) true;
           EvPrint (List.map seg_text segs);
           EvFs (Makedirs (srt_dir (job_srt u))) true;
           EvFs (OpenWrite (job_srt u)) true;
           EvExists (job_srt u) true]
       ++ render ++ [EvFs (OpenRead out) true])%list
    /\ (render = [EvRun (styled_cmd (job_video u) (job_srt u) out) (Exited 0)]
        \/ exists n : Z,
             n <> 0
             /\ render = [EvRun (styled_cmd (job_video u) (job_srt u) out) (Exited n);
                          EvRun (plain_cmd (job_video u) (job_srt u) out) (Exited 0)])
    /\ resp = StreamingResponse out "video/mp4"
                [("Content-Disposition"%string,
                  ("attachment; filename=" ++ dquote ++ "video_legenda.mp4"
                     ++ dquote)%string)].
Proof.
  cbv zeta. intros Hok.
  destruct (full_process_ok_inv E file w resp Hok) as (_ & _ & Hfull).
  rewrite Hfull in *.
  destruct (pipeline E file (form_email file) (plan_of w (form_email file))
              (gate_world E (form_email file) w)) as [r w'] eqn:Hp.
  cbn [fst snd] in *. subst r.
  destruct (pipeline_ok _ _ _ _ _ _ _ Hp)
    as (segs & out & l_rec & _ & -> & _ & _ & _ & render & Hlog & Hrender).
  exists segs, out, render. split; [|split; [exact Hrender | reflexivity]].
  apply new_events_app. rewrite Hlog, gate_world_log.
  unfold job_audio, job_srt, job_video. now rewrite <- !app_assoc.
Qed.

Lemma full_process_stage_order_witness :
  exists (segs : list Segment) (out : string) (render : list Event),
    new_events (Sample.world None)
      (snd (full_process Sample.env Sample.upload (Sample.world None)))
    = ([] ++ [EvFs (Makedirs "temp") true; EvUuid "0b5e";
              EvFs (OpenWrite (job_video "0b5e")) true;
              EvRun (extract_cmd (job_video "0b5e")) (Exited 0);
              EvTranscribe (job_audio "0b5e") true;
              EvPrint (List.map seg_text segs);
              EvFs (Makedirs (srt_dir (job_srt "0b5e"))) true;
              EvFs (OpenWrite (job_srt "0b5e")) true;
              EvExists (job_srt "0b5e") true]
          ++ render ++ [EvFs (OpenRead out) true])%list
    /\ (render = [EvRun (styled_cmd (job_video "0b5e") (job_srt "0b5e") out)
                    (Exited 0)]
        \/ exists n : Z,
             n <> 0
             /\ render = [EvRun (styled_cmd (job_video "0b5e") (job_srt "0b5e") out)
                            (Exited n);
                          EvRun (plain_cmd (job_video "0b5e") (job_srt "0b5e") out)
                            (Exited 0)])
    /\ StreamingResponse "temp/0b5e_final.mp4" "video/mp4"
         [("Content-Disposition"%string,
           ("attachment; filename=" ++ dquote ++ "video_legenda.mp4"
              ++ dquote)%string)]
       = StreamingResponse out "video/mp4"
           [("Content-Disposition"%string,
             ("attachment; filename=" ++ dquote ++ "video_legenda.mp4"
                ++ dquote)%string)].
Proof.
  exact (full_process_stage_order Sample.env Sample.upload (Sample.world None)
           (StreamingResponse "temp/0b5e_final.mp4" "video/mp4"
              [("Content-Disposition"%string,
                ("attachment; filename=" ++ dquote ++ "video_legenda.mp4"
                   ++ dquote)%string)])
           eq_refl).
Defined.

(** ** A plan the table does not know *)

Lemma limit_for_unknown (plan : string) :
  plan <> "gratuito"%string -> plan <> "criador"%string -> plan <> "pro"%string ->
  limit_for plan = 0.
Proof.
  intros H1 H2 H3. unfold limit_for, plan_limits.
  rewrite !lookup_insert_ne by congruence. now rewrite lookup_empty.
Qed.

Lemma used_of_nonneg (E : Env) (w : World) (email : string) : 0 <= used_of E w email.
Proof. unfold used_of. destruct (supabase w); lia. Qed.

(** X17. A user whose stored plan is none of the three names of the table is
    locked out: the allowance is 0, so every request with a valid e-mail
    is answered with 403, whatever the number of uses. *)
Theorem unknown_plan_locked_out (E : Env) (file : Upload) (w : World) (st : Store)
    (r : Usuario) (rows : list Usuario) :
  supabase w = Some st ->
  rows_of (form_email file) st = r :: rows ->
  u_plano r <> "gratuito"%string -> u_plano r <> "criador"%string ->
  u_plano r <> "pro"%string ->
  email_ok (form_email file) = true ->
  fst (full_process E file w)
  = Raise (HTTPException 403 (quota_message (u_plano r) 0))
  /\ usage_records (snd (full_process E file w)) = usage_records w.
Proof.
  intros Hst Hrows H1 H2 H3 Hemail.
  assert (Hplan : plan_of w (form_email file) = u_plano r).
  { unfold plan_of. rewrite Hst. fold (rows_of (form_email file) st).
    now rewrite Hrows. }
  rewrite full_process_gate. cbv zeta.
  rewrite Hemail, Hplan, (limit_for_unknown _ H1 H2 H3).
  pose proof (used_of_nonneg E w (form_email file)) as Hused.
  apply Z.leb_le in Hused. rewrite Hused. cbn [fst snd].
  split; [reflexivity | apply usage_records_gate].
Qed.

Lemma unknown_plan_locked_out_witness :
  fst (full_process Sample.env Sample.upload
         (Sample.world (Some Sample2.legacy_store)))
  = Raise (HTTPException 403 (quota_message "premium" 0)).
Proof.
  refine (proj1 (unknown_plan_locked_out Sample.env Sample.upload
                   (Sample.world (Some Sample2.legacy_store)) Sample2.legacy_store
                   {| u_email := "a@b.com"; u_plano := "premium" |} []
                   eq_refl eq_refl _ _ _ eq_refl)); discriminate.
Defined.
